(** * Windows Services Manager: the service-lifecycle core

    A shallow embedding of the Go sources [cache.go], [manager.go] and
    [wrapper.go] (with the record types, the theme preference and the
    listing of [app.go]), and the properties of the specification
    established on it.

    Conventions of the embedding.
    - A Go [string] is a [string] of bytes; [strings.Map] and the JSON
      encoder see it through Go's UTF-8 decoder, which is written out.
    - [time.Time] is the number of nanoseconds since the Unix epoch, and
      [time.Duration] a number of nanoseconds, both in [Z].
    - A Go [error] is its message; [fmt.Errorf("ctx: %v", err)] is string
      concatenation.
    - Everything outside the process (service control manager, registry,
      file system, clock) is reached through the interface [Platform]; the
      Manager's methods are state transformers over a [World] that holds
      the platform state, the Manager's fields and the log of the calls
      that were issued.
    - The Manager's lock is not modelled: methods run one at a time.
      Goroutines started with [go] are recorded as spawned and not run. *)

From Stdlib Require Import ZArith Lia List Ascii String.
From stdpp Require Import base option gmap strings list fin_maps pretty sorting.

Local Open Scope string_scope.
Local Open Scope list_scope.
Local Open Scope Z_scope.

(** ** Errors *)

Inductive result (A : Type) : Type :=
| Ok (a : A)
| Err (msg : string).
Arguments Ok {A} a.
Arguments Err {A} msg.

Definition is_Err {A} (r : result A) : bool :=
  match r with Ok _ => false | Err _ => true end.

(** [fmt.Errorf(ctx ++ ": %v", err)] *)
Definition Errorf (context err : string) : string := context +:+ ": " +:+ err.

(** ** Time *)

Definition Time := Z.
Definition Duration := Z.

Definition Nanosecond : Duration := 1.
Definition Millisecond : Duration := 1000000.
Definition Second : Duration := 1000000000.

Definition minDuration : Duration := - 2 ^ 63.
Definition maxDuration : Duration := 2 ^ 63 - 1.

(** [t.Add(d)] *)
Definition time_Add (t : Time) (d : Duration) : Time := t + d.

(** [t.Sub(u)]: the difference, saturated to the range of [Duration]. *)
Definition time_Sub (t u : Time) : Duration :=
  Z.max minDuration (Z.min maxDuration (t - u)).

(** [t.Before(u)] *)
Definition time_Before (t u : Time) : bool := t <? u.

(** [t.Unix()]: whole seconds since the epoch. *)
Definition time_Unix (t : Time) : Z := t / Second.

(** ** Strings as Go sees them: UTF-8 *)

Definition byte_of (c : ascii) : Z := Z.of_N (N_of_ascii c).
Definition char_of (b : Z) : ascii := ascii_of_N (Z.to_N b).

Definition RuneError : Z := 65533.

(** Continuation byte of a well-formed sequence. *)
Definition is_cont (b : Z) : bool := (128 <=? b) && (b <=? 191).

(** [utf8.DecodeRuneInString]: the first rune of [s] and its width in bytes.
    A byte that starts no well-formed sequence decodes to [RuneError] with
    width 1. *)
Definition DecodeRuneInString (s : string) : Z * nat :=
  match s with
  | EmptyString => (RuneError, 0%nat)
  | String c0 rest =>
    let s0 := byte_of c0 in
    if s0 <? 128 then (s0, 1%nat)
    else if (s0 <? 194) || (244 <? s0) then (RuneError, 1%nat)
    else
      (* size and the accepted range of the second byte *)
      let sz : nat := if s0 <? 224 then 2%nat else if s0 <? 240 then 3%nat else 4%nat in
      let lo := if s0 =? 224 then 160 else if s0 =? 240 then 144 else 128 in
      let hi := if s0 =? 237 then 159 else if s0 =? 244 then 143 else 191 in
      match rest with
      | EmptyString => (RuneError, 1%nat)
      | String c1 rest1 =>
        let s1 := byte_of c1 in
        if (s1 <? lo) || (hi <? s1) then (RuneError, 1%nat)
        else if (sz <=? 2)%nat
        then (Z.lor (Z.shiftl (Z.land s0 31) 6) (Z.land s1 63), 2%nat)
        else
          match rest1 with
          | EmptyString => (RuneError, 1%nat)
          | String c2 rest2 =>
            let s2 := byte_of c2 in
            if negb (is_cont s2) then (RuneError, 1%nat)
            else if (sz <=? 3)%nat
            then (Z.lor (Z.shiftl (Z.land s0 15) 12)
                    (Z.lor (Z.shiftl (Z.land s1 63) 6) (Z.land s2 63)), 3%nat)
            else
              match rest2 with
              | EmptyString => (RuneError, 1%nat)
              | String c3 _ =>
                let s3 := byte_of c3 in
                if negb (is_cont s3) then (RuneError, 1%nat)
                else (Z.lor (Z.shiftl (Z.land s0 7) 18)
                        (Z.lor (Z.shiftl (Z.land s1 63) 12)
                           (Z.lor (Z.shiftl (Z.land s2 63) 6) (Z.land s3 63))), 4%nat)
              end
          end
      end
  end.

(** The UTF-8 encoding of a rune below 128 is the byte itself; the mapping
    of [generateServiceName] returns no other rune. *)
Definition WriteRune (r : Z) : string := String (char_of r) EmptyString.

(** [strings.Map(mapping, s)] for a mapping into the runes below 128:
    the runes of [s] are decoded one after the other, and the image of each
    is written out. [skip] counts the bytes of the current rune that are
    still to be passed over. *)
Fixpoint Map_from (mapping : Z -> Z) (skip : nat) (s : string) : string :=
  match s with
  | EmptyString => EmptyString
  | String _ rest =>
    match skip with
    | S k => Map_from mapping k rest
    | O =>
      let '(r, w) := DecodeRuneInString s in
      WriteRune (mapping r) +:+ Map_from mapping (w - 1) rest
    end
  end.

Definition strings_Map (mapping : Z -> Z) (s : string) : string :=
  Map_from mapping 0 s.

(** The bytes of U+FFFD, the replacement character. *)
Definition replacement : string :=
  String (char_of 239) (String (char_of 191) (String (char_of 189) EmptyString)).

(** What encoding/json makes of a string, writing and reading: each byte
    that starts no well-formed sequence is replaced by U+FFFD, and
    well-formed sequences are kept. *)
Fixpoint coerce_from (skip : nat) (s : string) : string :=
  match s with
  | EmptyString => EmptyString
  | String c rest =>
    match skip with
    | S k => String c (coerce_from k rest)
    | O =>
      let '(r, w) := DecodeRuneInString s in
      if (r =? RuneError) && (w =? 1)%nat
      then replacement +:+ coerce_from 0 rest
      else String c (coerce_from (w - 1) rest)
    end
  end.

Definition toValidUTF8 (s : string) : string := coerce_from 0 s.

(** [utf8.ValidString] *)
Fixpoint valid_from (skip : nat) (s : string) : bool :=
  match s with
  | EmptyString => true
  | String c rest =>
    match skip with
    | S k => valid_from k rest
    | O =>
      let '(r, w) := DecodeRuneInString s in
      if (r =? RuneError) && (w =? 1)%nat then false else valid_from (w - 1) rest
    end
  end.

Definition utf8_ValidString (s : string) : bool := valid_from 0 s.

(** The double quote and the backslash. *)
Definition quote : string := String (char_of 34) EmptyString.
Definition backslash : string := String (char_of 92) EmptyString.
Definition newline : string := String (char_of 10) EmptyString.

(** [fmt.Sprintf("%d", n)] *)
Definition Sprintf_d (n : Z) : string := pretty n.

(** ** generateServiceName (manager.go) *)

(** The mapping passed to [strings.Map]: letters and digits are kept, every
    other rune becomes an underscore. *)
Definition cleanRune (r : Z) : Z :=
  if ((97 <=? r) && (r <=? 122)) || ((65 <=? r) && (r <=? 90)) || ((48 <=? r) && (r <=? 57))
  then r
  else 95.

Definition cleanName (displayName : string) : string :=
  strings_Map cleanRune displayName.

(** Names spelt with ASCII letters and digits only. *)
Definition is_alnum (b : Z) : bool :=
  ((97 <=? b) && (b <=? 122)) || ((65 <=? b) && (b <=? 90)) || ((48 <=? b) && (b <=? 57)).

Fixpoint alnum (s : string) : bool :=
  match s with
  | EmptyString => true
  | String c rest => is_alnum (byte_of c) && alnum rest
  end.

(** [fmt.Sprintf("WSM_%s_%d", cleanName, time.Now().Unix())], with the
    reading [now] of the clock made explicit. *)
Definition generateServiceName (now : Time) (displayName : string) : string :=
  "WSM_" +:+ cleanName displayName +:+ "_" +:+ Sprintf_d (time_Unix now).

(** ** Records of app.go *)

(** [Service]: the record the Manager keeps for each managed service. *)
Record Service := mkService {
  ID : string;
  Name : string;
  ExePath : string;
  Args : string;
  WorkingDir : string;
  Status : string;
  PID : Z;
  AutoStart : bool;
  CreatedAt : Time;
  UpdatedAt : Time
}.

(** [ServiceConfig]: a creation request, and what the host reads back. *)
Record ServiceConfig := mkServiceConfig {
  cfg_Name : string;
  cfg_ExePath : string;
  cfg_Args : string;
  cfg_WorkingDir : string;
  cfg_LogPath : string
}.

Definition set_Status (st : string) (s : Service) : Service :=
  mkService (ID s) (Name s) (ExePath s) (Args s) (WorkingDir s)
            st (PID s) (AutoStart s) (CreatedAt s) (UpdatedAt s).
Definition set_PID (pid : Z) (s : Service) : Service :=
  mkService (ID s) (Name s) (ExePath s) (Args s) (WorkingDir s)
            (Status s) pid (AutoStart s) (CreatedAt s) (UpdatedAt s).
Definition set_AutoStart (b : bool) (s : Service) : Service :=
  mkService (ID s) (Name s) (ExePath s) (Args s) (WorkingDir s)
            (Status s) (PID s) b (CreatedAt s) (UpdatedAt s).
Definition set_UpdatedAt (t : Time) (s : Service) : Service :=
  mkService (ID s) (Name s) (ExePath s) (Args s) (WorkingDir s)
            (Status s) (PID s) (AutoStart s) (CreatedAt s) t.

(** ** The status cache (cache.go) *)

Record CachedServiceStatus := mkCached {
  cs_Status : string;
  cs_PID : Z;
  cs_Timestamp : Time
}.

Record ServiceStatusCache := mkCache {
  cache : gmap string CachedServiceStatus;
  ttl : Duration
}.

Definition NewServiceStatusCache : ServiceStatusCache :=
  mkCache ∅ (5 * Second).

(** [time.Since(t)] read at the instant [now]. *)
Definition time_Since (now t : Time) : Duration := time_Sub now t.

(** [cache.Get(serviceName)] at the instant [now]: [None] is the miss
    [(nil, false)]. *)
Definition Cache_Get (now : Time) (c : ServiceStatusCache) (serviceName : string)
  : option CachedServiceStatus :=
  match cache c !! serviceName with
  | None => None
  | Some status =>
    if ttl c <? time_Since now (cs_Timestamp status) then None else Some status
  end.

(** [cache.Set(serviceName, status, pid)] at the instant [now]. *)
Definition Cache_Set (now : Time) (c : ServiceStatusCache)
           (serviceName status : string) (pid : Z) : ServiceStatusCache :=
  mkCache (<[serviceName := mkCached status pid now]> (cache c)) (ttl c).

(** [cache.Remove(serviceName)] *)
Definition Cache_Remove (c : ServiceStatusCache) (serviceName : string) : ServiceStatusCache :=
  mkCache (delete serviceName (cache c)) (ttl c).

(** [cache.Clear()] *)
Definition Cache_Clear (c : ServiceStatusCache) : ServiceStatusCache :=
  mkCache ∅ (ttl c).

(** [cache.CleanExpired()] at the instant [now]. *)
Definition Cache_CleanExpired (now : Time) (c : ServiceStatusCache) : ServiceStatusCache :=
  mkCache (filter (fun kv => ¬ (ttl c < time_Sub now (cs_Timestamp (snd kv)))) (cache c)) (ttl c).

(** ** The service control manager's vocabulary (svc, mgr) *)

Inductive svc_State :=
| Stopped | StartPending | StopPending | Running
| ContinuePending | PausePending | Paused.

Global Instance svc_State_eq_dec : EqDecision svc_State.
Proof. solve_decision. Defined.

Inductive svc_Cmd := Stop | Pause | Continue | Interrogate | Shutdown.

Record svc_Status := mkStatus {
  State : svc_State;
  ProcessId : Z
}.

(** The zero value [svc.Status{}] has state 0, which is none of the named
    states; only its [ProcessId] is ever read. *)
Definition zero_ProcessId : Z := 0.

Inductive StartType := StartManual | StartAutomatic | StartDisabled.

Record mgr_Config := mkConfig {
  ServiceType : Z;
  mc_StartType : StartType;
  ErrorControl : Z;
  BinaryPathName : string;
  DisplayName : string;
  Description : string
}.

Definition SERVICE_WIN32_OWN_PROCESS : Z := 16.
Definition ErrorNormal : Z := 1.

Definition with_StartType (t : StartType) (c : mgr_Config) : mgr_Config :=
  mkConfig (ServiceType c) t (ErrorControl c) (BinaryPathName c) (DisplayName c) (Description c).

(** ** The snapshot document *)

(** A JSON value. The bytes of the snapshot file are modelled by the
    document they spell: the layout chosen by [json.MarshalIndent] and the
    scanner that reads it back belong to encoding/json. *)
#[local] Unset Elimination Schemes.
Inductive JSON :=
| JNull
| JBool (b : bool)
| JNum (n : Z)
| JStr (s : string)
| JArr (items : list JSON)
| JObj (members : list (string * JSON)).
#[local] Set Elimination Schemes.

Inductive Bytes :=
| JSONText (doc : JSON)
| OtherBytes.

(** ** The platform *)

Inductive RegAccess := READ | SET_VALUE.

(** What the Manager and the host call outside the process. [OS] is the
    state of the machine: the service control manager, the registry, the
    file system and the clock. A call that can fail returns a [result]; a
    call that acts on the machine returns the next state. Reading the
    clock, testing a path and reading the registry only observe the state.
    Service and registry handles are named by the service and by the key
    path they were opened on.

    The last three fields are the only facts assumed of the machine: a
    status query does not turn the clock back, a sleep lasts at least as
    long as asked, and a file that was written is there and reads back as
    written. *)
Class Platform (OS : Type) := {
  (* time *)
  time_Now : OS -> Time;
  time_Sleep : Duration -> OS -> OS;
  time_MarshalJSON : Time -> result string;
  time_UnmarshalJSON : string -> result Time;
  (* os, filepath *)
  os_Stat_IsNotExist : string -> OS -> bool;
  os_Executable : OS -> result string;
  os_WriteFile : string -> Bytes -> OS -> result unit * OS;
  os_ReadFile : string -> OS -> result Bytes;
  filepath_Dir : string -> string;
  (* mgr: the service control manager *)
  mgr_Connect : OS -> result unit * OS;
  mgr_Disconnect : OS -> OS;
  mgr_CreateService : string -> string -> mgr_Config -> OS -> result unit * OS;
  mgr_OpenService : string -> OS -> result unit * OS;
  (* mgr.Service: an open service *)
  Service_Close : string -> OS -> OS;
  Service_Query : string -> OS -> result svc_Status * OS;
  Service_Start : string -> OS -> result unit * OS;
  Service_Control : string -> svc_Cmd -> OS -> result svc_Status * OS;
  Service_Delete : string -> OS -> result unit * OS;
  Service_Config : string -> OS -> result mgr_Config * OS;
  Service_UpdateConfig : string -> mgr_Config -> OS -> result unit * OS;
  (* registry, under LOCAL_MACHINE *)
  registry_OpenKey : string -> RegAccess -> OS -> result unit;
  registry_CreateKey : string -> string -> OS -> result unit * OS;
  registry_SetStringValue : string -> string -> string -> OS -> result unit * OS;
  registry_GetStringValue : string -> string -> OS -> result string;
  (* the clock *)
  Query_keeps_time : forall name os, time_Now os <= time_Now (snd (Service_Query name os));
  Sleep_takes_time : forall d os, time_Now os + d <= time_Now (time_Sleep d os);
  (* the file system *)
  Write_then_Read : forall path data os os',
    os_WriteFile path data os = (Ok tt, os') ->
    os_ReadFile path os' = Ok data /\ os_Stat_IsNotExist path os' = false
}.

(** ** The Manager and its world *)

Record WindowsServiceManager := mkWSM {
  dataFile : string;
  services : gmap string Service;
  statusCache : ServiceStatusCache;
  ctx : bool  (* whether the context for emitting events is set *)
}.

(** Work handed to a goroutine. *)
Inductive Task :=
| GoSaveServices                       (* go wsm.saveServices() *)
| GoAutoStart (serviceName : string).  (* sleep 1 s, then StartService *)

(** The calls issued to the platform, in the order they were issued. *)
Inductive Event :=
| EvConnect
| EvDisconnect
| EvCreateService (name binaryPath : string) (c : mgr_Config)
| EvOpenService (name : string)
| EvClose (name : string)
| EvQuery (name : string)
| EvStart (name : string)
| EvControl (name : string) (c : svc_Cmd)
| EvDelete (name : string)
| EvConfig (name : string)
| EvUpdateConfig (name : string) (c : mgr_Config)
| EvSleep (d : Duration)
| EvRegOpenKey (path : string) (a : RegAccess)
| EvRegCreateKey (parent subKey : string)
| EvRegSetString (path valueName value : string)
| EvRegClose (path : string)
| EvWriteFile (path : string) (data : Bytes)
| EvReadFile (path : string)
| EvEmitStatusChanged (serviceID status : string) (pid : Z)
| EvEmitServicesUpdated (l : list Service)
| EvPrintf (msg : string)
| EvGo (t : Task).

Section World.

Context {OS : Type}.

Record World := mkWorld {
  os : OS;
  wsm : WindowsServiceManager;
  trace : list Event
}.

(** State transformers over the world. *)
Definition M (A : Type) : Type := World -> A * World.

Definition ret {A} (a : A) : M A := fun w => (a, w).

Definition bind {A B} (m : M A) (f : A -> M B) : M B :=
  fun w => let '(a, w') := m w in f a w'.

(** An acting call: performed on the machine and logged. *)
Definition call {A} (ev : Event) (op : OS -> A * OS) : M A :=
  fun w => let '(a, o) := op (os w) in (a, mkWorld o (wsm w) (trace w ++ [ev])).

(** A call that acts and returns nothing. *)
Definition act (ev : Event) (op : OS -> OS) : M unit :=
  call ev (fun o => (tt, op o)).

(** An observing call that is logged. *)
Definition look {A} (ev : Event) (op : OS -> A) : M A :=
  call ev (fun o => (op o, o)).

(** Something written to the log only: an event emitted to the front end,
    a line printed, a goroutine started. *)
Definition note (ev : Event) : M unit :=
  fun w => (tt, mkWorld (os w) (wsm w) (trace w ++ [ev])).

Definition get_wsm : M WindowsServiceManager := fun w => (wsm w, w).

Definition put_wsm (m : WindowsServiceManager) : M unit :=
  fun w => (tt, mkWorld (os w) m (trace w)).

End World.

Arguments World : clear implicits.
Arguments M : clear implicits.

Notation "x <- m ;; k" := (bind m (fun x => k))
  (at level 100, m at next level, right associativity).
Notation "m ;;; k" := (bind m (fun _ => k))
  (at level 100, right associativity).

(** ** manager.go and wrapper.go *)

Section Manager.

Context {OS : Type} {P : Platform OS}.

(** [time.Now()] *)
Definition Now : M OS Time := fun w => (time_Now (os w), w).

Definition set_services (f : gmap string Service -> gmap string Service) : M OS unit :=
  m <- get_wsm ;;
  put_wsm (mkWSM (dataFile m) (f (services m)) (statusCache m) (ctx m)).

Definition set_statusCache (f : ServiceStatusCache -> ServiceStatusCache) : M OS unit :=
  m <- get_wsm ;;
  put_wsm (mkWSM (dataFile m) (services m) (f (statusCache m)) (ctx m)).

(** The cache's methods, with the clock read where the source reads it. *)
Definition statusCache_Get (serviceName : string) : M OS (option CachedServiceStatus) :=
  m <- get_wsm ;;
  now <- Now ;;
  ret (Cache_Get now (statusCache m) serviceName).

Definition statusCache_Set (serviceName status : string) (pid : Z) : M OS unit :=
  now <- Now ;;
  set_statusCache (fun c => Cache_Set now c serviceName status pid).

Definition statusCache_Remove (serviceName : string) : M OS unit :=
  set_statusCache (fun c => Cache_Remove c serviceName).

(** An observation of the machine that is not logged. *)
Definition observe {A} (f : OS -> A) : M OS A := fun w => (f (os w), w).

(** *** Events for the front end *)

Definition emitServiceStatusChanged (serviceID status : string) (pid : Z) : M OS unit :=
  m <- get_wsm ;;
  if ctx m then note (EvEmitStatusChanged serviceID status pid) else ret tt.

Definition emitServicesUpdated : M OS unit :=
  m <- get_wsm ;;
  if ctx m then note (EvEmitServicesUpdated (snd <$> map_to_list (services m))) else ret tt.

(** *** Sessions with the service control manager *)

Definition connectSCM : M OS (result unit) := call EvConnect mgr_Connect.

(** [withSCM]: connect, run the operation, disconnect on the way out. The
    values an operation of the source leaves in captured variables are
    returned with its success. *)
Definition withSCM {A} (operation : M OS (result A)) : M OS (result A) :=
  c <- connectSCM ;;
  match c with
  | Err err => ret (Err (Errorf "failed to connect to service control manager" err))
  | Ok _ =>
    r <- operation ;;
    act EvDisconnect mgr_Disconnect ;;;
    ret r
  end.

(** [defer windowsService.Close()] around the rest of an operation. *)
Definition closing {A} (name : string) (body : M OS A) : M OS A :=
  r <- body ;;
  act (EvClose name) (Service_Close name) ;;;
  ret r.

(** *** waitForServiceState *)

Definition pollInterval : Duration := 500 * Millisecond.

(** The loop [for time.Now().Before(deadline) { ... }]. Each round that
    does not return sleeps for [pollInterval]; [rounds] bounds the number
    of rounds, and when none is left the loop has outlived its deadline
    (lemma [waitLoop_polls]), which is the result returned then. *)
Fixpoint waitLoop (rounds : nat) (name : string) (targetState : svc_State)
         (deadline : Time) : M OS (result unit) :=
  match rounds with
  | O => ret (Err "timeout waiting for service state")
  | S rounds' =>
    now <- Now ;;
    if time_Before now deadline then
      q <- call (EvQuery name) (Service_Query name) ;;
      match q with
      | Err err => ret (Err (Errorf "failed to query service status" err))
      | Ok status =>
        if decide (State status = targetState) then ret (Ok tt)
        else if decide (targetState = Running /\ State status = Stopped)
        then ret (Err "service failed to start")
        else
          act (EvSleep pollInterval) (time_Sleep pollInterval) ;;;
          waitLoop rounds' name targetState deadline
      end
    else ret (Err "timeout waiting for service state")
  end.

(** Rounds that cover a wait of [timeout]. *)
Definition poll_rounds (timeout : Duration) : nat :=
  (Z.to_nat (timeout / pollInterval) + 2)%nat.

Definition waitForServiceState (name : string) (targetState : svc_State)
           (timeout : Duration) : M OS (result unit) :=
  now <- Now ;;
  let deadline := time_Add now timeout in
  waitLoop (poll_rounds timeout) name targetState deadline.

(** *** Registry values of a service *)

Definition servicesKey (serviceName : string) : string :=
  "SYSTEM\CurrentControlSet\Services" +:+ backslash +:+ serviceName.

Definition setServiceRegistryValue (serviceName subKey valueName value : string)
  : M OS (result unit) :=
  let keyPath :=
    if decide (subKey <> "")
    then servicesKey serviceName +:+ backslash +:+ subKey
    else servicesKey serviceName in
  let setValue : M OS (result unit) :=
    s <- call (EvRegSetString keyPath valueName value)
              (registry_SetStringValue keyPath valueName value) ;;
    act (EvRegClose keyPath) id ;;;                       (* defer key.Close() *)
    match s with
    | Err err => ret (Err (Errorf "failed to set registry value" err))
    | Ok _ => ret (Ok tt)
    end in
  if decide (subKey <> "") then
    let parent := servicesKey serviceName in
    o <- look (EvRegOpenKey parent SET_VALUE) (registry_OpenKey parent SET_VALUE) ;;
    match o with
    | Err err => ret (Err (Errorf "failed to open service registry key" err))
    | Ok _ =>
      c <- call (EvRegCreateKey parent subKey) (registry_CreateKey parent subKey) ;;
      r <- match c with
           | Err err => ret (Err (Errorf "failed to create registry subkey" err))
           | Ok _ => setValue
           end ;;
      act (EvRegClose parent) id ;;;                      (* defer parentKey.Close() *)
      ret r
    end
  else
    o <- look (EvRegOpenKey keyPath SET_VALUE) (registry_OpenKey keyPath SET_VALUE) ;;
    match o with
    | Err err => ret (Err (Errorf "failed to open service registry key" err))
    | Ok _ => setValue
    end.

Definition setServiceWorkingDirectory (serviceName workingDir : string) : M OS (result unit) :=
  setServiceRegistryValue serviceName "Parameters" "AppDirectory" workingDir.

Definition setServiceImagePathDirect (serviceName imagePath : string) : M OS (result unit) :=
  setServiceRegistryValue serviceName "" "ImagePath" imagePath.

Definition storeServiceConfigInRegistry (serviceName exePath args workingDir : string)
  : M OS (result unit) :=
  e <- setServiceRegistryValue serviceName "Parameters" "ExePath" exePath ;;
  match e with
  | Err err => ret (Err (Errorf "failed to set ExePath" err))
  | Ok _ =>
    a <- (if decide (args <> "")
          then setServiceRegistryValue serviceName "Parameters" "Args" args
          else ret (Ok tt)) ;;
    match a with
    | Err err => ret (Err (Errorf "failed to set Args" err))
    | Ok _ =>
      d <- (if decide (workingDir <> "")
            then setServiceRegistryValue serviceName "Parameters" "WorkingDir" workingDir
            else ret (Ok tt)) ;;
      match d with
      | Err err => ret (Err (Errorf "failed to set WorkingDir" err))
      | Ok _ => ret (Ok tt)
      end
    end
  end.

(** The wrapper is the managing program itself, started with the flag and
    the service's name. *)
Definition createServiceWrapper (serviceName exePath args workingDir : string)
  : M OS (result string) :=
  x <- observe os_Executable ;;
  match x with
  | Err err => ret (Err (Errorf "failed to get current executable path" err))
  | Ok currentExe =>
    s <- storeServiceConfigInRegistry serviceName exePath args workingDir ;;
    match s with
    | Err err => ret (Err (Errorf "failed to store service configuration" err))
    | Ok _ => ret (Ok (quote +:+ currentExe +:+ quote +:+ " --service-wrapper " +:+ serviceName))
    end
  end.

(** *** The snapshot: saveServices and loadServices *)

(** The zero [time.Time]: 1 January of year 1, UTC. *)
Definition zeroTime : Time := -62135596800 * Second.

(** The zero [Service]. *)
Definition zeroService : Service :=
  mkService "" "" "" "" "" "" 0 false zeroTime zeroTime.

(** The fields of [Service], in the order of the declaration, and the names
    their tags give them in the document. *)
Inductive Field :=
| FID | FName | FExePath | FArgs | FWorkingDir
| FStatus | FPID | FAutoStart | FCreatedAt | FUpdatedAt.

Definition fields : list Field :=
  [FID; FName; FExePath; FArgs; FWorkingDir; FStatus; FPID; FAutoStart; FCreatedAt; FUpdatedAt].

Definition tag (f : Field) : string :=
  match f with
  | FID => "id" | FName => "name" | FExePath => "exePath" | FArgs => "args"
  | FWorkingDir => "workingDir" | FStatus => "status" | FPID => "pid"
  | FAutoStart => "autoStart" | FCreatedAt => "createdAt" | FUpdatedAt => "updatedAt"
  end.

(** What the encoder writes for one record. A timestamp that
    [time.Time.MarshalJSON] refuses fails the whole encoding. *)
Definition Service_encode (s : Service) : result JSON :=
  match time_MarshalJSON (CreatedAt s) with
  | Err err => Err err
  | Ok created =>
    match time_MarshalJSON (UpdatedAt s) with
    | Err err => Err err
    | Ok updated =>
      Ok (JObj [ ("id", JStr (toValidUTF8 (ID s)));
                 ("name", JStr (toValidUTF8 (Name s)));
                 ("exePath", JStr (toValidUTF8 (ExePath s)));
                 ("args", JStr (toValidUTF8 (Args s)));
                 ("workingDir", JStr (toValidUTF8 (WorkingDir s)));
                 ("status", JStr (toValidUTF8 (Status s)));
                 ("pid", JNum (PID s));
                 ("autoStart", JBool (AutoStart s));
                 ("createdAt", JStr created);
                 ("updatedAt", JStr updated) ])
    end
  end.

Fixpoint encode_members (l : list (string * Service)) : result (list (string * JSON)) :=
  match l with
  | [] => Ok []
  | (k, s) :: rest =>
    match Service_encode s with
    | Err err => Err err
    | Ok j =>
      match encode_members rest with
      | Err err => Err err
      | Ok js => Ok ((toValidUTF8 k, j) :: js)
      end
    end
  end.

(** The entries of the map in the order of their keys, as the encoder
    writes a map. *)
Definition key_le (a b : string * Service) : Prop := String.leb (fst a) (fst b) = true.

#[local] Instance key_le_dec a b : Decision (key_le a b).
Proof. unfold key_le. apply _. Defined.

Definition sorted_entries (m : gmap string Service) : list (string * Service) :=
  merge_sort key_le (map_to_list m).

(** [json.MarshalIndent(wsm.services, "", "  ")] *)
Definition json_MarshalIndent (m : gmap string Service) : result Bytes :=
  match encode_members (sorted_entries m) with
  | Err err => Err err
  | Ok members => Ok (JSONText (JObj members))
  end.

(** Letters of a key are matched without regard to case when no tag
    matches exactly. (The decoder also identifies two code points outside
    ASCII with the letters k and s; no tag in the document is spelt with
    them by the encoder, and the model leaves them out.) *)
Definition lower (c : ascii) : ascii :=
  let b := byte_of c in
  if (65 <=? b) && (b <=? 90) then char_of (b + 32) else c.

Fixpoint foldName (s : string) : string :=
  match s with
  | EmptyString => EmptyString
  | String c rest => String (lower c) (foldName rest)
  end.

Definition field_of_key (key : string) : option Field :=
  match List.find (fun f => String.eqb (tag f) key) fields with
  | Some f => Some f
  | None => List.find (fun f => String.eqb (foldName (tag f)) (foldName key)) fields
  end.

Definition with_ID (x : string) (s : Service) : Service :=
  mkService x (Name s) (ExePath s) (Args s) (WorkingDir s)
            (Status s) (PID s) (AutoStart s) (CreatedAt s) (UpdatedAt s).
Definition with_Name (x : string) (s : Service) : Service :=
  mkService (ID s) x (ExePath s) (Args s) (WorkingDir s)
            (Status s) (PID s) (AutoStart s) (CreatedAt s) (UpdatedAt s).
Definition with_ExePath (x : string) (s : Service) : Service :=
  mkService (ID s) (Name s) x (Args s) (WorkingDir s)
            (Status s) (PID s) (AutoStart s) (CreatedAt s) (UpdatedAt s).
Definition with_Args (x : string) (s : Service) : Service :=
  mkService (ID s) (Name s) (ExePath s) x (WorkingDir s)
            (Status s) (PID s) (AutoStart s) (CreatedAt s) (UpdatedAt s).
Definition with_WorkingDir (x : string) (s : Service) : Service :=
  mkService (ID s) (Name s) (ExePath s) (Args s) x
            (Status s) (PID s) (AutoStart s) (CreatedAt s) (UpdatedAt s).
Definition with_CreatedAt (t : Time) (s : Service) : Service :=
  mkService (ID s) (Name s) (ExePath s) (Args s) (WorkingDir s)
            (Status s) (PID s) (AutoStart s) t (UpdatedAt s).

(** Storing a value of the document in a string field: a string is stored
    (coerced to valid UTF-8), [null] and values of another type leave the
    field as it is (the type error is remembered and decoding goes on). *)
Definition store_string (setter : string -> Service -> Service) (v : JSON) (s : Service)
  : Service :=
  match v with
  | JStr x => setter (toValidUTF8 x) s
  | _ => s
  end.

(** Storing in a [time.Time] field goes through [UnmarshalJSON]: [null]
    is a no-op, and a value that is no timestamp aborts the decoding
    ([None]). *)
Definition store_time (setter : Time -> Service -> Service) (v : JSON) (s : Service)
  : option Service :=
  match v with
  | JNull => Some s
  | JStr x =>
    match time_UnmarshalJSON x with
    | Ok t => Some (setter t s)
    | Err _ => None
    end
  | _ => None
  end.

Definition store (f : Field) (v : JSON) (s : Service) : option Service :=
  match f with
  | FID => Some (store_string with_ID v s)
  | FName => Some (store_string with_Name v s)
  | FExePath => Some (store_string with_ExePath v s)
  | FArgs => Some (store_string with_Args v s)
  | FWorkingDir => Some (store_string with_WorkingDir v s)
  | FStatus => Some (store_string set_Status v s)
  | FPID =>
    Some (match v with
          | JNum n => if (- 2 ^ 63 <=? n) && (n <? 2 ^ 63) then set_PID n s else s
          | _ => s
          end)
  | FAutoStart => Some (match v with JBool b => set_AutoStart b s | _ => s end)
  | FCreatedAt => store_time with_CreatedAt v s
  | FUpdatedAt => store_time set_UpdatedAt v s
  end.

(** The members of an object are stored one after the other; a key that
    names no field is skipped. *)
Fixpoint decode_members (members : list (string * JSON)) (s : Service) : option Service :=
  match members with
  | [] => Some s
  | (key, v) :: rest =>
    match field_of_key key with
    | None => decode_members rest s
    | Some f =>
      match store f v s with
      | None => None
      | Some s' => decode_members rest s'
      end
    end
  end.

(** One element of the map, decoded into a fresh record: [Some None] is the
    nil pointer stored for [null]; [None] aborts the decoding. A value that
    is neither an object nor [null] leaves the fresh record zero. *)
Definition decode_element (v : JSON) : option (option Service) :=
  match v with
  | JNull => Some None
  | JObj members =>
    match decode_members members zeroService with
    | None => None
    | Some s => Some (Some s)
    end
  | _ => Some (Some zeroService)
  end.

(** The members of the top-level object are stored in the map one after
    the other; what was stored before an abort stays. A nil record is
    something no method of the Manager creates or could use; the model
    drops the key instead. *)
Fixpoint decode_map (members : list (string * JSON)) (m : gmap string Service)
  : gmap string Service :=
  match members with
  | [] => m
  | (key, v) :: rest =>
    match decode_element v with
    | None => m
    | Some None => decode_map rest (delete (toValidUTF8 key) m)
    | Some (Some s) => decode_map rest (<[toValidUTF8 key := s]> m)
    end
  end.

(** [json.Unmarshal(data, &wsm.services)], the returned error dropped as
    [loadServices] drops it: bytes that are no document and documents that
    are no object leave the map as it is; [null] empties it. *)
Definition json_Unmarshal (data : Bytes) (m : gmap string Service) : gmap string Service :=
  match data with
  | OtherBytes => m
  | JSONText JNull => ∅
  | JSONText (JObj members) => decode_map members m
  | JSONText _ => m
  end.

Definition saveServices : M OS unit :=
  m <- get_wsm ;;
  match json_MarshalIndent (services m) with
  | Err _ => ret tt
  | Ok data =>
    _ <- call (EvWriteFile (dataFile m) data) (os_WriteFile (dataFile m) data) ;;
    ret tt
  end.

Definition loadServices : M OS unit :=
  m <- get_wsm ;;
  missing <- observe (os_Stat_IsNotExist (dataFile m)) ;;
  if missing then ret tt
  else
    r <- look (EvReadFile (dataFile m)) (os_ReadFile (dataFile m)) ;;
    match r with
    | Err _ => ret tt
    | Ok data => set_services (json_Unmarshal data)
    end.

(** [NewWindowsServiceManager], given what [getDataConfigPath] returned:
    without a path there is no Manager. *)
Definition NewWindowsServiceManager (path : result string) : option WindowsServiceManager :=
  match path with
  | Err _ => None
  | Ok p => Some (mkWSM p ∅ NewServiceStatusCache false)
  end.

(** *** Status resolution: cache, then the service control manager *)

Definition getServiceRealTimeStatus (serviceName : string) : M OS (string * Z) :=
  cached <- statusCache_Get serviceName ;;
  match cached with
  | Some cachedStatus => ret (cs_Status cachedStatus, cs_PID cachedStatus)
  | None =>
    o <- call (EvOpenService serviceName) (mgr_OpenService serviceName) ;;
    match o with
    | Err _ =>
      statusCache_Set serviceName "error" 0 ;;;
      ret ("error", 0)
    | Ok _ =>
      closing serviceName (
        q <- call (EvQuery serviceName) (Service_Query serviceName) ;;
        match q with
        | Err _ =>
          statusCache_Set serviceName "error" 0 ;;;
          ret ("error", 0)
        | Ok status =>
          let '(statusStr, pid) :=
            match State status with
            | Running => ("running", ProcessId status)
            | Stopped => ("stopped", 0)
            | StartPending => ("starting", 0)
            | StopPending => ("stopping", ProcessId status)
            | _ => ("error", 0)
            end in
          statusCache_Set serviceName statusStr pid ;;;
          ret (statusStr, pid)
        end)
    end
  end.

(** *** GetServices *)

(** The body of [for _, service := range wsm.services]: each record is
    refreshed in place and appended to the result. (Go leaves the order of
    the range over a map unspecified; the model takes the map's entries in
    the order [map_to_list] gives them.) *)
Fixpoint refresh_all (l : list (string * Service)) : M OS (list Service) :=
  match l with
  | [] => ret []
  | (key, service) :: rest =>
    sp <- getServiceRealTimeStatus (ID service) ;;
    now <- Now ;;
    let service' := set_UpdatedAt now (set_PID (snd sp) (set_Status (fst sp) service)) in
    set_services (insert key service') ;;;
    tl <- refresh_all rest ;;
    ret (service' :: tl)
  end.

Definition GetServices : M OS (result (list Service)) :=
  r <- withSCM (
         m <- get_wsm ;;
         l <- refresh_all (map_to_list (services m)) ;;
         ret (Ok l)) ;;
  match r with
  | Err err => ret (Err err)
  | Ok l =>
    note (EvGo GoSaveServices) ;;;
    ret (Ok l)
  end.

(** *** CreateService *)

(** The configuration the service is registered with. *)
Definition serviceConfig_of (config : ServiceConfig) : mgr_Config :=
  mkConfig SERVICE_WIN32_OWN_PROCESS StartAutomatic ErrorNormal ""
           (cfg_Name config)
           ("Service created by Windows Service Manager: " +:+ cfg_Name config).

(** The binary path the service is first registered with. *)
Definition binaryPath_of (config : ServiceConfig) : string :=
  if decide (cfg_Args config <> "")
  then quote +:+ cfg_ExePath config +:+ quote +:+ " " +:+ cfg_Args config
  else cfg_ExePath config.

(** The working directory of the service: the one asked for, or else the
    directory of the executable. *)
Definition workingDir_of (config : ServiceConfig) : string :=
  if decide (cfg_WorkingDir config = "")
  then filepath_Dir (cfg_ExePath config)
  else cfg_WorkingDir config.

Definition CreateService (config : ServiceConfig) : M OS (result Service) :=
  missing <- observe (os_Stat_IsNotExist (cfg_ExePath config)) ;;
  if missing then ret (Err ("executable does not exist: " +:+ cfg_ExePath config))
  else
    now <- Now ;;
    let serviceName := generateServiceName now (cfg_Name config) in
    m <- get_wsm ;;
    match services m !! serviceName with
    | Some _ => ret (Err ("service name already exists: " +:+ serviceName))
    | None =>
      let workingDir := workingDir_of config in
      r <- withSCM (
        let serviceConfig := serviceConfig_of config in
        let binaryPath := binaryPath_of config in
        c <- call (EvCreateService serviceName binaryPath serviceConfig)
                  (mgr_CreateService serviceName binaryPath serviceConfig) ;;
        match c with
        | Err err => ret (Err (Errorf "failed to create Windows service" err))
        | Ok _ =>
          closing serviceName (
            wp <- createServiceWrapper serviceName (cfg_ExePath config)
                                       (cfg_Args config) workingDir ;;
            match wp with
            | Err err =>
              _ <- call (EvDelete serviceName) (Service_Delete serviceName) ;;
              ret (Err (Errorf "failed to create service wrapper" err))
            | Ok wrapperPath =>
              ip <- setServiceImagePathDirect serviceName wrapperPath ;;
              match ip with
              | Err err =>
                _ <- call (EvDelete serviceName) (Service_Delete serviceName) ;;
                ret (Err (Errorf "failed to set service path" err))
              | Ok _ =>
                wd <- setServiceWorkingDirectory serviceName workingDir ;;
                match wd with
                | Err err =>
                  note (EvPrintf ("Warning: failed to set working directory: "
                                    +:+ err +:+ newline))
                | Ok _ => ret tt
                end ;;;
                created <- Now ;;
                updated <- Now ;;
                ret (Ok (mkService serviceName (cfg_Name config) (cfg_ExePath config)
                                   (cfg_Args config) workingDir "stopped" 0 false
                                   created updated))
              end
            end)
        end) ;;
      match r with
      | Err err => ret (Err err)
      | Ok service =>
        set_services (insert serviceName service) ;;;
        saveServices ;;;
        emitServicesUpdated ;;;
        note (EvGo (GoAutoStart serviceName)) ;;;
        ret (Ok service)
      end
    end.

(** *** StartService *)

(** An assignment through the pointer [service] taken from the map. *)
Definition update_service (serviceID : string) (f : Service -> Service) : M OS unit :=
  set_services (alter f serviceID).

Definition StartService (serviceID : string) : M OS (result unit) :=
  m <- get_wsm ;;
  match services m !! serviceID with
  | None => ret (Err ("service does not exist: " +:+ serviceID))
  | Some _ =>
    withSCM (
      o <- call (EvOpenService serviceID) (mgr_OpenService serviceID) ;;
      match o with
      | Err err => ret (Err (Errorf "failed to open service" err))
      | Ok _ =>
        closing serviceID (
          q <- call (EvQuery serviceID) (Service_Query serviceID) ;;
          match q with
          | Err err => ret (Err (Errorf "failed to query service status" err))
          | Ok status =>
            if decide (State status = Running)
            then ret (Err "service is already running")
            else
              s <- call (EvStart serviceID) (Service_Start serviceID) ;;
              match s with
              | Err err => ret (Err (Errorf "failed to start service" err))
              | Ok _ =>
                w <- waitForServiceState serviceID Running (30 * Second) ;;
                match w with
                | Err err =>
                  now <- Now ;;
                  update_service serviceID (fun s => set_UpdatedAt now (set_Status "error" s)) ;;;
                  saveServices ;;;
                  ret (Err err)
                | Ok _ =>
                  q2 <- call (EvQuery serviceID) (Service_Query serviceID) ;;
                  let pid := match q2 with Ok status2 => ProcessId status2
                                         | Err _ => zero_ProcessId end in
                  now <- Now ;;
                  update_service serviceID
                    (fun s => set_UpdatedAt now (set_PID pid (set_Status "running" s))) ;;;
                  statusCache_Set serviceID "running" pid ;;;
                  saveServices ;;;
                  emitServiceStatusChanged serviceID "running" pid ;;;
                  ret (Ok tt)
                end
              end
          end)
      end)
  end.

(** *** StopService *)

Definition StopService (serviceID : string) : M OS (result unit) :=
  m <- get_wsm ;;
  match services m !! serviceID with
  | None => ret (Err ("service does not exist: " +:+ serviceID))
  | Some _ =>
    withSCM (
      o <- call (EvOpenService serviceID) (mgr_OpenService serviceID) ;;
      match o with
      | Err err => ret (Err (Errorf "failed to open service" err))
      | Ok _ =>
        closing serviceID (
          q <- call (EvQuery serviceID) (Service_Query serviceID) ;;
          match q with
          | Err err => ret (Err (Errorf "failed to query service status" err))
          | Ok status =>
            if decide (State status = Stopped) then
              now <- Now ;;
              update_service serviceID
                (fun s => set_UpdatedAt now (set_PID 0 (set_Status "stopped" s))) ;;;
              saveServices ;;;
              ret (Ok tt)
            else
              c <- call (EvControl serviceID Stop) (Service_Control serviceID Stop) ;;
              match c with
              | Err err => ret (Err (Errorf "failed to send stop signal" err))
              | Ok _ =>
                w <- waitForServiceState serviceID Stopped (30 * Second) ;;
                match w with
                | Err err => ret (Err err)
                | Ok _ =>
                  now <- Now ;;
                  update_service serviceID
                    (fun s => set_UpdatedAt now (set_PID 0 (set_Status "stopped" s))) ;;;
                  statusCache_Set serviceID "stopped" 0 ;;;
                  saveServices ;;;
                  emitServiceStatusChanged serviceID "stopped" 0 ;;;
                  ret (Ok tt)
                end
              end
          end)
      end)
  end.

(** *** DeleteService *)

(** The stop attempted before the deletion; its failures are ignored. *)
Definition bestEffortStop (serviceID : string) : M OS unit :=
  q <- call (EvQuery serviceID) (Service_Query serviceID) ;;
  match q with
  | Ok status =>
    if decide (State status <> Stopped) then
      _ <- call (EvControl serviceID Stop) (Service_Control serviceID Stop) ;;
      _ <- waitForServiceState serviceID Stopped (30 * Second) ;;
      ret tt
    else ret tt
  | Err _ => ret tt
  end.

Definition DeleteService (serviceID : string) : M OS (result unit) :=
  m <- get_wsm ;;
  match services m !! serviceID with
  | None => ret (Err ("service does not exist: " +:+ serviceID))
  | Some _ =>
    withSCM (
      o <- call (EvOpenService serviceID) (mgr_OpenService serviceID) ;;
      match o with
      | Err err => ret (Err (Errorf "failed to open service" err))
      | Ok _ =>
        closing serviceID (
          bestEffortStop serviceID ;;;
          d <- call (EvDelete serviceID) (Service_Delete serviceID) ;;
          match d with
          | Err err => ret (Err (Errorf "failed to delete service" err))
          | Ok _ =>
            set_services (delete serviceID) ;;;
            statusCache_Remove serviceID ;;;
            saveServices ;;;
            emitServicesUpdated ;;;
            ret (Ok tt)
          end)
      end)
  end.

(** *** Start at boot *)

Definition SetServiceAutoStart (serviceID : string) (enabled : bool) : M OS (result unit) :=
  m <- get_wsm ;;
  match services m !! serviceID with
  | None => ret (Err ("service does not exist: " +:+ serviceID))
  | Some _ =>
    withSCM (
      o <- call (EvOpenService serviceID) (mgr_OpenService serviceID) ;;
      match o with
      | Err err => ret (Err (Errorf "failed to open service" err))
      | Ok _ =>
        closing serviceID (
          c <- call (EvConfig serviceID) (Service_Config serviceID) ;;
          match c with
          | Err err => ret (Err (Errorf "failed to get service configuration" err))
          | Ok config =>
            let config' :=
              with_StartType (if enabled then StartAutomatic else StartManual) config in
            u <- call (EvUpdateConfig serviceID config')
                      (Service_UpdateConfig serviceID config') ;;
            match u with
            | Err err => ret (Err (Errorf "failed to update service configuration" err))
            | Ok _ =>
              now <- Now ;;
              update_service serviceID (fun s => set_UpdatedAt now (set_AutoStart enabled s)) ;;;
              saveServices ;;;
              ret (Ok tt)
            end
          end)
      end)
  end.

Definition GetServiceAutoStart (serviceID : string) (m : WindowsServiceManager) : bool :=
  match services m !! serviceID with
  | None => false
  | Some service => AutoStart service
  end.

(** *** The host's configuration (wrapper.go) *)

Definition parametersKey (serviceName : string) : string :=
  servicesKey serviceName +:+ backslash +:+ "Parameters".

(** [LoadServiceConfigFromRegistry]: the host runs in a process of its own
    and only reads the machine. *)
Definition LoadServiceConfigFromRegistry (serviceName : string) (o : OS) : result ServiceConfig :=
  let keyPath := parametersKey serviceName in
  match registry_OpenKey keyPath READ o with
  | Err err => Err (Errorf "failed to open service configuration registry" err)
  | Ok _ =>
    match registry_GetStringValue keyPath "ExePath" o with
    | Err err => Err (Errorf "failed to read ExePath" err)
    | Ok exePath =>
      let args := match registry_GetStringValue keyPath "Args" o with
                  | Ok v => v | Err _ => "" end in
      let workingDir := match registry_GetStringValue keyPath "WorkingDir" o with
                        | Ok v => v | Err _ => "" end in
      let displayName := match registry_GetStringValue keyPath "DisplayName" o with
                         | Ok v => v | Err _ => serviceName end in
      let logPath := match registry_GetStringValue keyPath "StdoutLog" o with
                     | Ok v => v | Err _ => "" end in
      Ok (mkServiceConfig displayName exePath args workingDir logPath)
    end
  end.

End Manager.

(** ** The host's entry (wrapper.go) and the application (app.go) *)

(** [IsServiceWrapperMode], given [os.Args]. *)
Definition IsServiceWrapperMode (args : list string) : bool * string :=
  if (3 <=? List.length args)%nat && String.eqb (nth 1 args "") "--service-wrapper"
  then (true, nth 2 args "")
  else (false, "").

(** [ThemeData]: what the theme file holds. *)
Record ThemeData := mkThemeData {
  Theme : string
}.

(** [json.MarshalIndent(themeData, "", "  ")]; it does not fail. *)
Definition Theme_encode (t : ThemeData) : Bytes :=
  JSONText (JObj [("theme", JStr (toValidUTF8 (Theme t)))]).

(** Whether a key of the document names the field [Theme]: its tag, or the
    tag without regard to the case of letters. *)
Definition is_theme_key (key : string) : bool :=
  String.eqb key "theme" || String.eqb (foldName key) (foldName "theme").

(** The members of an object stored in a [ThemeData] one after the other:
    a string is stored, [null] and the keys that name no field are passed
    over, and a value of another type is a type error, which the decoder
    returns at the end. *)
Fixpoint Theme_decode_members (members : list (string * JSON)) (t : ThemeData)
  : result ThemeData :=
  match members with
  | [] => Ok t
  | (key, v) :: rest =>
    if is_theme_key key then
      match v with
      | JStr x => Theme_decode_members rest (mkThemeData (toValidUTF8 x))
      | JNull => Theme_decode_members rest t
      | _ => Err "json: cannot unmarshal into Go struct field ThemeData.theme of type string"
      end
    else Theme_decode_members rest t
  end.

(** [json.Unmarshal(data, &themeData)] *)
Definition Theme_Unmarshal (data : Bytes) (t : ThemeData) : result ThemeData :=
  match data with
  | OtherBytes => Err "invalid character looking for beginning of value"
  | JSONText JNull => Ok t
  | JSONText (JObj members) => Theme_decode_members members t
  | JSONText _ => Err "json: cannot unmarshal into Go value of type main.ThemeData"
  end.

(** Creating directories is the one call of the application that the
    Manager does not make. *)
Class Directories (OS : Type) := {
  os_MkdirAll : string -> OS -> result unit * OS
}.

Section Application.

Context {OS : Type} {P : Platform OS} {D : Directories OS}.

(** [GetTheme], given what [getThemeConfigPath] returned. It only reads the
    machine. *)
Definition GetTheme (path : result string) (o : OS) : string :=
  match path with
  | Err _ => "light"
  | Ok p =>
    match os_ReadFile p o with
    | Err _ => "light"
    | Ok data =>
      match Theme_Unmarshal data (mkThemeData "") with
      | Err _ => "light"
      | Ok themeData =>
        if decide (Theme themeData <> "light" /\ Theme themeData <> "dark")
        then "light"
        else Theme themeData
      end
    end
  end.

(** [SetTheme], given what [getThemeConfigPath] returned. *)
Definition SetTheme (theme : string) (path : result string) (o : OS) : result unit * OS :=
  let theme := if decide (theme <> "light" /\ theme <> "dark") then "light" else theme in
  match path with
  | Err err => (Err err, o)
  | Ok p =>
    match os_MkdirAll (filepath_Dir p) o with
    | (Err err, o1) => (Err err, o1)
    | (Ok _, o1) => os_WriteFile p (Theme_encode (mkThemeData theme)) o1
    end
  end.

(** [App.GetServices]: the listing of the Manager, empty when it fails. *)
Definition App_GetServices : M OS (list Service) :=
  r <- GetServices ;;
  match r with
  | Err _ => ret []
  | Ok services => ret services
  end.

End Application.

(** ** Vocabulary of the properties *)

Section Vocabulary.

Context {OS : Type} {P : Platform OS}.

(** The value the Config Store holds for a field of a service, if it holds
    one: the service's key opens and the value reads. *)
Definition stored_value (serviceName valueName : string) (o : OS) : option string :=
  match registry_OpenKey (parametersKey serviceName) READ o with
  | Err _ => None
  | Ok _ =>
    match registry_GetStringValue (parametersKey serviceName) valueName o with
    | Ok v => Some v
    | Err _ => None
    end
  end.

(** A wait as the specification words it: the state of the service is
    polled, with a pause of [pollInterval] between two polls, until the
    target state is observed or the deadline has passed. [Polls o evs r o']
    relates the machine before the wait, the calls issued, the outcome and
    the machine after it. *)
Inductive Polls (name : string) (target : svc_State) (deadline : Time)
  : OS -> list Event -> result unit -> OS -> Prop :=
| Polls_timeout o :
    deadline <= time_Now o ->
    Polls name target deadline o [] (Err "timeout waiting for service state") o
| Polls_reached o status o' :
    time_Now o < deadline ->
    Service_Query name o = (Ok status, o') ->
    State status = target ->
    Polls name target deadline o [EvQuery name] (Ok tt) o'
| Polls_stopped o status o' :
    time_Now o < deadline ->
    Service_Query name o = (Ok status, o') ->
    target = Running ->
    State status = Stopped ->
    Polls name target deadline o [EvQuery name] (Err "service failed to start") o'
| Polls_query_failed o err o' :
    time_Now o < deadline ->
    Service_Query name o = (Err err, o') ->
    Polls name target deadline o [EvQuery name]
          (Err (Errorf "failed to query service status" err)) o'
| Polls_again o status o' evs r o'' :
    time_Now o < deadline ->
    Service_Query name o = (Ok status, o') ->
    State status <> target ->
    ~ (target = Running /\ State status = Stopped) ->
    Polls name target deadline (time_Sleep pollInterval o') evs r o'' ->
    Polls name target deadline o (EvQuery name :: EvSleep pollInterval :: evs) r o''.

(** What [saveServices] adds to the log for a Manager [m]. *)
Definition snapshot_events (m : WindowsServiceManager) : list Event :=
  match json_MarshalIndent (services m) with
  | Err _ => []
  | Ok data => [EvWriteFile (dataFile m) data]
  end.

(** The machine after [saveServices]. *)
Definition snapshot_machine (m : WindowsServiceManager) (o : OS) : OS :=
  match json_MarshalIndent (services m) with
  | Err _ => o
  | Ok data => snd (os_WriteFile (dataFile m) data o)
  end.

(** What [emitServicesUpdated] adds to the log. *)
Definition updated_events (m : WindowsServiceManager) : list Event :=
  if ctx m then [EvEmitServicesUpdated (snd <$> map_to_list (services m))] else [].

(** What [emitServiceStatusChanged] adds to the log. *)
Definition status_events (m : WindowsServiceManager) (serviceID status : string) (pid : Z)
  : list Event :=
  if ctx m then [EvEmitStatusChanged serviceID status pid] else [].

(** An operation that leaves the Manager's fields alone and issues only
    calls of the kind [K]. *)
Definition issues_only {A} (K : Event -> Prop) (m : M OS A) : Prop :=
  forall w,
    wsm (snd (m w)) = wsm w /\
    exists evs, trace (snd (m w)) = trace w ++ evs /\ Forall K evs.

(** Two records of one service: what identifies and configures it is the
    same, whatever the status shown. *)
Definition same_service (s s' : Service) : Prop :=
  ID s' = ID s /\ Name s' = Name s /\ ExePath s' = ExePath s /\ Args s' = Args s /\
  WorkingDir s' = WorkingDir s /\ AutoStart s' = AutoStart s /\ CreatedAt s' = CreatedAt s.

(** A record that the snapshot can carry: its key and its texts are valid
    UTF-8, as every string is that came from the front end or from a
    snapshot, and what [time.Time] writes for its timestamps it reads
    back. *)
Definition timestamp_ok (t : Time) : Prop :=
  forall text, time_MarshalJSON t = Ok text -> exists t', time_UnmarshalJSON text = Ok t'.

Definition persistable (key : string) (s : Service) : Prop :=
  utf8_ValidString key = true /\
  utf8_ValidString (ID s) = true /\
  utf8_ValidString (Name s) = true /\
  utf8_ValidString (ExePath s) = true /\
  utf8_ValidString (Args s) = true /\
  utf8_ValidString (WorkingDir s) = true /\
  timestamp_ok (CreatedAt s) /\
  timestamp_ok (UpdatedAt s).

(** The fields of a record that the round trip through the snapshot is
    about. *)
Definition same_parameters (s s' : Service) : Prop :=
  ID s' = ID s /\ Name s' = Name s /\ ExePath s' = ExePath s /\
  Args s' = Args s /\ WorkingDir s' = WorkingDir s.

(** How a method ends when the service control manager refuses the
    connection with [err] and leaves the machine as [o1]: the error is
    wrapped, the Manager is as it was, and the attempt to connect is the
    only call issued. *)
Definition connection_refused {A} (err : string) (o1 : OS) (w : World OS)
  : result A * World OS :=
  (Err (Errorf "failed to connect to service control manager" err),
   mkWorld o1 (wsm w) (trace w ++ [EvConnect])).

(** How a method that works on one service ends when the service cannot
    be opened: the session is closed, no handle of the service was
    obtained and none is released. *)
Definition open_refused {A} (serviceID err : string) (o2 : OS) (w : World OS)
  : result A * World OS :=
  (Err (Errorf "failed to open service" err),
   mkWorld (mgr_Disconnect o2) (wsm w)
           (trace w ++ [EvConnect; EvOpenService serviceID; EvDisconnect])).

End Vocabulary.

(** Kinds of calls. *)
Definition is_registry_call (ev : Event) : Prop :=
  match ev with
  | EvRegOpenKey _ _ | EvRegCreateKey _ _ | EvRegSetString _ _ _ | EvRegClose _ => True
  | _ => False
  end.

Definition is_poll_call (ev : Event) : Prop :=
  match ev with
  | EvQuery _ | EvSleep _ => True
  | _ => False
  end.

Definition is_stop_call (ev : Event) : Prop :=
  match ev with
  | EvQuery _ | EvSleep _ | EvControl _ _ => True
  | _ => False
  end.

(** The calls that open and close a session with the service control
    manager and a handle of a service. *)
Definition is_session_call (ev : Event) : Prop :=
  match ev with
  | EvConnect | EvDisconnect | EvOpenService _ | EvClose _ => True
  | _ => False
  end.

(** Calls that end with the release of the handle of a service and of the
    session, with no other call of a session among them. *)
Definition released (serviceID : string) (evs : list Event) : Prop :=
  exists mid,
    evs = mid ++ [EvClose serviceID; EvDisconnect] /\
    Forall (fun ev => ~ is_session_call ev) mid.

(** The calls of one session on one service: the connection and the
    opening of the service first, the release of both last, and no call of
    a session in between. *)
Definition one_session (serviceID : string) (evs : list Event) : Prop :=
  exists rest,
    evs = [EvConnect; EvOpenService serviceID] ++ rest /\ released serviceID rest.

(** The pauses and the status queries of a log. *)
Definition is_sleep (ev : Event) : bool :=
  match ev with EvSleep _ => true | _ => false end.

Definition is_query (ev : Event) : bool :=
  match ev with EvQuery _ => true | _ => false end.

Definition count (f : Event -> bool) (evs : list Event) : Z :=
  Z.of_nat (List.length (List.filter f evs)).

(** The calls of a kind [K] that, when they write a registry value, write
    one of the values [allowed]. *)
Definition writes_only (allowed : string -> string -> string -> Prop) (ev : Event) : Prop :=
  match ev with
  | EvRegSetString path valueName value => allowed path valueName value
  | EvRegOpenKey _ _ | EvRegCreateKey _ _ | EvRegClose _ => True
  | _ => False
  end.

(** The registry values that the set-up of the wrapper stores for a
    service: they are values of the key that the host reads its
    configuration from. *)
Definition wrapper_values (serviceName exePath args workingDir : string)
           (path valueName value : string) : Prop :=
  path = parametersKey serviceName /\
  ((valueName = "ExePath" /\ value = exePath) \/
   (valueName = "Args" /\ value = args /\ args <> "") \/
   (valueName = "WorkingDir" /\ value = workingDir /\ workingDir <> "")).

(** The registry values that the creation of a service writes. *)
Definition created_values (serviceName exePath args workingDir : string)
           (path valueName value : string) : Prop :=
  wrapper_values serviceName exePath args workingDir path valueName value \/
  (path = parametersKey serviceName /\ valueName = "AppDirectory" /\ value = workingDir) \/
  (path = servicesKey serviceName /\ valueName = "ImagePath").

(** A call that, if it writes a registry value, writes one of [allowed]. *)
Definition writes_within (allowed : string -> string -> string -> Prop) (ev : Event) : Prop :=
  match ev with
  | EvRegSetString path valueName value => allowed path valueName value
  | _ => True
  end.

(** The states of a service that status resolution has no name for. *)
Definition is_pause_state (s : svc_State) : Prop :=
  s = Paused \/ s = PausePending \/ s = ContinuePending.

(** Texts of ASCII letters, digits and underscores. *)
Fixpoint id_chars (s : string) : bool :=
  match s with
  | EmptyString => true
  | String c rest => (is_alnum (byte_of c) || (byte_of c =? 95)) && id_chars rest
  end.

(** ** An in-memory machine

    A small machine that implements [Platform], with faults that can be
    switched on: the examples of the properties below run on it. *)

Record FakeService := mkFakeService {
  fs_status : svc_Status;
  fs_config : mgr_Config;
  fs_pending : list svc_Status  (* what the next queries find, one each *)
}.

Inductive Fault :=
| FailConnect
| FailOpen
| FailQuery
| FailStart
| FailControl
| FailDelete
| FailRegSet (valueName : string)
| FailWrite.

Global Instance Fault_eq_dec : EqDecision Fault.
Proof. solve_decision. Defined.

Record FakeOS := mkFake {
  fk_clock : Time;
  fk_services : gmap string FakeService;
  fk_registry : gmap string (gmap string string);
  fk_files : gmap string Bytes;
  fk_faults : list Fault;
  fk_boot : list svc_Status  (* what a service goes through once started *)
}.

Definition faulty (f : Fault) (o : FakeOS) : bool := bool_decide (f ∈ fk_faults o).

Definition fk_with_services (f : gmap string FakeService -> gmap string FakeService)
           (o : FakeOS) : FakeOS :=
  mkFake (fk_clock o) (f (fk_services o)) (fk_registry o) (fk_files o) (fk_faults o) (fk_boot o).

Definition fk_with_registry
           (f : gmap string (gmap string string) -> gmap string (gmap string string))
           (o : FakeOS) : FakeOS :=
  mkFake (fk_clock o) (fk_services o) (f (fk_registry o)) (fk_files o) (fk_faults o) (fk_boot o).

Definition fk_Sleep (d : Duration) (o : FakeOS) : FakeOS :=
  mkFake (fk_clock o + d) (fk_services o) (fk_registry o) (fk_files o) (fk_faults o) (fk_boot o).

Definition fk_Connect (o : FakeOS) : result unit * FakeOS :=
  if faulty FailConnect o then (Err "access denied", o) else (Ok tt, o).

Definition fk_CreateService (name binaryPath : string) (c : mgr_Config) (o : FakeOS)
  : result unit * FakeOS :=
  match fk_services o !! name with
  | Some _ => (Err "the specified service already exists", o)
  | None =>
    let c' := mkConfig (ServiceType c) (mc_StartType c) (ErrorControl c) binaryPath
                       (DisplayName c) (Description c) in
    (Ok tt,
     fk_with_registry (insert (servicesKey name) {[ "ImagePath" := binaryPath ]})
       (fk_with_services (insert name (mkFakeService (mkStatus Stopped 0) c' [])) o))
  end.

Definition fk_OpenService (name : string) (o : FakeOS) : result unit * FakeOS :=
  if faulty FailOpen o then (Err "access denied", o)
  else match fk_services o !! name with
       | Some _ => (Ok tt, o)
       | None => (Err "the specified service does not exist", o)
       end.

Definition fk_Query (name : string) (o : FakeOS) : result svc_Status * FakeOS :=
  if faulty FailQuery o then (Err "access denied", o)
  else match fk_services o !! name with
       | None => (Err "the handle is invalid", o)
       | Some s =>
         match fs_pending s with
         | [] => (Ok (fs_status s), o)
         | st :: rest =>
           (Ok st, fk_with_services (insert name (mkFakeService st (fs_config s) rest)) o)
         end
       end.

Definition fk_Start (name : string) (o : FakeOS) : result unit * FakeOS :=
  if faulty FailStart o then (Err "access denied", o)
  else match fk_services o !! name with
       | None => (Err "the handle is invalid", o)
       | Some s =>
         (Ok tt, fk_with_services
                   (insert name (mkFakeService (mkStatus StartPending 0) (fs_config s) (fk_boot o))) o)
       end.

Definition fk_Control (name : string) (c : svc_Cmd) (o : FakeOS) : result svc_Status * FakeOS :=
  if faulty FailControl o then (Err "access denied", o)
  else match fk_services o !! name, c with
       | None, _ => (Err "the handle is invalid", o)
       | Some s, Stop =>
         (Ok (mkStatus Stopped 0),
          fk_with_services (insert name (mkFakeService (mkStatus Stopped 0) (fs_config s) [])) o)
       | Some s, _ => (Ok (fs_status s), o)
       end.

Definition fk_Delete (name : string) (o : FakeOS) : result unit * FakeOS :=
  if faulty FailDelete o then (Err "access denied", o)
  else match fk_services o !! name with
       | None => (Err "the handle is invalid", o)
       | Some _ =>
         (Ok tt, fk_with_registry
                   (fun r => delete (servicesKey name) (delete (parametersKey name) r))
                   (fk_with_services (delete name) o))
       end.

Definition fk_Config (name : string) (o : FakeOS) : result mgr_Config * FakeOS :=
  match fk_services o !! name with
  | None => (Err "the handle is invalid", o)
  | Some s => (Ok (fs_config s), o)
  end.

Definition fk_UpdateConfig (name : string) (c : mgr_Config) (o : FakeOS) : result unit * FakeOS :=
  match fk_services o !! name with
  | None => (Err "the handle is invalid", o)
  | Some s =>
    (Ok tt, fk_with_services (insert name (mkFakeService (fs_status s) c (fs_pending s))) o)
  end.

Definition fk_OpenKey (path : string) (a : RegAccess) (o : FakeOS) : result unit :=
  match fk_registry o !! path with
  | Some _ => Ok tt
  | None => Err "the system cannot find the file specified"
  end.

Definition fk_CreateKey (parent subKey : string) (o : FakeOS) : result unit * FakeOS :=
  match fk_registry o !! parent with
  | None => (Err "the handle is invalid", o)
  | Some _ =>
    let path := parent +:+ backslash +:+ subKey in
    match fk_registry o !! path with
    | Some _ => (Ok tt, o)
    | None => (Ok tt, fk_with_registry (insert path ∅) o)
    end
  end.

Definition fk_SetStringValue (path valueName value : string) (o : FakeOS)
  : result unit * FakeOS :=
  if faulty (FailRegSet valueName) o then (Err "access denied", o)
  else match fk_registry o !! path with
       | None => (Err "the handle is invalid", o)
       | Some k => (Ok tt, fk_with_registry (insert path (<[valueName := value]> k)) o)
       end.

Definition fk_GetStringValue (path valueName : string) (o : FakeOS) : result string :=
  match fk_registry o !! path with
  | None => Err "the handle is invalid"
  | Some k =>
    match k !! valueName with
    | Some v => Ok v
    | None => Err "the system cannot find the file specified"
    end
  end.

Definition fk_WriteFile (path : string) (data : Bytes) (o : FakeOS) : result unit * FakeOS :=
  if faulty FailWrite o then (Err "the system cannot find the path specified", o)
  else (Ok tt, mkFake (fk_clock o) (fk_services o) (fk_registry o)
                      (<[path := data]> (fk_files o)) (fk_faults o) (fk_boot o)).

Definition fk_ReadFile (path : string) (o : FakeOS) : result Bytes :=
  match fk_files o !! path with
  | Some data => Ok data
  | None => Err "the system cannot find the file specified"
  end.

Definition fk_IsNotExist (path : string) (o : FakeOS) : bool :=
  match fk_files o !! path with Some _ => false | None => true end.

(** The directory of a path: what precedes its last backslash. *)
Fixpoint has_backslash (s : string) : bool :=
  match s with
  | EmptyString => false
  | String c rest => (byte_of c =? 92) || has_backslash rest
  end.

Fixpoint fk_Dir (s : string) : string :=
  match s with
  | EmptyString => EmptyString
  | String c rest => if has_backslash rest then String c (fk_Dir rest) else EmptyString
  end.

(** Timestamps are written as their number of nanoseconds. *)
Fixpoint digits_value (acc : Z) (s : string) : option Z :=
  match s with
  | EmptyString => Some acc
  | String c rest =>
    let b := byte_of c in
    if (48 <=? b) && (b <=? 57) then digits_value (10 * acc + (b - 48)) rest else None
  end.

Definition fk_TimeText (t : Time) : result string := Ok (pretty t).

Definition fk_TimeOfText (s : string) : result Time :=
  match s with
  | EmptyString => Err "cannot parse"
  | String c rest =>
    if byte_of c =? 45
    then match digits_value 0 rest with Some n => Ok (- n) | None => Err "cannot parse" end
    else match digits_value 0 s with Some n => Ok n | None => Err "cannot parse" end
  end.

Global Instance FakePlatform : Platform FakeOS.
Proof.
  refine {|
  time_Now := fk_clock;
  time_Sleep := fk_Sleep;
  time_MarshalJSON := fk_TimeText;
  time_UnmarshalJSON := fk_TimeOfText;
  os_Stat_IsNotExist := fk_IsNotExist;
  os_Executable := fun _ => Ok "C:\wsm\wsm.exe";
  os_WriteFile := fk_WriteFile;
  os_ReadFile := fk_ReadFile;
  filepath_Dir := fk_Dir;
  mgr_Connect := fk_Connect;
  mgr_Disconnect := id;
  mgr_CreateService := fk_CreateService;
  mgr_OpenService := fk_OpenService;
  Service_Close := fun _ => id;
  Service_Query := fk_Query;
  Service_Start := fk_Start;
  Service_Control := fk_Control;
  Service_Delete := fk_Delete;
  Service_Config := fk_Config;
  Service_UpdateConfig := fk_UpdateConfig;
  registry_OpenKey := fk_OpenKey;
  registry_CreateKey := fk_CreateKey;
  registry_SetStringValue := fk_SetStringValue;
  registry_GetStringValue := fk_GetStringValue
  |}.
  - intros name o. unfold fk_Query.
    destruct (faulty FailQuery o); simpl; [lia|].
    destruct (fk_services o !! name) as [s|]; simpl; [|lia].
    destruct (fs_pending s); simpl; lia.
  - intros d o. simpl. lia.
  - intros path data o o'. unfold fk_WriteFile, fk_ReadFile, fk_IsNotExist.
    destruct (faulty FailWrite o); [discriminate|].
    intros [= <-]. simpl. rewrite lookup_insert_eq. split; reflexivity.
Defined.

(** A machine on which the program [C:\apps\app.exe] exists and nothing
    else has happened yet, read at [clock]. *)
Definition fresh_machine (clock : Time) (faults : list Fault) (boot : list svc_Status) : FakeOS :=
  mkFake clock ∅ ∅ {[ "C:\apps\app.exe" := OtherBytes ]} faults boot.

Definition fresh_world (o : FakeOS) : World FakeOS :=
  mkWorld o (mkWSM "C:\data\data.json" ∅ NewServiceStatusCache true) [].

Definition request : ServiceConfig :=
  mkServiceConfig "My App" "C:\apps\app.exe" "" "" "".

(** The instant of the examples, and the id a service named "My App" gets
    when it is created then. *)
Definition instant : Time := 1700000000123456789.

Definition My_App : string := "WSM_My_App_1700000000".

(** A service that starts: after a start request it is found pending once
    and running, as process 4242, from then on. *)
Definition boots : list svc_Status := [mkStatus StartPending 0; mkStatus Running 4242].

(** The world before anything was created, and after "My App" was. *)
Definition world0 : World FakeOS := fresh_world (fresh_machine instant [] boots).

Definition created_world : World FakeOS := snd (CreateService request world0).

Definition created_service : Service :=
  mkService My_App "My App" "C:\apps\app.exe" "" "C:\apps" "stopped" 0 false instant instant.

(** A machine on which "My App" is registered and running as process 4242
    but cannot be deleted, and a Manager that has just loaded its record,
    with the status "running", from the snapshot: nothing is cached. *)
Definition undeletable_machine : FakeOS :=
  mkFake instant
         {[ My_App := mkFakeService (mkStatus Running 4242)
                                    (mkConfig SERVICE_WIN32_OWN_PROCESS StartAutomatic ErrorNormal
                                              "C:\apps\app.exe" "My App" "")
                                    [] ]}
         ∅ {[ "C:\apps\app.exe" := OtherBytes ]} [FailDelete] boots.

Definition running_service : Service :=
  mkService My_App "My App" "C:\apps\app.exe" "" "C:\apps" "running" 4242 false instant instant.

Definition running_world : World FakeOS :=
  mkWorld undeletable_machine
          (mkWSM "C:\data\data.json" {[ My_App := running_service ]} NewServiceStatusCache true)
          [].

(** A machine on which "My App" is registered and stopped, and a Manager
    that knows it. *)
Definition registered_machine : FakeOS :=
  mkFake instant
         {[ My_App := mkFakeService (mkStatus Stopped 0)
                                    (mkConfig SERVICE_WIN32_OWN_PROCESS StartAutomatic ErrorNormal
                                              "C:\apps\app.exe" "My App" "")
                                    [] ]}
         ∅ {[ "C:\apps\app.exe" := OtherBytes ]} [] boots.

Definition registered_world : World FakeOS :=
  mkWorld registered_machine
          (mkWSM "C:\data\data.json" {[ My_App := created_service ]} NewServiceStatusCache true)
          [].

(** A world whose Manager knows "My App" while the machine does not. *)
Definition orphan_world : World FakeOS :=
  mkWorld (fresh_machine instant [] boots)
          (mkWSM "C:\data\data.json" {[ My_App := created_service ]} NewServiceStatusCache true)
          [].

(** Whether a call is a request for deletion. *)
Definition is_delete (ev : Event) : bool :=
  match ev with EvDelete _ => true | _ => false end.

(** A machine on which "My App" is registered in the state [status], with
    the faults [faults], and the world of a Manager that knows the
    service on a machine [o]. *)
Definition machine_with (status : svc_Status) (faults : list Fault) : FakeOS :=
  mkFake instant
         {[ My_App := mkFakeService status
                                    (mkConfig SERVICE_WIN32_OWN_PROCESS StartAutomatic ErrorNormal
                                              "C:\apps\app.exe" "My App" "")
                                    [] ]}
         ∅ {[ "C:\apps\app.exe" := OtherBytes ]} faults boots.

Definition world_on (o : FakeOS) : World FakeOS :=
  mkWorld o
          (mkWSM "C:\data\data.json" {[ My_App := created_service ]} NewServiceStatusCache true)
          [].

(** The service control manager cannot be reached. *)
Definition unreachable_world : World FakeOS :=
  world_on (machine_with (mkStatus Stopped 0) [FailConnect]).

(** "My App" runs as process 4242. *)
Definition live_world : World FakeOS :=
  world_on (machine_with (mkStatus Running 4242) []).

(** "My App" is stopped and refuses to start. *)
Definition stuck_world : World FakeOS :=
  world_on (machine_with (mkStatus Stopped 0) [FailStart]).

(** "My App" runs and takes no control signal. *)
Definition deaf_world : World FakeOS :=
  world_on (machine_with (mkStatus Running 4242) [FailControl]).

(** "My App" is paused. *)
Definition paused_world : World FakeOS :=
  world_on (machine_with (mkStatus Paused 4242) []).

(** A request for a service of another name, and one whose executable
    does not exist. *)
Definition other_request : ServiceConfig :=
  mkServiceConfig "Other" "C:\apps\app.exe" "" "" "".

Definition lost_request : ServiceConfig :=
  mkServiceConfig "My App" "C:\apps\gone.exe" "" "" "".

(** "My App" is stopped, and the cache of the Manager still holds the
    status "running" stored at [instant]. *)
Definition cached_world : World FakeOS :=
  mkWorld (machine_with (mkStatus Stopped 0) [])
          (mkWSM "C:\data\data.json" {[ My_App := created_service ]}
                 (Cache_Set instant NewServiceStatusCache My_App "running" 4242) true)
          [].

(** The data file holds bytes that are no document. *)
Definition garbled_world : World FakeOS :=
  world_on (mkFake instant ∅ ∅ {[ "C:\data\data.json" := OtherBytes ]} [] boots).

Definition theme_file : string := "C:\config\theme.json".

(** The in-memory machine creates any directory. *)
Global Instance FakeDirectories : Directories FakeOS :=
  {| os_MkdirAll := fun _ o => (Ok tt, o) |}.

(** * Properties *)

(** ** The status cache *)

Lemma time_Sub_stale (now t d : Z) :
  - 2 ^ 63 <= d < 2 ^ 63 - 1 ->
  (d <? time_Sub now t) = (d <? now - t).
Proof.
  intros Hd. unfold time_Sub, minDuration, maxDuration.
  destruct (Z.ltb_spec d (now - t)); destruct (Z.ltb_spec d (Z.max (- 2 ^ 63) (Z.min (2 ^ 63 - 1) (now - t)))); lia.
Qed.

Lemma Cache_Get_stale_iff (now : Time) (c : ServiceStatusCache) (name : string) (e : CachedServiceStatus) :
  ttl c = 5 * Second ->
  cache c !! name = Some e ->
  Cache_Get now c name = if 5 * Second <? now - cs_Timestamp e then None else Some e.
Proof.
  intros Httl He. unfold Cache_Get, time_Since. rewrite He, Httl.
  rewrite time_Sub_stale; [reflexivity|]. unfold Second. lia.
Qed.

(** C6. Cache read semantics. On a cache whose TTL is the 5 s of
    [NewServiceStatusCache]: a [Set] at [t0] followed by a [Get] at [now],
    no more than the TTL later, returns exactly the stored status and pid;
    a [Get] for an absent entry is a miss; and a [Get] for an entry that is
    stored but older than the TTL is a miss, with no [Remove] in between
    (also when the entry is the one a [Set] has just stored). *)
Theorem Cache_read_semantics
        (c : ServiceStatusCache) (name status : string) (pid : Z) (t0 now : Time) :
  ttl c = 5 * Second ->
  (now - t0 <= 5 * Second ->
   Cache_Get now (Cache_Set t0 c name status pid) name = Some (mkCached status pid t0)) /\
  (cache c !! name = None -> Cache_Get now c name = None) /\
  (forall e, cache c !! name = Some e -> 5 * Second < now - cs_Timestamp e ->
             Cache_Get now c name = None) /\
  (5 * Second < now - t0 ->
   Cache_Get now (Cache_Set t0 c name status pid) name = None).
Proof.
  intros Httl.
  assert (Hset : cache (Cache_Set t0 c name status pid) !! name = Some (mkCached status pid t0))
    by (simpl; apply lookup_insert_eq).
  repeat split.
  - intros Hage. rewrite (Cache_Get_stale_iff now (Cache_Set t0 c name status pid) name _ Httl Hset). simpl.
    destruct (Z.ltb_spec (5 * Second) (now - t0)); [lia | reflexivity].
  - intros Habs. unfold Cache_Get. rewrite Habs. reflexivity.
  - intros e He Hage. rewrite (Cache_Get_stale_iff _ _ _ _ Httl He).
    destruct (Z.ltb_spec (5 * Second) (now - cs_Timestamp e)); [reflexivity | lia].
  - intros Hage. rewrite (Cache_Get_stale_iff now (Cache_Set t0 c name status pid) name _ Httl Hset). simpl.
    destruct (Z.ltb_spec (5 * Second) (now - t0)); [reflexivity | lia].
Qed.

Lemma Cache_read_semantics_witness :
  Cache_Get (4 * Second) (Cache_Set 0 NewServiceStatusCache "svc" "running" 7) "svc"
    = Some (mkCached "running" 7 0) /\
  Cache_Get (4 * Second) NewServiceStatusCache "svc" = None /\
  Cache_Get (6 * Second) (Cache_Set 0 NewServiceStatusCache "svc" "running" 7) "svc" = None.
Proof.
  destruct (Cache_read_semantics NewServiceStatusCache "svc" "running" 7 0 (4 * Second) eq_refl)
    as (Hhit & Habsent & _ & _).
  destruct (Cache_read_semantics NewServiceStatusCache "svc" "running" 7 0 (6 * Second) eq_refl)
    as (_ & _ & _ & Hstale).
  split; [apply Hhit; vm_compute; discriminate|].
  split; [apply Habsent; reflexivity|].
  apply Hstale; vm_compute; reflexivity.
Defined.

(** *** Remove, Clear, CleanExpired and Set *)

(** The age of an entry only grows with the clock. *)
Lemma time_Sub_mono (now now' t : Time) : now <= now' -> time_Sub now t <= time_Sub now' t.
Proof. unfold time_Sub. lia. Qed.

(** What CleanExpired, run at [now], leaves under a name. *)
Lemma Cache_CleanExpired_lookup (now : Time) (c : ServiceStatusCache) (name : string) :
  cache (Cache_CleanExpired now c) !! name =
  match cache c !! name with
  | None => None
  | Some e => if ttl c <? time_Sub now (cs_Timestamp e) then None else Some e
  end.
Proof.
  unfold Cache_CleanExpired. cbn [cache].
  rewrite map_lookup_filter.
  destruct (cache c !! name) as [e|]; [|reflexivity]. simpl.
  destruct (Z.ltb_spec (ttl c) (time_Sub now (cs_Timestamp e))) as [Hlt|Hge].
  - rewrite option_guard_False by (simpl; tauto). reflexivity.
  - rewrite option_guard_True by (simpl; lia). reflexivity.
Qed.

(** X1. After [Remove] of a name, a [Get] for that name is a miss at any
    instant, and a [Get] for any other name answers what it answered
    before. *)
Theorem Cache_Remove_then_Get (now : Time) (c : ServiceStatusCache) (name name' : string) :
  Cache_Get now (Cache_Remove c name) name' =
  if decide (name' = name) then None else Cache_Get now c name'.
Proof.
  unfold Cache_Get, Cache_Remove. cbn [cache ttl].
  destruct (decide (name' = name)) as [->|Hne].
  - rewrite lookup_delete_eq. reflexivity.
  - rewrite lookup_delete_ne by congruence. reflexivity.
Qed.

(** X2. [CleanExpired] leaves in the map exactly the entries that a [Get]
    made at the same instant returns: an entry is dropped if and only if
    [Get] would have treated it as a miss. *)
Theorem Cache_CleanExpired_keeps_what_Get_returns
        (now : Time) (c : ServiceStatusCache) (name : string) :
  cache (Cache_CleanExpired now c) !! name = Cache_Get now c name.
Proof. rewrite Cache_CleanExpired_lookup. reflexivity. Qed.

(** X3. [CleanExpired] is invisible to the readers of the cache: a [Get]
    made when the cleaning runs or at any later instant answers the same
    with and without the cleaning. *)
Theorem Cache_CleanExpired_invisible
        (now now' : Time) (c : ServiceStatusCache) (name : string) :
  now <= now' ->
  Cache_Get now' (Cache_CleanExpired now c) name = Cache_Get now' c name.
Proof.
  intros Hlater. unfold Cache_Get, time_Since.
  rewrite Cache_CleanExpired_lookup.
  change (ttl (Cache_CleanExpired now c)) with (ttl c).
  destruct (cache c !! name) as [e|]; [|reflexivity].
  pose proof (time_Sub_mono now now' (cs_Timestamp e) Hlater) as Hmono.
  destruct (Z.ltb_spec (ttl c) (time_Sub now (cs_Timestamp e))) as [Hlt|Hge]; [|reflexivity].
  destruct (Z.ltb_spec (ttl c) (time_Sub now' (cs_Timestamp e))); [reflexivity|lia].
Qed.

(** X4. After [Clear] every [Get] is a miss, whatever the name and the
    instant, and a [Set] made then stores the only entry of the cache. *)
Theorem Cache_Clear_then_Get
        (now t0 : Time) (c : ServiceStatusCache) (name name' status : string) (pid : Z) :
  Cache_Get now (Cache_Clear c) name = None /\
  cache (Cache_Set t0 (Cache_Clear c) name status pid) = {[ name := mkCached status pid t0 ]} /\
  Cache_Get now (Cache_Set t0 (Cache_Clear c) name status pid) name' =
    if decide (name' = name) then Cache_Get now (Cache_Set t0 c name status pid) name else None.
Proof.
  split; [reflexivity|]. split; [reflexivity|].
  unfold Cache_Get, Cache_Set, Cache_Clear. cbn [cache ttl].
  destruct (decide (name' = name)) as [->|Hne].
  - rewrite !lookup_insert_eq. reflexivity.
  - rewrite lookup_insert_ne by congruence. reflexivity.
Qed.

(** X5. [Set] writes one entry: the entry of the name is replaced (of two
    [Set]s for a name only the later one is left), and a [Get] for another
    name answers what it answered before. *)
Theorem Cache_Set_writes_one_entry
        (now t0 t1 : Time) (c : ServiceStatusCache) (name name' : string)
        (status0 status1 : string) (pid0 pid1 : Z) :
  Cache_Set t1 (Cache_Set t0 c name status0 pid0) name status1 pid1
    = Cache_Set t1 c name status1 pid1 /\
  (name' <> name ->
   Cache_Get now (Cache_Set t0 c name status0 pid0) name' = Cache_Get now c name').
Proof.
  split.
  - unfold Cache_Set. cbn [cache ttl]. rewrite insert_insert_eq. reflexivity.
  - intros Hne. unfold Cache_Get, Cache_Set. cbn [cache ttl].
    rewrite lookup_insert_ne by congruence. reflexivity.
Qed.

(** X6. A miss stays a miss: when a [Get] for a name misses, every later
    [Get] for it on the same cache misses too. Only a [Set] brings the
    name back. *)
Theorem Cache_Get_miss_persists (now now' : Time) (c : ServiceStatusCache) (name : string) :
  now <= now' ->
  Cache_Get now c name = None ->
  Cache_Get now' c name = None.
Proof.
  intros Hlater. unfold Cache_Get, time_Since.
  destruct (cache c !! name) as [e|]; [|reflexivity].
  pose proof (time_Sub_mono now now' (cs_Timestamp e) Hlater) as Hmono.
  destruct (Z.ltb_spec (ttl c) (time_Sub now (cs_Timestamp e))) as [Hlt|Hge]; [|discriminate].
  intros _. destruct (Z.ltb_spec (ttl c) (time_Sub now' (cs_Timestamp e))); [reflexivity|lia].
Qed.

(** ** Service ids *)

Example generateServiceName_My_App :
  generateServiceName 1700000000123456789 "My App" = "WSM_My_App_1700000000".
Proof. vm_compute. reflexivity. Qed.

Lemma append_inj_r (p s1 s2 : string) : p +:+ s1 = p +:+ s2 -> s1 = s2.
Proof. induction p as [|c p IH]; simpl; [tauto|]. intros [= H]. auto. Qed.

Lemma length_append (s t : string) :
  String.length (s +:+ t) = (String.length s + String.length t)%nat.
Proof. induction s as [|c s IH]; simpl; [reflexivity | rewrite IH; reflexivity]. Qed.

Lemma append_inj_l (s1 s2 t : string) : s1 +:+ t = s2 +:+ t -> s1 = s2.
Proof.
  revert s2. induction s1 as [|c s1 IH]; intros [|c2 s2] H.
  - reflexivity.
  - exfalso. apply (f_equal String.length) in H.
    change (String.length t = S (String.length (s2 +:+ t))) in H.
    rewrite (length_append s2 t) in H. lia.
  - exfalso. apply (f_equal String.length) in H.
    change (S (String.length (s1 +:+ t)) = String.length t) in H.
    rewrite (length_append s1 t) in H. lia.
  - change (String c (s1 +:+ t) = String c2 (s2 +:+ t)) in H.
    injection H as -> H. f_equal. auto.
Qed.

Lemma char_of_byte_of (c : ascii) : char_of (byte_of c) = c.
Proof. unfold char_of, byte_of. rewrite N2Z.id. apply ascii_N_embedding. Qed.

(** A name of letters and digits is its own sanitized form. *)
Lemma cleanName_alnum (name : string) : alnum name = true -> cleanName name = name.
Proof.
  unfold cleanName, strings_Map.
  induction name as [|c rest IH]; intros Hname; [reflexivity|].
  cbn [alnum] in Hname. apply andb_prop in Hname as [Hc Hrest].
  cbn [Map_from].
  assert (Hascii : (byte_of c <? 128) = true).
  { unfold is_alnum in Hc. apply Z.ltb_lt. lia. }
  unfold DecodeRuneInString. rewrite Hascii.
  change (cleanRune (byte_of c)) with (if is_alnum (byte_of c) then byte_of c else 95).
  rewrite Hc. unfold WriteRune. rewrite char_of_byte_of.
  change (String c (Map_from cleanRune (1 - 1) rest) = String c rest).
  change (1 - 1)%nat with 0%nat. rewrite (IH Hrest). reflexivity.
Qed.

(** C2, as the code has it. Two requests read at the same instant get the
    same id exactly when their names are the same once sanitized: names
    whose sanitized forms differ get distinct ids, and names that differ
    only in characters outside letters and digits share one. In
    particular distinct names spelt with ASCII letters and digits only get
    distinct ids. *)
Theorem generateServiceName_same_instant (now : Time) (name1 name2 : string) :
  (generateServiceName now name1 = generateServiceName now name2 <->
   cleanName name1 = cleanName name2) /\
  (alnum name1 = true -> alnum name2 = true -> name1 <> name2 ->
   generateServiceName now name1 <> generateServiceName now name2).
Proof.
  assert (Hiff : generateServiceName now name1 = generateServiceName now name2 <->
                 cleanName name1 = cleanName name2).
  { unfold generateServiceName. split.
    - intros H. apply append_inj_r in H. apply append_inj_l in H. exact H.
    - intros ->. reflexivity. }
  split; [exact Hiff|].
  intros H1 H2 Hne Heq. apply Hiff in Heq.
  rewrite (cleanName_alnum _ H1), (cleanName_alnum _ H2) in Heq. contradiction.
Qed.

Lemma generateServiceName_same_instant_witness :
  generateServiceName 1700000000123456789 "MyApp" <>
  generateServiceName 1700000000123456789 "MyApp2".
Proof.
  apply (proj2 (generateServiceName_same_instant 1700000000123456789 "MyApp" "MyApp2")).
  - reflexivity.
  - reflexivity.
  - discriminate.
Defined.

(** C2 as stated fails: "My App" and "My_App" are distinct names with one
    id at any instant. *)
Lemma generateServiceName_not_injective :
  ~ (forall (now : Time) (name1 name2 : string),
        name1 <> name2 ->
        generateServiceName now name1 <> generateServiceName now name2).
Proof.
  intros H. apply (H 1700000000123456789 "My App" "My_App").
  - discriminate.
  - vm_compute. reflexivity.
Qed.

(** ** The host's configuration *)

Section HostConfiguration.

Context {OS : Type} {P : Platform OS}.

(** C7. Loading the configuration of a service fails only when [ExePath]
    is missing from the Config Store; otherwise it succeeds with the stored
    [ExePath], with the empty string for each of [Args], [WorkingDir] and
    [StdoutLog] that is missing, and with the service id as the name when
    [DisplayName] is missing. *)
Theorem LoadServiceConfig_defaults (serviceName : string) (o : OS) :
  match stored_value serviceName "ExePath" o with
  | None => is_Err (LoadServiceConfigFromRegistry serviceName o) = true
  | Some exePath =>
    LoadServiceConfigFromRegistry serviceName o =
    Ok (mkServiceConfig
          (default serviceName (stored_value serviceName "DisplayName" o))
          exePath
          (default "" (stored_value serviceName "Args" o))
          (default "" (stored_value serviceName "WorkingDir" o))
          (default "" (stored_value serviceName "StdoutLog" o)))
  end.
Proof.
  unfold stored_value, LoadServiceConfigFromRegistry.
  destruct (registry_OpenKey (parametersKey serviceName) READ o) as [[]|err]; [|reflexivity].
  destruct (registry_GetStringValue (parametersKey serviceName) "ExePath" o); [|reflexivity].
  destruct (registry_GetStringValue (parametersKey serviceName) "DisplayName" o);
  destruct (registry_GetStringValue (parametersKey serviceName) "Args" o);
  destruct (registry_GetStringValue (parametersKey serviceName) "WorkingDir" o);
  destruct (registry_GetStringValue (parametersKey serviceName) "StdoutLog" o);
  reflexivity.
Qed.

End HostConfiguration.

(** ** Running the Manager's methods *)

(** Running a method: the plumbing of the world is unfolded and computed
    away, and what is left are the calls to the platform. *)
Ltac unfold_m :=
  cbv beta iota zeta delta
      [bind ret call act look note observe Now get_wsm put_wsm set_services
       set_statusCache update_service statusCache_Get statusCache_Set
       withSCM connectSCM closing].
Ltac proj := cbn [os wsm trace fst snd dataFile services statusCache ctx].
Ltac run := repeat (progress (unfold_m; proj)).

Section Running.

Context {OS : Type} {P : Platform OS}.

Lemma saveServices_run (w : World OS) :
  saveServices w =
  (tt, mkWorld (snapshot_machine (wsm w) (os w)) (wsm w) (trace w ++ snapshot_events (wsm w))).
Proof.
  unfold saveServices, snapshot_machine, snapshot_events. run.
  destruct w as [o m t]; proj.
  destruct (json_MarshalIndent (services m)); run.
  - destruct (os_WriteFile (dataFile m) a o). reflexivity.
  - rewrite app_nil_r. reflexivity.
Qed.

Lemma emitServiceStatusChanged_run (serviceID status : string) (pid : Z) (w : World OS) :
  emitServiceStatusChanged serviceID status pid w =
  (tt, mkWorld (os w) (wsm w) (trace w ++ status_events (wsm w) serviceID status pid)).
Proof.
  unfold emitServiceStatusChanged, status_events. run.
  destruct w as [o m t]; proj. destruct (ctx m); run; [reflexivity|].
  rewrite app_nil_r. reflexivity.
Qed.

Lemma emitServicesUpdated_run (w : World OS) :
  emitServicesUpdated w =
  (tt, mkWorld (os w) (wsm w) (trace w ++ updated_events (wsm w))).
Proof.
  unfold emitServicesUpdated, updated_events. run.
  destruct w as [o m t]; proj. destruct (ctx m); run; [reflexivity|].
  rewrite app_nil_r. reflexivity.
Qed.

(** *** Operations that leave the Manager alone *)

Lemma issues_only_ret {A} (K : Event -> Prop) (a : A) : issues_only K (ret a : M OS A).
Proof. intros w. split; [reflexivity|]. exists []. rewrite app_nil_r. auto. Qed.

Lemma issues_only_bind {A B} (K : Event -> Prop) (m : M OS A) (f : A -> M OS B) :
  issues_only K m -> (forall a, issues_only K (f a)) -> issues_only K (bind m f).
Proof.
  intros Hm Hf w. unfold bind.
  destruct (Hm w) as (Hw & evs & Ht & HK).
  destruct (m w) as [a w1]. simpl in *.
  destruct (Hf a w1) as (Hw2 & evs2 & Ht2 & HK2).
  split; [congruence|].
  exists (evs ++ evs2). rewrite Ht2, Ht, app_assoc. split; [reflexivity|].
  apply Forall_app; auto.
Qed.

Lemma issues_only_call {A} (K : Event -> Prop) (ev : Event) (op : OS -> A * OS) :
  K ev -> issues_only K (call ev op).
Proof.
  intros HK w. unfold call. destruct (op (os w)). simpl.
  split; [reflexivity|]. exists [ev]. auto.
Qed.

Lemma issues_only_observe {A} (K : Event -> Prop) (f : OS -> A) : issues_only K (observe f).
Proof. intros w. split; [reflexivity|]. exists []. simpl. rewrite app_nil_r. auto. Qed.

Lemma issues_only_Now (K : Event -> Prop) : issues_only K Now.
Proof. intros w. split; [reflexivity|]. exists []. simpl. rewrite app_nil_r. auto. Qed.

Lemma issues_only_weaken {A} (K K' : Event -> Prop) (m : M OS A) :
  (forall ev, K ev -> K' ev) -> issues_only K m -> issues_only K' m.
Proof.
  intros HKK Hm w. destruct (Hm w) as (Hw & evs & Ht & HK).
  split; [exact Hw|]. exists evs. split; [exact Ht|].
  eapply Forall_impl; eauto.
Qed.

Ltac issues_only_step :=
  first
    [ apply issues_only_ret
    | apply issues_only_Now
    | apply issues_only_observe
    | apply issues_only_call; exact I
    | apply issues_only_bind; [|intros] ].

Lemma setServiceRegistryValue_issues (serviceName subKey valueName value : string) :
  issues_only is_registry_call (setServiceRegistryValue serviceName subKey valueName value).
Proof.
  unfold setServiceRegistryValue, look, act.
  destruct (decide (subKey <> "")).
  - repeat issues_only_step. destruct a as [[]|err]; repeat issues_only_step.
    destruct a as [[]|err2]; repeat issues_only_step.
    destruct a; repeat issues_only_step.
  - repeat issues_only_step. destruct a as [[]|err]; repeat issues_only_step.
    destruct a; repeat issues_only_step.
Qed.

Lemma storeServiceConfigInRegistry_issues (serviceName exePath args workingDir : string) :
  issues_only is_registry_call
              (storeServiceConfigInRegistry serviceName exePath args workingDir).
Proof.
  unfold storeServiceConfigInRegistry.
  apply issues_only_bind; [apply setServiceRegistryValue_issues|intros [[]|err]].
  2: issues_only_step.
  apply issues_only_bind.
  { destruct (decide (args <> "")); [apply setServiceRegistryValue_issues | issues_only_step]. }
  intros [[]|err]; [|issues_only_step].
  apply issues_only_bind.
  { destruct (decide (workingDir <> "")); [apply setServiceRegistryValue_issues | issues_only_step]. }
  intros [[]|err]; issues_only_step.
Qed.

Lemma createServiceWrapper_issues (serviceName exePath args workingDir : string) :
  issues_only is_registry_call (createServiceWrapper serviceName exePath args workingDir).
Proof.
  unfold createServiceWrapper.
  apply issues_only_bind; [issues_only_step|intros [currentExe|err]]; [|issues_only_step].
  apply issues_only_bind; [apply storeServiceConfigInRegistry_issues|].
  intros [[]|err]; issues_only_step.
Qed.

Lemma waitLoop_issues (rounds : nat) (name : string) (target : svc_State) (deadline : Time) :
  issues_only is_poll_call (waitLoop rounds name target deadline).
Proof.
  induction rounds as [|rounds IH]; simpl; [issues_only_step|].
  apply issues_only_bind; [issues_only_step|intros now].
  destruct (time_Before now deadline); [|issues_only_step].
  apply issues_only_bind; [issues_only_step|intros [status|err]]; [|issues_only_step].
  destruct (decide (State status = target)); [issues_only_step|].
  destruct (decide (target = Running /\ State status = Stopped)); [issues_only_step|].
  apply issues_only_bind; [unfold act; issues_only_step | intros; exact IH].
Qed.

Lemma waitForServiceState_issues (name : string) (target : svc_State) (timeout : Duration) :
  issues_only is_poll_call (waitForServiceState name target timeout).
Proof.
  unfold waitForServiceState.
  apply issues_only_bind; [issues_only_step | intros; apply waitLoop_issues].
Qed.

(** ** Status resolution *)

(** C10. When the cache has no fresh entry for a service and the service
    cannot be opened, or is opened and cannot be queried, status resolution
    answers ("error", 0) and stores that answer in the cache; and as long
    as the cache holds it and no more than the 5 s TTL have passed since it
    was stored, status resolution answers ("error", 0) from the cache and
    leaves the world as it is: no call is issued to the service control
    manager. *)
Theorem status_error_is_cached (name : string) (w : World OS) :
  ttl (statusCache (wsm w)) = 5 * Second ->
  Cache_Get (time_Now (os w)) (statusCache (wsm w)) name = None ->
  (is_Err (fst (mgr_OpenService name (os w))) = true \/
   (exists o1, mgr_OpenService name (os w) = (Ok tt, o1) /\
               is_Err (fst (Service_Query name o1)) = true)) ->
  exists (w1 : World OS) (stamp : Time),
    getServiceRealTimeStatus name w = (("error", 0), w1) /\
    cache (statusCache (wsm w1)) !! name = Some (mkCached "error" 0 stamp) /\
    forall w2 : World OS,
      statusCache (wsm w2) = statusCache (wsm w1) ->
      time_Now (os w2) - stamp <= 5 * Second ->
      getServiceRealTimeStatus name w2 = (("error", 0), w2).
Proof.
  intros Httl Hmiss Hfail.
  assert (Hhit : forall (w1 w2 : World OS) stamp,
             ttl (statusCache (wsm w1)) = 5 * Second ->
             cache (statusCache (wsm w1)) !! name = Some (mkCached "error" 0 stamp) ->
             statusCache (wsm w2) = statusCache (wsm w1) ->
             time_Now (os w2) - stamp <= 5 * Second ->
             getServiceRealTimeStatus name w2 = (("error", 0), w2)).
  { intros w1 w2 stamp Ht He Hsame Hage.
    unfold getServiceRealTimeStatus. run. rewrite Hsame.
    rewrite (Cache_Get_stale_iff _ _ _ _ Ht He). simpl.
    destruct (Z.ltb_spec (5 * Second) (time_Now (os w2) - stamp)); [lia|].
    reflexivity. }
  destruct Hfail as [Hopen | (o1 & Hopen & Hquery)].
  - destruct (mgr_OpenService name (os w)) as [[u|err] o1] eqn:Ho; [discriminate|].
    eexists; exists (time_Now o1). split; [|split].
    + unfold getServiceRealTimeStatus. run. rewrite Hmiss, Ho. run. reflexivity.
    + proj. simpl. apply lookup_insert_eq.
    + intros w2 Hsame Hage. eapply Hhit with (3 := Hsame); [exact Httl | | exact Hage].
      simpl. apply lookup_insert_eq.
  - destruct (Service_Query name o1) as [[status|err] o2] eqn:Hq; [discriminate|].
    eexists; exists (time_Now o2). split; [|split].
    + unfold getServiceRealTimeStatus. run. rewrite Hmiss, Hopen. run.
      rewrite Hq. run. reflexivity.
    + proj. simpl. apply lookup_insert_eq.
    + intros w2 Hsame Hage. eapply Hhit with (3 := Hsame); [exact Httl | | exact Hage].
      simpl. apply lookup_insert_eq.
Qed.

(** ** StopService *)

(** C4. StopService on a known service that the service control manager
    reports stopped succeeds at once: the calls it issues are the
    connection, the opening of the service, one status query, the write of
    the snapshot and the release of the handles; no control signal is sent
    and no wait takes place. The record is set to "stopped" with pid 0. *)
Theorem StopService_already_stopped
        (serviceID : string) (w : World OS) (service : Service)
        (o1 o2 o3 : OS) (status : svc_Status) :
  services (wsm w) !! serviceID = Some service ->
  mgr_Connect (os w) = (Ok tt, o1) ->
  mgr_OpenService serviceID o1 = (Ok tt, o2) ->
  Service_Query serviceID o2 = (Ok status, o3) ->
  State status = Stopped ->
  exists (w' : World OS) (evs : list Event),
    StopService serviceID w = (Ok tt, w') /\
    trace w' = trace w ++ evs /\
    evs = [EvConnect; EvOpenService serviceID; EvQuery serviceID]
            ++ snapshot_events (wsm w') ++ [EvClose serviceID; EvDisconnect] /\
    (forall name c, ~ In (EvControl name c) evs) /\
    (forall d, ~ In (EvSleep d) evs) /\
    services (wsm w') !! serviceID =
      Some (set_UpdatedAt (time_Now o3) (set_PID 0 (set_Status "stopped" service))).
Proof.
  intros Hknown Hc Ho Hq Hs.
  eexists; eexists. split; [|split; [|split; [reflexivity|]]].
  - unfold StopService. run. rewrite Hknown. run. rewrite Hc. run.
    rewrite Ho. run. rewrite Hq. run. rewrite decide_True by exact Hs. run.
    rewrite saveServices_run. run. reflexivity.
  - proj. rewrite <- !app_assoc. reflexivity.
  - proj. split; [|split].
    + intros name c Hin. unfold snapshot_events in Hin.
      destruct (json_MarshalIndent _); simpl in Hin;
        repeat (destruct Hin as [Hin|Hin]; [discriminate|]); exact Hin.
    + intros d Hin. unfold snapshot_events in Hin.
      destruct (json_MarshalIndent _); simpl in Hin;
        repeat (destruct Hin as [Hin|Hin]; [discriminate|]); exact Hin.
    + rewrite lookup_alter_eq, Hknown. reflexivity.
Qed.

(** ** CreateService *)

(** Entering an operation that is known to leave the Manager alone: its
    result and the world it leaves are named, with what [L] says of them. *)
Ltac enter_at Hi :=
  let Hw := fresh "Hwsm" in
  let evs := fresh "evs" in
  let Ht := fresh "Htrace" in
  let HK := fresh "Hkind" in
  let r := fresh "r" in
  let w1 := fresh "w" in
  match type of Hi with
  | issues_only _ ?m =>
    match goal with
    | |- context [?m' ?w] =>
      unify m m';
      destruct (Hi w) as (Hw & evs & Ht & HK);
      destruct (m' w) as [r w1];
      cbn [fst snd os wsm trace] in Hw, Ht;
      clear Hi
    end
  end.

Tactic Notation "enter" uconstr(L) :=
  let Hi := fresh "Hissues" in
  epose proof L as Hi; enter_at Hi.

(** Membership in a log put together from known pieces. *)
Ltac leaf Hin :=
  first
    [ exact Hin
    | solve [ simpl in Hin; repeat (destruct Hin as [Hin|Hin]; [discriminate Hin|]); exact Hin ]
    | solve [ match goal with
              | HK : Forall _ ?l |- _ =>
                apply (proj1 (List.Forall_forall _ l) HK) in Hin; exact Hin
              end ]
    | solve [ unfold snapshot_events, updated_events in Hin;
              repeat match type of Hin with
                     | context [match ?x with _ => _ end] => destruct x
                     end;
              simpl in Hin;
              repeat (destruct Hin as [Hin|Hin]; [discriminate Hin|]); exact Hin ] ].

Ltac notin :=
  let Hin := fresh "Hin" in
  intros Hin;
  repeat (apply in_app_or in Hin; destruct Hin as [Hin|Hin]; [leaf Hin|]);
  leaf Hin.

Lemma CreateService_run (config : ServiceConfig) (w : World OS) :
  let serviceName := generateServiceName (time_Now (os w)) (cfg_Name config) in
  exists evs,
    trace (snd (CreateService config w)) = trace w ++ evs /\
    match fst (CreateService config w) with
    | Ok service =>
      (exists created updated,
          service = mkService serviceName (cfg_Name config) (cfg_ExePath config)
                              (cfg_Args config) (workingDir_of config) "stopped" 0 false
                              created updated) /\
      wsm (snd (CreateService config w)) =
        mkWSM (dataFile (wsm w)) (<[serviceName := service]> (services (wsm w)))
              (statusCache (wsm w)) (ctx (wsm w)) /\
      In (EvCreateService serviceName (binaryPath_of config) (serviceConfig_of config)) evs /\
      ~ In (EvDelete serviceName) evs
    | Err err =>
      wsm (snd (CreateService config w)) = wsm w /\
      forall o1 o2,
        os_Stat_IsNotExist (cfg_ExePath config) (os w) = false ->
        services (wsm w) !! serviceName = None ->
        mgr_Connect (os w) = (Ok tt, o1) ->
        mgr_CreateService serviceName (binaryPath_of config) (serviceConfig_of config) o1
          = (Ok tt, o2) ->
        In (EvDelete serviceName) evs /\
        exists cause,
          err = Errorf "failed to create service wrapper" cause \/
          err = Errorf "failed to set service path" cause
    end.
Proof.
  intros serviceName. unfold CreateService. run.
  destruct (os_Stat_IsNotExist (cfg_ExePath config) (os w)) eqn:Hstat; run.
  { exists []. rewrite app_nil_r. split; [reflexivity|]. split; [reflexivity|]. intros; discriminate. }
  fold serviceName.
  destruct (services (wsm w) !! serviceName) eqn:Hfree; run.
  { exists []. rewrite app_nil_r. split; [reflexivity|]. split; [reflexivity|]. intros; discriminate. }
  destruct (mgr_Connect (os w)) as [[[]|err] o1] eqn:Hc; run.
  2:{ eexists. split; [reflexivity|]. split; [reflexivity|]. intros ? ? _ _ [=]. }
  destruct (mgr_CreateService serviceName (binaryPath_of config) (serviceConfig_of config) o1)
    as [[[]|err] o2] eqn:Hcr; run.
  2:{ eexists. rewrite <- ?app_assoc. split; [reflexivity|]. split; [reflexivity|].
      intros ? ? _ _ [= <-]. rewrite Hcr. intros [=]. }
  enter (createServiceWrapper_issues _ _ _ _). destruct r as [wrapperPath|err]; run.
  2:{ destruct (Service_Delete serviceName (os w0)) as [d o3]; run.
      rewrite Htrace, <- ?app_assoc. eexists. split; [reflexivity|].
      split; [exact Hwsm|]. intros ? ? _ _ _ _. split.
      - rewrite !in_app_iff. simpl. tauto.
      - eauto. }
  unfold setServiceImagePathDirect. enter (setServiceRegistryValue_issues _ _ _ _).
  destruct r as [[]|err]; run.
  2:{ destruct (Service_Delete serviceName (os w1)) as [d o3]; run.
      rewrite Htrace0, Htrace, <- ?app_assoc. eexists. split; [reflexivity|].
      split; [congruence|]. intros ? ? _ _ _ _. split.
      - rewrite !in_app_iff. simpl. tauto.
      - eauto. }
  unfold setServiceWorkingDirectory. enter (setServiceRegistryValue_issues _ _ _ _).
  assert (Hm : wsm w2 = wsm w) by congruence.
  destruct r as [[]|err]; run; rewrite saveServices_run; run;
    rewrite emitServicesUpdated_run; run;
    rewrite Htrace1, Htrace0, Htrace, <- ?app_assoc, Hm;
    (eexists; split; [reflexivity|]);
    (split; [eauto|]); (split; [reflexivity|]);
    (split; [rewrite !in_app_iff; simpl; tauto | notin]).
Qed.

(** C1, as the code has it. When the request passes validation and the
    service control manager has created the service, CreateService either
    fails or succeeds as follows. It fails only because the wrapper set-up
    failed (the path of the managing program could not be obtained, or the
    launch parameters could not be stored) or because the image path could
    not be set; then a deletion of the new service has been requested (its
    outcome is not looked at) and the Manager's map is as before. It
    succeeds otherwise, also when the registration of the working directory
    failed, and then no deletion is requested and the record is in the
    map. *)
Theorem CreateService_rollback (config : ServiceConfig) (w : World OS) (o1 o2 : OS) :
  let serviceName := generateServiceName (time_Now (os w)) (cfg_Name config) in
  os_Stat_IsNotExist (cfg_ExePath config) (os w) = false ->
  services (wsm w) !! serviceName = None ->
  mgr_Connect (os w) = (Ok tt, o1) ->
  mgr_CreateService serviceName (binaryPath_of config) (serviceConfig_of config) o1
    = (Ok tt, o2) ->
  exists evs,
    trace (snd (CreateService config w)) = trace w ++ evs /\
    match fst (CreateService config w) with
    | Err err =>
      In (EvDelete serviceName) evs /\
      wsm (snd (CreateService config w)) = wsm w /\
      exists cause,
        err = Errorf "failed to create service wrapper" cause \/
        err = Errorf "failed to set service path" cause
    | Ok service =>
      ~ In (EvDelete serviceName) evs /\
      services (wsm (snd (CreateService config w))) !! serviceName = Some service
    end.
Proof.
  intros serviceName Hstat Hfree Hc Hcr.
  destruct (CreateService_run config w) as (evs & Ht & Hres).
  exists evs. split; [exact Ht|].
  fold serviceName in Hres.
  destruct (fst (CreateService config w)) as [service|err].
  - destruct Hres as (_ & Hm & _ & Hno). split; [exact Hno|].
    rewrite Hm. simpl. apply lookup_insert_eq.
  - destruct Hres as (Hm & Hdel).
    destruct (Hdel o1 o2 Hstat Hfree Hc Hcr) as (Hin & Hcause).
    auto.
Qed.

(** ** Waiting for a state *)

Lemma poll_rounds_cover (timeout : Duration) :
  timeout <= (Z.of_nat (poll_rounds timeout) - 1) * pollInterval.
Proof.
  unfold poll_rounds.
  assert (Hpos : 0 < pollInterval) by (unfold pollInterval, Millisecond; lia).
  rewrite Nat2Z.inj_add. change (Z.of_nat 2) with 2.
  destruct (Z.le_gt_cases 0 timeout) as [Hnn|Hneg].
  - rewrite Z2Nat.id by (apply Z.div_pos; lia).
    pose proof (Z.mul_succ_div_gt timeout pollInterval Hpos). lia.
  - assert (0 <= Z.of_nat (Z.to_nat (timeout / pollInterval))) by lia. nia.
Qed.

(** The loop of [waitForServiceState] is a wait in the sense of [Polls],
    and it never runs out of rounds before its deadline. *)
Lemma waitLoop_polls (rounds : nat) (name : string) (target : svc_State) (deadline : Time)
      (w : World OS) :
  deadline - time_Now (os w) <= (Z.of_nat rounds - 1) * pollInterval ->
  exists evs r o',
    waitLoop rounds name target deadline w = (r, mkWorld o' (wsm w) (trace w ++ evs)) /\
    Polls name target deadline (os w) evs r o'.
Proof.
  assert (Hpos : 0 < pollInterval) by (unfold pollInterval, Millisecond; lia).
  revert w. induction rounds as [|rounds IH]; intros w Hfuel.
  - exists [], (Err "timeout waiting for service state"), (os w).
    simpl. unfold ret. rewrite app_nil_r. destruct w; simpl in *.
    split; [reflexivity|]. apply Polls_timeout. lia.
  - cbn [waitLoop]. run. unfold time_Before.
    destruct (Z.ltb_spec (time_Now (os w)) deadline) as [Hlt|Hge].
    2:{ exists [], (Err "timeout waiting for service state"), (os w).
        rewrite app_nil_r. destruct w; simpl in *.
        split; [reflexivity|]. apply Polls_timeout. lia. }
    run. destruct (Service_Query name (os w)) as [[status|err] o1] eqn:Hq; run.
    2:{ eexists; eexists; eexists. split; [reflexivity|].
        eapply Polls_query_failed; eauto. }
    destruct (decide (State status = target)) as [Hreached|Hnot]; run.
    { eexists; eexists; eexists. split; [reflexivity|].
      eapply Polls_reached; eauto. }
    destruct (decide (target = Running /\ State status = Stopped)) as [[Ht Hs]|Hgo]; run.
    { eexists; eexists; eexists. split; [reflexivity|].
      eapply Polls_stopped; eauto. }
    pose proof (Query_keeps_time name (os w)) as Hmono. rewrite Hq in Hmono. simpl in Hmono.
    pose proof (Sleep_takes_time pollInterval o1) as Hsleep.
    edestruct (IH (mkWorld (time_Sleep pollInterval o1) (wsm w)
                           ((trace w ++ [EvQuery name]) ++ [EvSleep pollInterval])))
      as (evs & r & o' & Hrun & Hpolls).
    { simpl. lia. }
    rewrite Hrun. simpl in Hpolls |- *.
    exists (EvQuery name :: EvSleep pollInterval :: evs), r, o'.
    split; [rewrite <- !app_assoc; reflexivity|].
    eapply Polls_again; eauto.
Qed.

Lemma waitForServiceState_polls (name : string) (target : svc_State) (timeout : Duration)
      (w : World OS) :
  exists evs r o',
    waitForServiceState name target timeout w = (r, mkWorld o' (wsm w) (trace w ++ evs)) /\
    Polls name target (time_Now (os w) + timeout) (os w) evs r o'.
Proof.
  unfold waitForServiceState. run. unfold time_Add.
  apply waitLoop_polls. pose proof (poll_rounds_cover timeout). lia.
Qed.

(** A wait ends with the timeout only once the deadline has passed. *)
Lemma Polls_timeout_late (name : string) (target : svc_State) (deadline : Time)
      (o : OS) (evs : list Event) (r : result unit) (o' : OS) :
  Polls name target deadline o evs r o' ->
  r = Err "timeout waiting for service state" ->
  deadline <= time_Now o'.
Proof.
  induction 1; intros Hr; auto; try discriminate.
Qed.

(** ** StartService *)

(** C5. StartService on a known service that is not reported running
    issues a start request and, once it is accepted, waits for the state
    running in the sense of [Polls]: status queries 500 ms apart, until
    running is observed or 30 s have passed since the start request
    returned. When the wait fails (the service was seen stopped, which is
    the error "service failed to start"; the deadline passed, which is the
    error "timeout waiting for service state" and arises only once the
    clock has reached the deadline; or a query failed) the error of the
    wait is returned and the record's status is set to "error". When the
    wait succeeds the record is set to "running" with the pid of one more
    query, and that status is cached. *)
Theorem StartService_polls
        (serviceID : string) (w : World OS) (service : Service)
        (o1 o2 o3 o4 : OS) (status : svc_Status) :
  services (wsm w) !! serviceID = Some service ->
  mgr_Connect (os w) = (Ok tt, o1) ->
  mgr_OpenService serviceID o1 = (Ok tt, o2) ->
  Service_Query serviceID o2 = (Ok status, o3) ->
  State status <> Running ->
  Service_Start serviceID o3 = (Ok tt, o4) ->
  exists (evs : list Event) (r : result unit) (o5 : OS) (w' : World OS),
    Polls serviceID Running (time_Now o4 + 30 * Second) o4 evs r o5 /\
    pollInterval = 500 * Millisecond /\
    match r with
    | Err err =>
      StartService serviceID w = (Err err, w') /\
      services (wsm w') !! serviceID
        = Some (set_UpdatedAt (time_Now o5) (set_Status "error" service)) /\
      (err = "timeout waiting for service state" -> time_Now o4 + 30 * Second <= time_Now o5) /\
      trace w' = trace w
                   ++ [EvConnect; EvOpenService serviceID; EvQuery serviceID; EvStart serviceID]
                   ++ evs ++ snapshot_events (wsm w') ++ [EvClose serviceID; EvDisconnect]
    | Ok _ =>
      StartService serviceID w = (Ok tt, w') /\
      exists pid stamp,
        services (wsm w') !! serviceID
          = Some (set_UpdatedAt stamp (set_PID pid (set_Status "running" service))) /\
        cache (statusCache (wsm w')) !! serviceID = Some (mkCached "running" pid stamp) /\
        trace w' = trace w
                     ++ [EvConnect; EvOpenService serviceID; EvQuery serviceID; EvStart serviceID]
                     ++ evs ++ [EvQuery serviceID] ++ snapshot_events (wsm w')
                     ++ status_events (wsm w') serviceID "running" pid
                     ++ [EvClose serviceID; EvDisconnect]
    end.
Proof.
  intros Hknown Hc Ho Hq Hs Hst.
  destruct (waitForServiceState_polls
              serviceID Running (30 * Second)
              (mkWorld o4 (wsm w)
                       ((((trace w ++ [EvConnect]) ++ [EvOpenService serviceID])
                           ++ [EvQuery serviceID]) ++ [EvStart serviceID])))
    as (evs & r & o5 & Hwait & Hpolls).
  cbn [os wsm trace] in Hwait, Hpolls.
  exists evs, r, o5.
  destruct r as [[]|err].
  - destruct (Service_Query serviceID o5) as [q2 o6] eqn:Hq2.
    eexists. split; [exact Hpolls|]. split; [reflexivity|]. split.
    + unfold StartService. run. rewrite Hknown. run. rewrite Hc. run. rewrite Ho. run.
      rewrite Hq. run. rewrite decide_False by exact Hs. run. rewrite Hst. run.
      rewrite Hwait. run. rewrite Hq2. run.
      rewrite saveServices_run. run. rewrite emitServiceStatusChanged_run. run.
      reflexivity.
    + eexists; eexists. proj. split; [|split].
      * rewrite lookup_alter_eq, Hknown. reflexivity.
      * simpl. apply lookup_insert_eq.
      * rewrite <- !app_assoc. reflexivity.
  - eexists. split; [exact Hpolls|]. split; [reflexivity|]. split; [|split; [|split]].
    + unfold StartService. run. rewrite Hknown. run. rewrite Hc. run. rewrite Ho. run.
      rewrite Hq. run. rewrite decide_False by exact Hs. run. rewrite Hst. run.
      rewrite Hwait. run. rewrite saveServices_run. run. reflexivity.
    + proj. rewrite lookup_alter_eq, Hknown. reflexivity.
    + intros ->. eapply Polls_timeout_late; [exact Hpolls | reflexivity].
    + proj. rewrite <- !app_assoc. reflexivity.
Qed.

(** ** DeleteService and GetServices *)

Lemma bestEffortStop_issues (serviceID : string) :
  issues_only is_stop_call (bestEffortStop serviceID).
Proof.
  unfold bestEffortStop.
  apply issues_only_bind; [issues_only_step|intros [status|err]]; [|issues_only_step].
  destruct (decide (State status <> Stopped)); [|issues_only_step].
  apply issues_only_bind; [issues_only_step|intros _].
  apply issues_only_bind; [|intros; issues_only_step].
  eapply issues_only_weaken; [|apply waitForServiceState_issues].
  intros []; simpl; auto.
Qed.

(** Whenever DeleteService returns an error, the Manager's fields are what
    they were. *)
Lemma DeleteService_error_keeps_Manager (serviceID : string) (w : World OS) (err : string)
      (w' : World OS) :
  DeleteService serviceID w = (Err err, w') -> wsm w' = wsm w.
Proof.
  unfold DeleteService. run.
  destruct (services (wsm w) !! serviceID); run; [|intros [= _ <-]; reflexivity].
  destruct (mgr_Connect (os w)) as [[[]|e] o1]; run; [|intros [= _ <-]; reflexivity].
  destruct (mgr_OpenService serviceID o1) as [[[]|e] o2]; run; [|intros [= _ <-]; reflexivity].
  match goal with
  | |- context [bestEffortStop ?a ?w] =>
    destruct (bestEffortStop_issues a w) as (Hm & _);
    destruct (bestEffortStop a w) as [[] w2]; cbn [fst snd os wsm trace] in Hm
  end.
  run. destruct (Service_Delete serviceID (os w2)) as [[[]|e] o3]; unfold statusCache_Remove; run.
  - rewrite saveServices_run. run. rewrite emitServicesUpdated_run. run. discriminate.
  - intros [= _ <-]. exact Hm.
Qed.

(** GetServices lists every record of the map, with its status resolved
    anew. *)
Lemma refresh_all_lists (l : list (string * Service)) (w : World OS)
      (key : string) (service : Service) :
  In (key, service) l ->
  exists service', In service' (fst (refresh_all l w)) /\ same_service service service'.
Proof.
  revert w. induction l as [|[k s] l IH]; intros w Hin; [destruct Hin|].
  cbn [refresh_all]. unfold bind at 1.
  destruct (getServiceRealTimeStatus (ID s) w) as [sp w1].
  run.
  match goal with
  | |- context [refresh_all l ?w2] =>
    specialize (IH w2); destruct (refresh_all l w2) as [tl w3]
  end.
  simpl. destruct Hin as [[= -> ->]|Hin].
  - eexists. split; [left; reflexivity|]. repeat split.
  - destruct (IH Hin) as (s' & Hs' & Hsame). exists s'. split; [right; exact Hs'|exact Hsame].
Qed.

Lemma GetServices_lists (w : World OS) (o1 : OS) (serviceID : string) (service : Service) :
  mgr_Connect (os w) = (Ok tt, o1) ->
  services (wsm w) !! serviceID = Some service ->
  exists l service',
    fst (GetServices w) = Ok l /\ In service' l /\ same_service service service'.
Proof.
  intros Hc Hknown. unfold GetServices. run. rewrite Hc. run.
  match goal with
  | |- context [refresh_all ?l ?w2] =>
    destruct (refresh_all_lists l w2 serviceID service) as (s' & Hin & Hsame);
      [| destruct (refresh_all l w2) as [res w3] ]
  end.
  { apply list_elem_of_In, elem_of_map_to_list. exact Hknown. }
  run. exists res, s'. auto.
Qed.

(** C3, as the code has it. When the service is known, the session and
    the service open, and the request for deletion fails on the machine as
    the best-effort stop left it, DeleteService returns that failure and
    leaves the Manager's fields as they were: the record is in the map,
    with the status it had. A listing made afterwards, on any machine that
    accepts the connection, still returns the record of the service; the
    status of every record it returns is resolved again through the cache
    and the service control manager. *)
Theorem DeleteService_failure_keeps_record
        (serviceID : string) (w : World OS) (service : Service)
        (o1 o2 o3 : OS) (cause : string) :
  services (wsm w) !! serviceID = Some service ->
  mgr_Connect (os w) = (Ok tt, o1) ->
  mgr_OpenService serviceID o1 = (Ok tt, o2) ->
  Service_Delete
    serviceID
    (os (snd (bestEffortStop
                serviceID
                (mkWorld o2 (wsm w) ((trace w ++ [EvConnect]) ++ [EvOpenService serviceID])))))
    = (Err cause, o3) ->
  exists w' : World OS,
    DeleteService serviceID w = (Err (Errorf "failed to delete service" cause), w') /\
    wsm w' = wsm w /\
    services (wsm w') !! serviceID = Some service /\
    forall (w2 : World OS) (o4 : OS),
      wsm w2 = wsm w' ->
      mgr_Connect (os w2) = (Ok tt, o4) ->
      exists l service',
        fst (GetServices w2) = Ok l /\ In service' l /\ same_service service service'.
Proof.
  intros Hknown Hc Ho Hd.
  destruct (DeleteService serviceID w) as [r w'] eqn:Hrun.
  assert (Hr : r = Err (Errorf "failed to delete service" cause)).
  { revert Hrun. unfold DeleteService. run. rewrite Hknown. run. rewrite Hc. run.
    rewrite Ho. run.
    destruct (bestEffortStop
                serviceID
                (mkWorld o2 (wsm w) ((trace w ++ [EvConnect]) ++ [EvOpenService serviceID])))
      as [[] w2].
    run. cbn [snd] in Hd. rewrite Hd. run. intros [= <- _]. reflexivity. }
  subst r. exists w'. split; [reflexivity|].
  pose proof (DeleteService_error_keeps_Manager _ _ _ _ Hrun) as Hm.
  split; [exact Hm|]. split; [rewrite Hm; exact Hknown|].
  intros w2 o4 Hsame Hc2. eapply GetServices_lists; [exact Hc2|].
  rewrite Hsame, Hm. exact Hknown.
Qed.

(** ** Start at boot *)

Lemma GetServiceAutoStart_alter (f : Service -> Service) (serviceID name : string)
      (m : WindowsServiceManager) (c : ServiceStatusCache) :
  (forall s, AutoStart (f s) = AutoStart s) ->
  GetServiceAutoStart name (mkWSM (dataFile m) (alter f serviceID (services m)) c (ctx m))
  = GetServiceAutoStart name m.
Proof.
  intros Hf. unfold GetServiceAutoStart. cbn [services].
  rewrite lookup_alter. destruct (decide (serviceID = name)) as [->|Hne]; [|reflexivity].
  destruct (services m !! name); simpl; [apply Hf|reflexivity].
Qed.

(** StartService does not touch the flag of any record. *)
Lemma StartService_keeps_AutoStart (serviceID name : string) (w : World OS) :
  GetServiceAutoStart name (wsm (snd (StartService serviceID w)))
  = GetServiceAutoStart name (wsm w).
Proof.
  unfold StartService. run.
  destruct (services (wsm w) !! serviceID); run; [|reflexivity].
  destruct (mgr_Connect (os w)) as [[[]|e] o1]; run; [|reflexivity].
  destruct (mgr_OpenService serviceID o1) as [[[]|e] o2]; run; [|reflexivity].
  destruct (Service_Query serviceID o2) as [[status|e] o3]; run; [|reflexivity].
  destruct (decide (State status = Running)); run; [reflexivity|].
  destruct (Service_Start serviceID o3) as [[[]|e] o4]; run; [|reflexivity].
  enter (waitForServiceState_issues _ _ _). destruct r as [[]|e]; run.
  - destruct (Service_Query serviceID (os w0)) as [q2 o5]; run.
    rewrite saveServices_run. run. rewrite emitServiceStatusChanged_run. run.
    rewrite Hwsm. apply (GetServiceAutoStart_alter _ serviceID name (wsm w)). reflexivity.
  - rewrite saveServices_run. run.
    rewrite Hwsm. apply (GetServiceAutoStart_alter _ serviceID name (wsm w)). reflexivity.
Qed.

(** StopService does not touch it either. *)
Lemma StopService_keeps_AutoStart (serviceID name : string) (w : World OS) :
  GetServiceAutoStart name (wsm (snd (StopService serviceID w)))
  = GetServiceAutoStart name (wsm w).
Proof.
  unfold StopService. run.
  destruct (services (wsm w) !! serviceID); run; [|reflexivity].
  destruct (mgr_Connect (os w)) as [[[]|e] o1]; run; [|reflexivity].
  destruct (mgr_OpenService serviceID o1) as [[[]|e] o2]; run; [|reflexivity].
  destruct (Service_Query serviceID o2) as [[status|e] o3]; run; [|reflexivity].
  destruct (decide (State status = Stopped)); run.
  { rewrite saveServices_run. run.
    apply (GetServiceAutoStart_alter _ serviceID name (wsm w)). reflexivity. }
  destruct (Service_Control serviceID Stop o3) as [[st|e] o4]; run; [|reflexivity].
  enter (waitForServiceState_issues _ _ _).
  destruct r as [[]|e]; run; [|rewrite Hwsm; reflexivity].
  rewrite saveServices_run. run. rewrite emitServiceStatusChanged_run. run.
  rewrite Hwsm. apply (GetServiceAutoStart_alter _ serviceID name (wsm w)). reflexivity.
Qed.

(** Nor does a listing. *)
Lemma refresh_all_keeps_AutoStart (l : list (string * Service)) (name : string) :
  forall w : World OS,
    (forall k s, In (k, s) l -> GetServiceAutoStart k (wsm w) = AutoStart s) ->
    GetServiceAutoStart name (wsm (snd (refresh_all l w))) = GetServiceAutoStart name (wsm w).
Proof.
  induction l as [|[k s] l IH]; intros w Hinv; [reflexivity|].
  cbn [refresh_all]. unfold bind at 1.
  assert (Hkeep : wsm (snd (getServiceRealTimeStatus (ID s) w)) =
                  mkWSM (dataFile (wsm w)) (services (wsm w))
                        (statusCache (wsm (snd (getServiceRealTimeStatus (ID s) w))))
                        (ctx (wsm w))).
  { unfold getServiceRealTimeStatus. run.
    destruct (Cache_Get (time_Now (os w)) (statusCache (wsm w)) (ID s)); run.
    { destruct w as [wo [wd wsv wc wx] wt]; reflexivity. }
    destruct (mgr_OpenService (ID s) (os w)) as [[[]|e] o1]; run; [|reflexivity].
    destruct (Service_Query (ID s) o1) as [[status|e] o2]; run; [|reflexivity].
    destruct (State status); run; reflexivity. }
  destruct (getServiceRealTimeStatus (ID s) w) as [sp w1]. cbn [snd] in Hkeep.
  run.
  match goal with
  | |- context [refresh_all l ?w2] =>
    specialize (IH w2); destruct (refresh_all l w2) as [tl w3] eqn:Hrest
  end.
  cbn [snd] in IH |- *. rewrite Hkeep in IH. cbn [dataFile services statusCache ctx] in IH.
  assert (Hins : forall k', GetServiceAutoStart
                              k'
                              (mkWSM (dataFile (wsm w))
                                     (<[k := set_UpdatedAt (time_Now (os w1))
                                                           (set_PID (snd sp)
                                                                    (set_Status (fst sp) s))]>
                                        (services (wsm w)))
                                     (statusCache (wsm w1)) (ctx (wsm w)))
                            = GetServiceAutoStart k' (wsm w)).
  { intros k'. unfold GetServiceAutoStart at 1. cbn [services].
    rewrite lookup_insert. destruct (decide (k = k')) as [<-|Hne]; [|reflexivity].
    simpl. symmetry. apply Hinv. left. reflexivity. }
  rewrite IH; [apply Hins|].
  intros k' s' Hin. rewrite Hins. apply Hinv. right. exact Hin.
Qed.

Lemma GetServices_keeps_AutoStart (name : string) (w : World OS) :
  GetServiceAutoStart name (wsm (snd (GetServices w))) = GetServiceAutoStart name (wsm w).
Proof.
  unfold GetServices. run.
  destruct (mgr_Connect (os w)) as [[[]|e] o1]; run; [|reflexivity].
  match goal with
  | |- context [refresh_all ?l ?w2] =>
    pose proof (refresh_all_keeps_AutoStart l name w2) as Hkeep;
      destruct (refresh_all l w2) as [res w3]
  end.
  run. cbn [snd wsm] in Hkeep. apply Hkeep.
  intros k s Hin. apply list_elem_of_In, elem_of_map_to_list in Hin.
  unfold GetServiceAutoStart. rewrite Hin. reflexivity.
Qed.

(** C9. A record returned by a successful CreateService has [AutoStart]
    false, and GetServiceAutoStart answers false for it on the Manager as
    CreateService leaves it, although the service was registered with the
    service control manager with start type automatic. The flag stays
    false through the deferred StartService and through any StartService,
    StopService or GetServices that follows: of the Manager's methods only
    SetServiceAutoStart writes it. *)
Theorem CreateService_AutoStart_false
        (config : ServiceConfig) (w : World OS) (service : Service) (w' : World OS) :
  CreateService config w = (Ok service, w') ->
  AutoStart service = false /\
  GetServiceAutoStart (ID service) (wsm w') = false /\
  (exists evs binaryPath serviceConfig,
      trace w' = trace w ++ evs /\
      In (EvCreateService (ID service) binaryPath serviceConfig) evs /\
      mc_StartType serviceConfig = StartAutomatic) /\
  (forall (w2 : World OS) (serviceID : string),
      GetServiceAutoStart (ID service) (wsm w2) = false ->
      GetServiceAutoStart (ID service) (wsm (snd (StartService serviceID w2))) = false /\
      GetServiceAutoStart (ID service) (wsm (snd (StopService serviceID w2))) = false /\
      GetServiceAutoStart (ID service) (wsm (snd (GetServices w2))) = false).
Proof.
  intros Hrun.
  destruct (CreateService_run config w) as (evs & Ht & Hres).
  rewrite Hrun in Ht, Hres. simpl in Ht, Hres.
  destruct Hres as ((created & updated & ->) & Hm & Hin & _). cbn [ID AutoStart].
  split; [reflexivity|]. split; [|split].
  - unfold GetServiceAutoStart. rewrite Hm. simpl. rewrite lookup_insert_eq. reflexivity.
  - exists evs, (binaryPath_of config), (serviceConfig_of config). auto.
  - intros w2 serviceID Hfalse.
    rewrite StartService_keeps_AutoStart, StopService_keeps_AutoStart,
      GetServices_keeps_AutoStart.
    auto.
Qed.

(** ** Requests that are turned down *)

(** X7. A service id that is not in the Manager's map is turned down by
    StartService, StopService, DeleteService and SetServiceAutoStart with
    the error "service does not exist: <id>" before anything is done: the
    world is left as it was, so no call is issued to the platform.
    GetServiceAutoStart answers false for such an id. *)
Theorem unknown_service_is_rejected (serviceID : string) (enabled : bool) (w : World OS) :
  services (wsm w) !! serviceID = None ->
  StartService serviceID w = (Err ("service does not exist: " +:+ serviceID), w) /\
  StopService serviceID w = (Err ("service does not exist: " +:+ serviceID), w) /\
  DeleteService serviceID w = (Err ("service does not exist: " +:+ serviceID), w) /\
  SetServiceAutoStart serviceID enabled w = (Err ("service does not exist: " +:+ serviceID), w) /\
  GetServiceAutoStart serviceID (wsm w) = false.
Proof.
  intros Hunknown.
  unfold StartService, StopService, DeleteService, SetServiceAutoStart, GetServiceAutoStart.
  run. rewrite Hunknown. run. tauto.
Qed.

(** X8. When the service control manager refuses the connection, every
    method that needs it (GetServices, and, once their own checks are
    passed, CreateService, StartService, StopService, DeleteService and
    SetServiceAutoStart) returns the error "failed to connect to service
    control manager: <cause>"; the attempt to connect is the only call
    issued (nothing is disconnected, written or started), and the Manager
    is as it was. The listing of the application is then empty. *)
Theorem connection_failure_stops_every_method
        (w : World OS) (err : string) (o1 : OS)
        (serviceID : string) (enabled : bool) (config : ServiceConfig) :
  mgr_Connect (os w) = (Err err, o1) ->
  GetServices w = connection_refused err o1 w /\
  fst (App_GetServices w) = [] /\
  (is_Some (services (wsm w) !! serviceID) ->
   StartService serviceID w = connection_refused err o1 w /\
   StopService serviceID w = connection_refused err o1 w /\
   DeleteService serviceID w = connection_refused err o1 w /\
   SetServiceAutoStart serviceID enabled w = connection_refused err o1 w) /\
  (os_Stat_IsNotExist (cfg_ExePath config) (os w) = false ->
   services (wsm w) !! generateServiceName (time_Now (os w)) (cfg_Name config) = None ->
   CreateService config w = connection_refused err o1 w).
Proof.
  intros Hc. unfold connection_refused.
  assert (Hlist : GetServices w
                  = (Err (Errorf "failed to connect to service control manager" err),
                     mkWorld o1 (wsm w) (trace w ++ [EvConnect]))).
  { unfold GetServices. run. rewrite Hc. run. reflexivity. }
  split; [exact Hlist|]. split; [|split].
  - unfold App_GetServices. run. rewrite Hlist. reflexivity.
  - intros [service Hknown].
    unfold StartService, StopService, DeleteService, SetServiceAutoStart.
    run. rewrite Hknown. run. rewrite Hc. run. tauto.
  - intros Hstat Hfree. unfold CreateService. run. rewrite Hstat. run.
    rewrite Hfree. run. rewrite Hc. run. reflexivity.
Qed.

(** X9. When the session is open and the service cannot be opened,
    StartService, StopService, DeleteService and SetServiceAutoStart return
    the error "failed to open service: <cause>", close the session and
    leave the Manager as it was: the calls issued are the connection, the
    attempt to open and the disconnection, and no handle is released since
    none was obtained. *)
Theorem open_failure_closes_the_session
        (serviceID : string) (enabled : bool) (w : World OS) (service : Service)
        (o1 o2 : OS) (err : string) :
  services (wsm w) !! serviceID = Some service ->
  mgr_Connect (os w) = (Ok tt, o1) ->
  mgr_OpenService serviceID o1 = (Err err, o2) ->
  StartService serviceID w = open_refused serviceID err o2 w /\
  StopService serviceID w = open_refused serviceID err o2 w /\
  DeleteService serviceID w = open_refused serviceID err o2 w /\
  SetServiceAutoStart serviceID enabled w = open_refused serviceID err o2 w.
Proof.
  intros Hknown Hc Ho.
  unfold StartService, StopService, DeleteService, SetServiceAutoStart, open_refused.
  run. rewrite Hknown. run. rewrite Hc. run. rewrite Ho. run.
  rewrite <- !app_assoc. tauto.
Qed.

(** X10. StartService on a service that the service control manager
    reports running returns the error "service is already running": no
    start request is issued, nothing is waited for, and the Manager (the
    record, the cache) is as it was. *)
Theorem StartService_already_running
        (serviceID : string) (w : World OS) (service : Service)
        (o1 o2 o3 : OS) (status : svc_Status) :
  services (wsm w) !! serviceID = Some service ->
  mgr_Connect (os w) = (Ok tt, o1) ->
  mgr_OpenService serviceID o1 = (Ok tt, o2) ->
  Service_Query serviceID o2 = (Ok status, o3) ->
  State status = Running ->
  StartService serviceID w =
  (Err "service is already running",
   mkWorld (mgr_Disconnect (Service_Close serviceID o3)) (wsm w)
           (trace w ++ [EvConnect; EvOpenService serviceID; EvQuery serviceID;
                        EvClose serviceID; EvDisconnect])).
Proof.
  intros Hknown Hc Ho Hq Hs.
  unfold StartService. run. rewrite Hknown. run. rewrite Hc. run. rewrite Ho. run.
  rewrite Hq. run. rewrite decide_True by exact Hs. run.
  rewrite <- !app_assoc. reflexivity.
Qed.

(** X11. When the request itself is refused (the start request of
    StartService, the stop signal of StopService), the method returns the
    error "failed to start service: <cause>", respectively "failed to send
    stop signal: <cause>", without waiting for anything, and the Manager is
    as it was: unlike a failed wait after an accepted start request, a
    refused request does not set the record's status to "error". *)
Theorem refused_request_keeps_the_record
        (serviceID : string) (w : World OS) (service : Service)
        (o1 o2 o3 o4 : OS) (status : svc_Status) (err : string) :
  services (wsm w) !! serviceID = Some service ->
  mgr_Connect (os w) = (Ok tt, o1) ->
  mgr_OpenService serviceID o1 = (Ok tt, o2) ->
  Service_Query serviceID o2 = (Ok status, o3) ->
  (State status <> Running ->
   Service_Start serviceID o3 = (Err err, o4) ->
   StartService serviceID w =
   (Err (Errorf "failed to start service" err),
    mkWorld (mgr_Disconnect (Service_Close serviceID o4)) (wsm w)
            (trace w ++ [EvConnect; EvOpenService serviceID; EvQuery serviceID;
                         EvStart serviceID; EvClose serviceID; EvDisconnect]))) /\
  (State status <> Stopped ->
   Service_Control serviceID Stop o3 = (Err err, o4) ->
   StopService serviceID w =
   (Err (Errorf "failed to send stop signal" err),
    mkWorld (mgr_Disconnect (Service_Close serviceID o4)) (wsm w)
            (trace w ++ [EvConnect; EvOpenService serviceID; EvQuery serviceID;
                         EvControl serviceID Stop; EvClose serviceID; EvDisconnect]))).
Proof.
  intros Hknown Hc Ho Hq. split.
  - intros Hs Hstart.
    unfold StartService. run. rewrite Hknown. run. rewrite Hc. run. rewrite Ho. run.
    rewrite Hq. run. rewrite decide_False by exact Hs. run. rewrite Hstart. run.
    rewrite <- !app_assoc. reflexivity.
  - intros Hs Hstop.
    unfold StopService. run. rewrite Hknown. run. rewrite Hc. run. rewrite Ho. run.
    rewrite Hq. run. rewrite decide_False by exact Hs. run. rewrite Hstop. run.
    rewrite <- !app_assoc. reflexivity.
Qed.

(** ** Sessions and handles *)

Lemma poll_calls_quiet (evs : list Event) :
  Forall is_poll_call evs -> Forall (fun ev => ~ is_session_call ev) evs.
Proof. intros H. eapply Forall_impl; [exact H|]. intros []; simpl; tauto. Qed.

Lemma stop_calls_quiet (evs : list Event) :
  Forall is_stop_call evs -> Forall (fun ev => ~ is_session_call ev) evs.
Proof. intros H. eapply Forall_impl; [exact H|]. intros []; simpl; tauto. Qed.

Lemma snapshot_events_quiet (m : WindowsServiceManager) :
  Forall (fun ev => ~ is_session_call ev) (snapshot_events m).
Proof.
  unfold snapshot_events. destruct (json_MarshalIndent (services m)); repeat constructor.
  simpl. tauto.
Qed.

Lemma status_events_quiet (m : WindowsServiceManager) (serviceID status : string) (pid : Z) :
  Forall (fun ev => ~ is_session_call ev) (status_events m serviceID status pid).
Proof. unfold status_events. destruct (ctx m); repeat constructor. simpl. tauto. Qed.

Lemma updated_events_quiet (m : WindowsServiceManager) :
  Forall (fun ev => ~ is_session_call ev) (updated_events m).
Proof. unfold updated_events. destruct (ctx m); repeat constructor. simpl. tauto. Qed.

Lemma released_end (serviceID : string) :
  released serviceID ([EvClose serviceID] ++ [EvDisconnect]).
Proof. exists []. split; [reflexivity|constructor]. Qed.

Lemma released_app (serviceID : string) (l rest : list Event) :
  Forall (fun ev => ~ is_session_call ev) l ->
  released serviceID rest ->
  released serviceID (l ++ rest).
Proof.
  intros Hl (mid & -> & Hmid). exists (l ++ mid).
  split; [rewrite app_assoc; reflexivity | apply Forall_app; auto].
Qed.

Lemma one_session_intro (serviceID : string) (rest : list Event) :
  released serviceID rest ->
  one_session serviceID ([EvConnect] ++ [EvOpenService serviceID] ++ rest).
Proof. intros H. exists rest. auto. Qed.

(** The rules by which a log put together from known pieces is seen to
    be one session. *)
Lemma session_rules (serviceID : string) :
  released serviceID ([EvClose serviceID] ++ [EvDisconnect]) /\
  (forall l rest, Forall (fun ev => ~ is_session_call ev) l ->
                  released serviceID rest -> released serviceID (l ++ rest)) /\
  (forall rest, released serviceID rest ->
                one_session serviceID ([EvConnect] ++ [EvOpenService serviceID] ++ rest)) /\
  (forall m, Forall (fun ev => ~ is_session_call ev) (snapshot_events m)) /\
  (forall m status pid,
      Forall (fun ev => ~ is_session_call ev) (status_events m serviceID status pid)) /\
  (forall m, Forall (fun ev => ~ is_session_call ev) (updated_events m)) /\
  (forall evs, Forall is_poll_call evs -> Forall (fun ev => ~ is_session_call ev) evs) /\
  (forall evs, Forall is_stop_call evs -> Forall (fun ev => ~ is_session_call ev) evs).
Proof.
  split; [apply released_end|]. split; [apply released_app|].
  split; [apply one_session_intro|]. split; [apply snapshot_events_quiet|].
  split; [intros; apply status_events_quiet|]. split; [apply updated_events_quiet|].
  split; [apply poll_calls_quiet | apply stop_calls_quiet].
Qed.

Ltac session_by Hrules :=
  let Hend := fresh "Hend" in
  let Happ := fresh "Happ" in
  let Hintro := fresh "Hintro" in
  let Hsnap := fresh "Hsnap" in
  let Hstatus := fresh "Hstatus" in
  let Hupd := fresh "Hupd" in
  let Hpoll := fresh "Hpoll" in
  let Hstop := fresh "Hstop" in
  destruct Hrules as (Hend & Happ & Hintro & Hsnap & Hstatus & Hupd & Hpoll & Hstop);
  rewrite <- ?app_assoc;
  eexists; split; [reflexivity|];
  apply Hintro;
  repeat first
         [ apply Hend
         | apply Happ;
           [ first [ apply Hsnap
                   | apply Hstatus
                   | apply Hupd
                   | apply Hpoll; assumption
                   | apply Hstop; assumption
                   | repeat constructor; simpl; tauto ]
           | ] ].

Tactic Notation "session" uconstr(R) :=
  let Hrules := fresh "Hrules" in
  epose proof R as Hrules; session_by Hrules.

Lemma StartService_one_session (serviceID : string) (w : World OS) (service : Service)
      (o1 o2 : OS) :
  services (wsm w) !! serviceID = Some service ->
  mgr_Connect (os w) = (Ok tt, o1) ->
  mgr_OpenService serviceID o1 = (Ok tt, o2) ->
  exists evs, trace (snd (StartService serviceID w)) = trace w ++ evs /\ one_session serviceID evs.
Proof.
  intros Hknown Hc Ho.
  unfold StartService. run. rewrite Hknown. run. rewrite Hc. run. rewrite Ho. run.
  destruct (Service_Query serviceID o2) as [[status|e] o3]; run; [|session (session_rules serviceID)].
  destruct (decide (State status = Running)); run; [session (session_rules serviceID)|].
  destruct (Service_Start serviceID o3) as [[[]|e] o4]; run; [|session (session_rules serviceID)].
  enter (waitForServiceState_issues _ _ _). destruct r as [[]|e]; run.
  - destruct (Service_Query serviceID (os w0)) as [q2 o5]; run.
    rewrite saveServices_run. run. rewrite emitServiceStatusChanged_run. run.
    rewrite Htrace. session (session_rules serviceID).
  - rewrite saveServices_run. run. rewrite Htrace. session (session_rules serviceID).
Qed.

Lemma StopService_one_session (serviceID : string) (w : World OS) (service : Service)
      (o1 o2 : OS) :
  services (wsm w) !! serviceID = Some service ->
  mgr_Connect (os w) = (Ok tt, o1) ->
  mgr_OpenService serviceID o1 = (Ok tt, o2) ->
  exists evs, trace (snd (StopService serviceID w)) = trace w ++ evs /\ one_session serviceID evs.
Proof.
  intros Hknown Hc Ho.
  unfold StopService. run. rewrite Hknown. run. rewrite Hc. run. rewrite Ho. run.
  destruct (Service_Query serviceID o2) as [[status|e] o3]; run; [|session (session_rules serviceID)].
  destruct (decide (State status = Stopped)); run.
  { rewrite saveServices_run. run. session (session_rules serviceID). }
  destruct (Service_Control serviceID Stop o3) as [[st|e] o4]; run; [|session (session_rules serviceID)].
  enter (waitForServiceState_issues _ _ _). destruct r as [[]|e]; run.
  - rewrite saveServices_run. run. rewrite emitServiceStatusChanged_run. run.
    rewrite Htrace. session (session_rules serviceID).
  - rewrite Htrace. session (session_rules serviceID).
Qed.

Lemma DeleteService_one_session (serviceID : string) (w : World OS) (service : Service)
      (o1 o2 : OS) :
  services (wsm w) !! serviceID = Some service ->
  mgr_Connect (os w) = (Ok tt, o1) ->
  mgr_OpenService serviceID o1 = (Ok tt, o2) ->
  exists evs, trace (snd (DeleteService serviceID w)) = trace w ++ evs /\ one_session serviceID evs.
Proof.
  intros Hknown Hc Ho.
  unfold DeleteService. run. rewrite Hknown. run. rewrite Hc. run. rewrite Ho. run.
  enter (bestEffortStop_issues _). destruct r. run.
  destruct (Service_Delete serviceID (os w0)) as [[[]|e] o3]; unfold statusCache_Remove; run.
  - rewrite saveServices_run. run. rewrite emitServicesUpdated_run. run.
    rewrite Htrace. session (session_rules serviceID).
  - rewrite Htrace. session (session_rules serviceID).
Qed.

Lemma SetServiceAutoStart_one_session (serviceID : string) (enabled : bool) (w : World OS)
      (service : Service) (o1 o2 : OS) :
  services (wsm w) !! serviceID = Some service ->
  mgr_Connect (os w) = (Ok tt, o1) ->
  mgr_OpenService serviceID o1 = (Ok tt, o2) ->
  exists evs,
    trace (snd (SetServiceAutoStart serviceID enabled w)) = trace w ++ evs /\
    one_session serviceID evs.
Proof.
  intros Hknown Hc Ho.
  unfold SetServiceAutoStart. run. rewrite Hknown. run. rewrite Hc. run. rewrite Ho. run.
  destruct (Service_Config serviceID o2) as [[config|e] o3]; run; [|session (session_rules serviceID)].
  destruct (Service_UpdateConfig serviceID _ o3) as [[[]|e] o4]; run; [|session (session_rules serviceID)].
  rewrite saveServices_run. run. session (session_rules serviceID).
Qed.

(** X12. Once the service is opened, StartService, StopService,
    DeleteService and SetServiceAutoStart release the handle of the
    service and then the session on every path, whether they succeed or
    fail: the calls of each are those of one session, that is the
    connection and the opening first, the release of the handle and the
    disconnection last, and no connection, opening, release or
    disconnection in between. *)
Theorem handles_are_released
        (serviceID : string) (enabled : bool) (w : World OS) (service : Service)
        (o1 o2 : OS) :
  services (wsm w) !! serviceID = Some service ->
  mgr_Connect (os w) = (Ok tt, o1) ->
  mgr_OpenService serviceID o1 = (Ok tt, o2) ->
  (exists evs, trace (snd (StartService serviceID w)) = trace w ++ evs /\
               one_session serviceID evs) /\
  (exists evs, trace (snd (StopService serviceID w)) = trace w ++ evs /\
               one_session serviceID evs) /\
  (exists evs, trace (snd (DeleteService serviceID w)) = trace w ++ evs /\
               one_session serviceID evs) /\
  (exists evs, trace (snd (SetServiceAutoStart serviceID enabled w)) = trace w ++ evs /\
               one_session serviceID evs).
Proof.
  intros Hknown Hc Ho.
  split; [eapply StartService_one_session; eauto|].
  split; [eapply StopService_one_session; eauto|].
  split; [eapply DeleteService_one_session; eauto|].
  eapply SetServiceAutoStart_one_session; eauto.
Qed.

(** ** Stopping, deleting and the start at boot *)

(** X13. StopService on a known service that is not reported stopped sends
    the stop signal and, once it is accepted, waits for the state stopped
    in the sense of [Polls]: status queries 500 ms apart until stopped is
    observed or 30 s have passed since the signal was accepted. When the
    wait fails its error is returned and the Manager is as it was: the
    record keeps the status it had (StopService, unlike StartService, never
    writes "error"), nothing is cached and no snapshot is written. When
    the wait succeeds the record is set to "stopped" with pid 0, that
    status is cached, the snapshot is written and the change of status is
    announced. *)
Theorem StopService_polls
        (serviceID : string) (w : World OS) (service : Service)
        (o1 o2 o3 o4 : OS) (status status' : svc_Status) :
  services (wsm w) !! serviceID = Some service ->
  mgr_Connect (os w) = (Ok tt, o1) ->
  mgr_OpenService serviceID o1 = (Ok tt, o2) ->
  Service_Query serviceID o2 = (Ok status, o3) ->
  State status <> Stopped ->
  Service_Control serviceID Stop o3 = (Ok status', o4) ->
  exists (evs : list Event) (r : result unit) (o5 : OS) (w' : World OS),
    Polls serviceID Stopped (time_Now o4 + 30 * Second) o4 evs r o5 /\
    match r with
    | Err err =>
      StopService serviceID w = (Err err, w') /\
      wsm w' = wsm w /\
      trace w' = trace w
                   ++ [EvConnect; EvOpenService serviceID; EvQuery serviceID;
                       EvControl serviceID Stop]
                   ++ evs ++ [EvClose serviceID; EvDisconnect]
    | Ok _ =>
      StopService serviceID w = (Ok tt, w') /\
      services (wsm w') !! serviceID
        = Some (set_UpdatedAt (time_Now o5) (set_PID 0 (set_Status "stopped" service))) /\
      cache (statusCache (wsm w')) !! serviceID = Some (mkCached "stopped" 0 (time_Now o5)) /\
      trace w' = trace w
                   ++ [EvConnect; EvOpenService serviceID; EvQuery serviceID;
                       EvControl serviceID Stop]
                   ++ evs ++ snapshot_events (wsm w')
                   ++ status_events (wsm w') serviceID "stopped" 0
                   ++ [EvClose serviceID; EvDisconnect]
    end.
Proof.
  intros Hknown Hc Ho Hq Hs Hctl.
  destruct (waitForServiceState_polls
              serviceID Stopped (30 * Second)
              (mkWorld o4 (wsm w)
                       ((((trace w ++ [EvConnect]) ++ [EvOpenService serviceID])
                           ++ [EvQuery serviceID]) ++ [EvControl serviceID Stop])))
    as (evs & r & o5 & Hwait & Hpolls).
  cbn [os wsm trace] in Hwait, Hpolls.
  exists evs, r, o5.
  destruct r as [[]|err].
  - eexists. split; [exact Hpolls|]. split; [|split; [|split]].
    + unfold StopService. run. rewrite Hknown. run. rewrite Hc. run. rewrite Ho. run.
      rewrite Hq. run. rewrite decide_False by exact Hs. run. rewrite Hctl. run.
      rewrite Hwait. run. rewrite saveServices_run. run.
      rewrite emitServiceStatusChanged_run. run. reflexivity.
    + proj. rewrite lookup_alter_eq, Hknown. reflexivity.
    + proj. simpl. apply lookup_insert_eq.
    + proj. rewrite <- !app_assoc. reflexivity.
  - eexists. split; [exact Hpolls|]. split; [|split].
    + unfold StopService. run. rewrite Hknown. run. rewrite Hc. run. rewrite Ho. run.
      rewrite Hq. run. rewrite decide_False by exact Hs. run. rewrite Hctl. run.
      rewrite Hwait. run. reflexivity.
    + reflexivity.
    + proj. rewrite <- !app_assoc. reflexivity.
Qed.

(** X14. When the service is known, the session and the service open, and
    the request for deletion is accepted on the machine as the best-effort
    stop left it, DeleteService succeeds: the record is removed from the
    map and the entry of the service from the cache, every other record
    and entry is kept, the snapshot of the map without the record is
    written and the new list is announced, in that order, before the
    handles are released. The id is unknown from then on: a StartService
    for it is turned down. *)
Theorem DeleteService_removes_the_record
        (serviceID : string) (w : World OS) (service : Service) (o1 o2 o3 : OS) :
  services (wsm w) !! serviceID = Some service ->
  mgr_Connect (os w) = (Ok tt, o1) ->
  mgr_OpenService serviceID o1 = (Ok tt, o2) ->
  Service_Delete
    serviceID
    (os (snd (bestEffortStop
                serviceID
                (mkWorld o2 (wsm w) ((trace w ++ [EvConnect]) ++ [EvOpenService serviceID])))))
    = (Ok tt, o3) ->
  exists (w' : World OS) (evs : list Event),
    DeleteService serviceID w = (Ok tt, w') /\
    wsm w' = mkWSM (dataFile (wsm w))
                   (delete serviceID (services (wsm w)))
                   (Cache_Remove (statusCache (wsm w)) serviceID)
                   (ctx (wsm w)) /\
    Forall is_stop_call evs /\
    trace w' = trace w
                 ++ [EvConnect; EvOpenService serviceID] ++ evs ++ [EvDelete serviceID]
                 ++ snapshot_events (wsm w') ++ updated_events (wsm w')
                 ++ [EvClose serviceID; EvDisconnect] /\
    StartService serviceID w' = (Err ("service does not exist: " +:+ serviceID), w').
Proof.
  intros Hknown Hc Ho Hd.
  destruct (bestEffortStop_issues
              serviceID
              (mkWorld o2 (wsm w) ((trace w ++ [EvConnect]) ++ [EvOpenService serviceID])))
    as (Hm & evs & Ht & Hkind).
  destruct (bestEffortStop
              serviceID
              (mkWorld o2 (wsm w) ((trace w ++ [EvConnect]) ++ [EvOpenService serviceID])))
    as [[] w2] eqn:Hstop.
  cbn [fst snd os wsm trace] in Hm, Ht, Hd.
  eexists; exists evs. split; [|split; [|split; [exact Hkind|split]]].
  - unfold DeleteService. run. rewrite Hknown. run. rewrite Hc. run. rewrite Ho. run.
    rewrite Hstop. run. rewrite Hd. unfold statusCache_Remove. run.
    rewrite saveServices_run. run. rewrite emitServicesUpdated_run. run. reflexivity.
  - proj. rewrite Hm. reflexivity.
  - proj. rewrite Ht, <- !app_assoc. reflexivity.
  - unfold StartService. run. rewrite lookup_delete_eq. run. reflexivity.
Qed.

(** X15. When the service is known, the session and the service open, the
    configuration of the service is read and its update accepted,
    SetServiceAutoStart succeeds. The configuration it sends to the
    service control manager is the one it read with the start type
    automatic when the flag is set and manual when it is cleared; the
    record's flag is the one asked for, so that GetServiceAutoStart answers
    it, while it answers for every other id what it answered before; and
    the snapshot is written before the handles are released. *)
Theorem SetServiceAutoStart_sets_the_flag
        (serviceID : string) (enabled : bool) (w : World OS) (service : Service)
        (o1 o2 o3 o4 : OS) (config : mgr_Config) :
  services (wsm w) !! serviceID = Some service ->
  mgr_Connect (os w) = (Ok tt, o1) ->
  mgr_OpenService serviceID o1 = (Ok tt, o2) ->
  Service_Config serviceID o2 = (Ok config, o3) ->
  Service_UpdateConfig
    serviceID (with_StartType (if enabled then StartAutomatic else StartManual) config) o3
    = (Ok tt, o4) ->
  exists w' : World OS,
    SetServiceAutoStart serviceID enabled w = (Ok tt, w') /\
    services (wsm w') =
      <[serviceID := set_UpdatedAt (time_Now o4) (set_AutoStart enabled service)]>
        (services (wsm w)) /\
    GetServiceAutoStart serviceID (wsm w') = enabled /\
    (forall other, other <> serviceID ->
                   GetServiceAutoStart other (wsm w') = GetServiceAutoStart other (wsm w)) /\
    trace w' = trace w
                 ++ [EvConnect; EvOpenService serviceID; EvConfig serviceID;
                     EvUpdateConfig
                       serviceID
                       (mkConfig (ServiceType config)
                                 (if enabled then StartAutomatic else StartManual)
                                 (ErrorControl config) (BinaryPathName config)
                                 (DisplayName config) (Description config))]
                 ++ snapshot_events (wsm w') ++ [EvClose serviceID; EvDisconnect].
Proof.
  intros Hknown Hc Ho Hcfg Hupd.
  eexists. split; [|split; [|split; [|split]]].
  - unfold SetServiceAutoStart. run. rewrite Hknown. run. rewrite Hc. run. rewrite Ho. run.
    rewrite Hcfg. run. rewrite Hupd. run. rewrite saveServices_run. run. reflexivity.
  - proj. apply map_eq. intros k. rewrite lookup_alter.
    destruct (decide (serviceID = k)) as [<-|Hne].
    + rewrite lookup_insert_eq, Hknown. reflexivity.
    + rewrite lookup_insert_ne by exact Hne. reflexivity.
  - unfold GetServiceAutoStart. proj. rewrite lookup_alter_eq, Hknown. reflexivity.
  - intros other Hne. unfold GetServiceAutoStart. proj.
    rewrite lookup_alter_ne by congruence. reflexivity.
  - proj. rewrite <- !app_assoc. reflexivity.
Qed.

Lemma StopService_error_keeps_Manager (serviceID : string) (w : World OS) :
  is_Err (fst (StopService serviceID w)) = true ->
  wsm (snd (StopService serviceID w)) = wsm w.
Proof.
  unfold StopService. run.
  destruct (services (wsm w) !! serviceID); run; [|reflexivity].
  destruct (mgr_Connect (os w)) as [[[]|e] o1]; run; [|reflexivity].
  destruct (mgr_OpenService serviceID o1) as [[[]|e] o2]; run; [|reflexivity].
  destruct (Service_Query serviceID o2) as [[status|e] o3]; run; [|reflexivity].
  destruct (decide (State status = Stopped)); run.
  { rewrite saveServices_run. run. discriminate. }
  destruct (Service_Control serviceID Stop o3) as [[st|e] o4]; run; [|reflexivity].
  enter (waitForServiceState_issues _ _ _).
  destruct r as [[]|e]; run; [|intros _; exact Hwsm].
  rewrite saveServices_run. run. rewrite emitServiceStatusChanged_run. run. discriminate.
Qed.

Lemma SetServiceAutoStart_error_keeps_Manager (serviceID : string) (enabled : bool)
      (w : World OS) :
  is_Err (fst (SetServiceAutoStart serviceID enabled w)) = true ->
  wsm (snd (SetServiceAutoStart serviceID enabled w)) = wsm w.
Proof.
  unfold SetServiceAutoStart. run.
  destruct (services (wsm w) !! serviceID); run; [|reflexivity].
  destruct (mgr_Connect (os w)) as [[[]|e] o1]; run; [|reflexivity].
  destruct (mgr_OpenService serviceID o1) as [[[]|e] o2]; run; [|reflexivity].
  destruct (Service_Config serviceID o2) as [[config|e] o3]; run; [|reflexivity].
  destruct (Service_UpdateConfig serviceID _ o3) as [[[]|e] o4]; run; [|reflexivity].
  rewrite saveServices_run. run. discriminate.
Qed.

Lemma GetServices_error_keeps_Manager (w : World OS) :
  is_Err (fst (GetServices w)) = true ->
  wsm (snd (GetServices w)) = wsm w.
Proof.
  unfold GetServices. run.
  destruct (mgr_Connect (os w)) as [[[]|e] o1]; run; [|reflexivity].
  match goal with
  | |- context [refresh_all ?l ?w2] => destruct (refresh_all l w2) as [res w3]
  end.
  run. discriminate.
Qed.

(** X16. A method that returns an error has not changed the Manager, with
    one exception. Whenever StopService, DeleteService,
    SetServiceAutoStart, CreateService or GetServices returns an error,
    the Manager's fields (the map of records, the cache, the data file,
    the context) are what they were before the call. StartService is the
    exception: after an accepted start request, a failed wait sets the
    record's status to "error". *)
Theorem failed_methods_keep_the_Manager
        (serviceID : string) (enabled : bool) (config : ServiceConfig) (w : World OS) :
  (is_Err (fst (StopService serviceID w)) = true ->
   wsm (snd (StopService serviceID w)) = wsm w) /\
  (is_Err (fst (DeleteService serviceID w)) = true ->
   wsm (snd (DeleteService serviceID w)) = wsm w) /\
  (is_Err (fst (SetServiceAutoStart serviceID enabled w)) = true ->
   wsm (snd (SetServiceAutoStart serviceID enabled w)) = wsm w) /\
  (is_Err (fst (CreateService config w)) = true ->
   wsm (snd (CreateService config w)) = wsm w) /\
  (is_Err (fst (GetServices w)) = true ->
   wsm (snd (GetServices w)) = wsm w).
Proof.
  split; [apply StopService_error_keeps_Manager|].
  split.
  { destruct (DeleteService serviceID w) as [[[]|err] w'] eqn:Hrun; [discriminate|].
    intros _. exact (DeleteService_error_keeps_Manager _ _ _ _ Hrun). }
  split; [apply SetServiceAutoStart_error_keeps_Manager|].
  split; [|apply GetServices_error_keeps_Manager].
  destruct (CreateService_run config w) as (evs & _ & Hres).
  destruct (fst (CreateService config w)); [discriminate|].
  intros _. exact (proj1 Hres).
Qed.

(** ** More on CreateService *)

(** X17. CreateService checks the request before it touches anything.
    When the executable of the request does not exist it returns
    "executable does not exist: <path>", and when the id generated for the
    request is already in the map it returns "service name already
    exists: <id>"; in both cases the world is left as it was: no
    connection is attempted and nothing is registered or written. *)
Theorem CreateService_checks_first (config : ServiceConfig) (w : World OS) :
  (os_Stat_IsNotExist (cfg_ExePath config) (os w) = true ->
   CreateService config w
   = (Err ("executable does not exist: " +:+ cfg_ExePath config), w)) /\
  (os_Stat_IsNotExist (cfg_ExePath config) (os w) = false ->
   is_Some (services (wsm w) !! generateServiceName (time_Now (os w)) (cfg_Name config)) ->
   CreateService config w
   = (Err ("service name already exists: "
             +:+ generateServiceName (time_Now (os w)) (cfg_Name config)), w)).
Proof.
  split.
  - intros Hstat. unfold CreateService. run. rewrite Hstat. run. reflexivity.
  - intros Hstat [taken Htaken]. unfold CreateService. run. rewrite Hstat. run.
    rewrite Htaken. run. reflexivity.
Qed.

(** X18. When the service control manager refuses to create the service,
    CreateService returns "failed to create Windows service: <cause>" and
    closes the session. Nothing was created, so nothing is rolled back: no
    deletion is requested, no registry key is touched, no handle is
    released, and the Manager is as it was. *)
Theorem CreateService_refused_by_the_SCM
        (config : ServiceConfig) (w : World OS) (o1 o2 : OS) (err : string) :
  let serviceName := generateServiceName (time_Now (os w)) (cfg_Name config) in
  os_Stat_IsNotExist (cfg_ExePath config) (os w) = false ->
  services (wsm w) !! serviceName = None ->
  mgr_Connect (os w) = (Ok tt, o1) ->
  mgr_CreateService serviceName (binaryPath_of config) (serviceConfig_of config) o1
    = (Err err, o2) ->
  CreateService config w =
  (Err (Errorf "failed to create Windows service" err),
   mkWorld (mgr_Disconnect o2) (wsm w)
           (trace w ++ [EvConnect;
                        EvCreateService serviceName (binaryPath_of config)
                                        (serviceConfig_of config);
                        EvDisconnect])).
Proof.
  intros serviceName Hstat Hfree Hc Hcr.
  unfold CreateService. run. rewrite Hstat. run. fold serviceName. rewrite Hfree. run.
  rewrite Hc. run. rewrite Hcr. run. rewrite <- !app_assoc. reflexivity.
Qed.

(** X19. A successful CreateService returns the record of the request: its
    id is the generated one, its name, executable and arguments are those
    asked for, its working directory is the one asked for or, when none
    was, the directory of the executable, and it is "stopped" with pid 0.
    The record is added to the map and nothing else of the Manager
    changes. The session is closed before the snapshot is written; then
    the new list is announced; the start of the service is handed to a
    goroutine last, and CreateService itself issues no start request. *)
Theorem CreateService_records_and_defers_the_start
        (config : ServiceConfig) (w : World OS) (service : Service) (w' : World OS) :
  CreateService config w = (Ok service, w') ->
  ID service = generateServiceName (time_Now (os w)) (cfg_Name config) /\
  Name service = cfg_Name config /\
  ExePath service = cfg_ExePath config /\
  Args service = cfg_Args config /\
  WorkingDir service = (if decide (cfg_WorkingDir config = "")
                        then filepath_Dir (cfg_ExePath config)
                        else cfg_WorkingDir config) /\
  Status service = "stopped" /\
  PID service = 0 /\
  wsm w' = mkWSM (dataFile (wsm w)) (<[ID service := service]> (services (wsm w)))
                 (statusCache (wsm w)) (ctx (wsm w)) /\
  exists evs,
    trace w' = trace w ++ evs ++ [EvClose (ID service); EvDisconnect]
                 ++ snapshot_events (wsm w') ++ updated_events (wsm w')
                 ++ [EvGo (GoAutoStart (ID service))] /\
    (forall name, ~ In (EvStart name) evs).
Proof.
  unfold CreateService. run.
  destruct (os_Stat_IsNotExist (cfg_ExePath config) (os w)); run; [intros [=]|].
  set (serviceName := generateServiceName (time_Now (os w)) (cfg_Name config)).
  destruct (services (wsm w) !! serviceName); run; [intros [=]|].
  destruct (mgr_Connect (os w)) as [[[]|err] o1]; run; [|intros [=]].
  destruct (mgr_CreateService serviceName (binaryPath_of config) (serviceConfig_of config) o1)
    as [[[]|err] o2]; run; [|intros [=]].
  enter (createServiceWrapper_issues _ _ _ _). destruct r as [wrapperPath|err]; run.
  2:{ destruct (Service_Delete serviceName (os w0)) as [d o3]; run. intros [=]. }
  unfold setServiceImagePathDirect. enter (setServiceRegistryValue_issues _ _ _ _).
  destruct r as [[]|err]; run.
  2:{ destruct (Service_Delete serviceName (os w1)) as [d o3]; run. intros [=]. }
  unfold setServiceWorkingDirectory. enter (setServiceRegistryValue_issues _ _ _ _).
  assert (Hm : wsm w2 = wsm w) by congruence.
  destruct r as [[]|err]; run; rewrite saveServices_run; run;
    rewrite emitServicesUpdated_run; run;
    intros [= <- <-]; cbn [ID Name ExePath Args WorkingDir Status PID wsm trace];
    rewrite Hm;
    (repeat (split; [reflexivity|]));
    rewrite Htrace1, Htrace0, Htrace, <- ?app_assoc.
  - exists ([EvConnect]
              ++ [EvCreateService serviceName (binaryPath_of config) (serviceConfig_of config)]
              ++ evs ++ evs0 ++ evs1).
    split; [rewrite <- ?app_assoc; reflexivity | intros name; notin].
  - exists ([EvConnect]
              ++ [EvCreateService serviceName (binaryPath_of config) (serviceConfig_of config)]
              ++ evs ++ evs0 ++ evs1
              ++ [EvPrintf ("Warning: failed to set working directory: " +:+ err +:+ newline)]).
    split; [rewrite <- ?app_assoc; reflexivity | intros name; notin].
Qed.

(** *** What is written to the registry *)

Ltac writes_step :=
  first
    [ apply issues_only_ret
    | apply issues_only_Now
    | apply issues_only_observe
    | apply issues_only_call; simpl; solve [auto]
    | apply issues_only_bind; [|intros] ].

Lemma setServiceRegistryValue_writes (serviceName subKey valueName value : string) :
  issues_only
    (writes_only
       (fun path n v =>
          path = (if decide (subKey <> "")
                  then servicesKey serviceName +:+ backslash +:+ subKey
                  else servicesKey serviceName) /\
          n = valueName /\ v = value))
    (setServiceRegistryValue serviceName subKey valueName value).
Proof.
  unfold setServiceRegistryValue, look, act.
  destruct (decide (subKey <> "")).
  - repeat writes_step. destruct a as [[]|err]; repeat writes_step.
    destruct a as [[]|err2]; repeat writes_step.
    destruct a; repeat writes_step.
  - repeat writes_step. destruct a as [[]|err]; repeat writes_step.
    destruct a; repeat writes_step.
Qed.

Lemma writes_only_weaken (allowed allowed' : string -> string -> string -> Prop) (ev : Event) :
  (forall path n v, allowed path n v -> allowed' path n v) ->
  writes_only allowed ev -> writes_only allowed' ev.
Proof. intros H. destruct ev; simpl; auto. Qed.

Lemma storeServiceConfigInRegistry_writes (serviceName exePath args workingDir : string) :
  issues_only (writes_only (wrapper_values serviceName exePath args workingDir))
              (storeServiceConfigInRegistry serviceName exePath args workingDir).
Proof.
  assert (Hparam : forall valueName value,
             (valueName = "ExePath" /\ value = exePath) \/
             (valueName = "Args" /\ value = args /\ args <> "") \/
             (valueName = "WorkingDir" /\ value = workingDir /\ workingDir <> "") ->
             issues_only (writes_only (wrapper_values serviceName exePath args workingDir))
                         (setServiceRegistryValue serviceName "Parameters" valueName value)).
  { intros valueName value Hvalue.
    eapply issues_only_weaken; [|apply setServiceRegistryValue_writes].
    intros ev. apply writes_only_weaken. intros path n v (-> & -> & ->).
    split; [reflexivity|exact Hvalue]. }
  unfold storeServiceConfigInRegistry.
  apply issues_only_bind; [apply Hparam; auto|intros [[]|err]].
  2: issues_only_step.
  apply issues_only_bind.
  { destruct (decide (args <> "")); [apply Hparam; auto | issues_only_step]. }
  intros [[]|err]; [|issues_only_step].
  apply issues_only_bind.
  { destruct (decide (workingDir <> "")); [apply Hparam; auto | issues_only_step]. }
  intros [[]|err]; issues_only_step.
Qed.

Lemma createServiceWrapper_writes (serviceName exePath args workingDir : string) :
  issues_only (writes_only (wrapper_values serviceName exePath args workingDir))
              (createServiceWrapper serviceName exePath args workingDir).
Proof.
  unfold createServiceWrapper.
  apply issues_only_bind; [issues_only_step|intros [currentExe|err]]; [|issues_only_step].
  apply issues_only_bind; [apply storeServiceConfigInRegistry_writes|].
  intros [[]|err]; issues_only_step.
Qed.

(** X20. The set-up of the wrapper leaves the Manager alone and issues
    registry calls only. The values it writes are values of the key that
    the host reads its configuration from: "ExePath", "Args" when the
    arguments are not empty, and "WorkingDir" when the working directory
    is not empty; an empty text is never stored for the last two, and no
    other value (no "DisplayName", no "StdoutLog") is written. *)
Theorem wrapper_setup_writes_the_host_configuration
        (serviceName exePath args workingDir : string) (w : World OS) :
  wsm (snd (createServiceWrapper serviceName exePath args workingDir w)) = wsm w /\
  exists evs,
    trace (snd (createServiceWrapper serviceName exePath args workingDir w)) = trace w ++ evs /\
    Forall is_registry_call evs /\
    (forall path valueName value,
        In (EvRegSetString path valueName value) evs ->
        path = parametersKey serviceName /\
        ((valueName = "ExePath" /\ value = exePath) \/
         (valueName = "Args" /\ value = args /\ args <> "") \/
         (valueName = "WorkingDir" /\ value = workingDir /\ workingDir <> ""))).
Proof.
  destruct (createServiceWrapper_writes serviceName exePath args workingDir w)
    as (Hm & evs & Ht & Hkind).
  split; [exact Hm|]. exists evs. split; [exact Ht|]. split.
  - eapply Forall_impl; [exact Hkind|]. intros []; simpl; auto.
  - intros path valueName value Hin.
    apply (proj1 (List.Forall_forall _ evs) Hkind) in Hin. exact Hin.
Qed.

Lemma writes_within_of_only (allowed allowed' : string -> string -> string -> Prop)
      (evs : list Event) :
  (forall path n v, allowed path n v -> allowed' path n v) ->
  Forall (writes_only allowed) evs -> Forall (writes_within allowed') evs.
Proof.
  intros H Hall. eapply Forall_impl; [exact Hall|]. intros []; simpl; auto.
Qed.

Lemma snapshot_events_write_no_value (allowed : string -> string -> string -> Prop)
      (m : WindowsServiceManager) :
  Forall (writes_within allowed) (snapshot_events m).
Proof.
  unfold snapshot_events. destruct (json_MarshalIndent (services m)); repeat constructor.
Qed.

Lemma updated_events_write_no_value (allowed : string -> string -> string -> Prop)
      (m : WindowsServiceManager) :
  Forall (writes_within allowed) (updated_events m).
Proof. unfold updated_events. destruct (ctx m); repeat constructor. Qed.

(** X21. On every path, whatever its outcome, the registry values that
    CreateService writes for the service are among these: under the key
    of the service's parameters, "ExePath", "Args" and "WorkingDir" of the
    request (the last two only when not empty) and "AppDirectory"; under
    the key of the service, "ImagePath". In particular it writes neither
    "DisplayName" nor "StdoutLog", the two other values the host looks
    up. *)
Theorem CreateService_registry_footprint (config : ServiceConfig) (w : World OS) :
  let serviceName := generateServiceName (time_Now (os w)) (cfg_Name config) in
  exists evs,
    trace (snd (CreateService config w)) = trace w ++ evs /\
    (forall path valueName value,
        In (EvRegSetString path valueName value) evs ->
        created_values serviceName (cfg_ExePath config) (cfg_Args config)
                       (workingDir_of config) path valueName value) /\
    (forall path value,
        ~ In (EvRegSetString path "DisplayName" value) evs /\
        ~ In (EvRegSetString path "StdoutLog" value) evs).
Proof.
  intros serviceName.
  set (allowed := created_values serviceName (cfg_ExePath config) (cfg_Args config)
                                 (workingDir_of config)).
  assert (Hall : exists evs,
             trace (snd (CreateService config w)) = trace w ++ evs /\
             Forall (writes_within allowed) evs).
  { assert (Hwrap : forall evs,
               Forall (writes_only (wrapper_values serviceName (cfg_ExePath config)
                                                   (cfg_Args config) (workingDir_of config)))
                      evs ->
               Forall (writes_within allowed) evs).
    { intros evs. apply writes_within_of_only. intros path n v H. left. exact H. }
    assert (Himage : forall value evs,
               Forall (writes_only (fun path n v =>
                                      path = (if decide ("" <> "")
                                              then servicesKey serviceName +:+ backslash +:+ ""
                                              else servicesKey serviceName) /\
                                      n = "ImagePath" /\ v = value))
                      evs ->
               Forall (writes_within allowed) evs).
    { intros value evs. apply writes_within_of_only. intros path n v (-> & -> & ->).
      right. right. split; reflexivity. }
    assert (Hdir : forall evs,
               Forall (writes_only (fun path n v =>
                                      path = (if decide ("Parameters" <> "")
                                              then servicesKey serviceName +:+ backslash
                                                                           +:+ "Parameters"
                                              else servicesKey serviceName) /\
                                      n = "AppDirectory" /\ v = workingDir_of config))
                      evs ->
               Forall (writes_within allowed) evs).
    { intros evs. apply writes_within_of_only. intros path n v (-> & -> & ->).
      right. left. repeat split. }
    unfold CreateService. run.
    destruct (os_Stat_IsNotExist (cfg_ExePath config) (os w)); run.
    { exists []. rewrite app_nil_r. split; [reflexivity|constructor]. }
    fold serviceName.
    destruct (services (wsm w) !! serviceName); run.
    { exists []. rewrite app_nil_r. split; [reflexivity|constructor]. }
    destruct (mgr_Connect (os w)) as [[[]|err] o1]; run.
    2:{ eexists. split; [reflexivity|repeat constructor]. }
    destruct (mgr_CreateService serviceName (binaryPath_of config) (serviceConfig_of config) o1)
      as [[[]|err] o2]; run.
    2:{ eexists. rewrite <- ?app_assoc. split; [reflexivity|repeat constructor]. }
    enter (createServiceWrapper_writes _ _ _ _). apply Hwrap in Hkind.
    destruct r as [wrapperPath|err]; run.
    2:{ destruct (Service_Delete serviceName (os w0)) as [d o3]; run.
        rewrite Htrace, <- ?app_assoc. eexists. split; [reflexivity|].
        repeat (apply Forall_app; split); try exact Hkind; repeat constructor. }
    unfold setServiceImagePathDirect. enter (setServiceRegistryValue_writes _ _ _ _).
    apply Himage in Hkind0.
    destruct r as [[]|err]; run.
    2:{ destruct (Service_Delete serviceName (os w1)) as [d o3]; run.
        rewrite Htrace0, Htrace, <- ?app_assoc. eexists. split; [reflexivity|].
        repeat (apply Forall_app; split); try exact Hkind; try exact Hkind0;
          repeat constructor. }
    unfold setServiceWorkingDirectory. enter (setServiceRegistryValue_writes _ _ _ _).
    apply Hdir in Hkind1.
    destruct r as [[]|err]; run; rewrite saveServices_run; run;
      rewrite emitServicesUpdated_run; run;
      rewrite Htrace1, Htrace0, Htrace, <- ?app_assoc;
      (eexists; split; [reflexivity|]);
      repeat (apply Forall_app; split);
      try exact Hkind; try exact Hkind0; try exact Hkind1;
      try apply snapshot_events_write_no_value; try apply updated_events_write_no_value;
      repeat constructor. }
  destruct Hall as (evs & Ht & Hall). exists evs. split; [exact Ht|].
  assert (Hin : forall path valueName value,
             In (EvRegSetString path valueName value) evs -> allowed path valueName value).
  { intros path valueName value Hin.
    apply (proj1 (List.Forall_forall _ evs) Hall) in Hin. exact Hin. }
  split; [exact Hin|].
  intros path value. split; intros Hbad; apply Hin in Hbad;
    destruct Hbad as [(_ & [(H & _)|[(H & _)|(H & _)]])|[(_ & H & _)|(_ & H)]];
    discriminate H.
Qed.

(** ** More on status resolution and the listing *)

(** X22. While the cache holds a fresh entry for a service, status
    resolution answers the status and pid of that entry and leaves the
    world as it is: the service is neither opened nor queried, and the
    entry is not stamped again. *)
Theorem status_is_served_from_the_cache
        (name : string) (w : World OS) (e : CachedServiceStatus) :
  Cache_Get (time_Now (os w)) (statusCache (wsm w)) name = Some e ->
  getServiceRealTimeStatus name w = ((cs_Status e, cs_PID e), w).
Proof.
  intros Hhit. unfold getServiceRealTimeStatus. run. rewrite Hhit. run. reflexivity.
Qed.

(** X23. Whatever the path taken (a fresh entry in the cache, a service
    that cannot be opened or queried, or an answer of the service control
    manager), after status resolution the cache holds an entry for the
    service with exactly the status and pid that were answered, and the
    rest of the Manager (the records, the data file, the context) is as it
    was. *)
Theorem resolved_status_is_in_the_cache (name : string) (w : World OS) :
  exists e : CachedServiceStatus,
    cache (statusCache (wsm (snd (getServiceRealTimeStatus name w)))) !! name = Some e /\
    fst (getServiceRealTimeStatus name w) = (cs_Status e, cs_PID e) /\
    services (wsm (snd (getServiceRealTimeStatus name w))) = services (wsm w) /\
    dataFile (wsm (snd (getServiceRealTimeStatus name w))) = dataFile (wsm w) /\
    ctx (wsm (snd (getServiceRealTimeStatus name w))) = ctx (wsm w).
Proof.
  unfold getServiceRealTimeStatus. run.
  destruct (Cache_Get (time_Now (os w)) (statusCache (wsm w)) name) as [e|] eqn:Hget; run.
  { exists e. repeat split. unfold Cache_Get in Hget.
    destruct (cache (statusCache (wsm w)) !! name) as [e'|]; [|discriminate].
    destruct (ttl (statusCache (wsm w)) <? time_Since (time_Now (os w)) (cs_Timestamp e'));
      congruence. }
  destruct (mgr_OpenService name (os w)) as [[[]|err] o1]; run.
  2:{ eexists. split; [simpl; apply lookup_insert_eq|]. repeat split. }
  destruct (Service_Query name o1) as [[status|err] o2]; run.
  2:{ eexists. split; [simpl; apply lookup_insert_eq|]. repeat split. }
  destruct (State status); run;
    (eexists; split; [simpl; apply lookup_insert_eq|]); repeat split.
Qed.

(** X24. When the cache has no fresh entry and the service control manager
    answers the query, the calls issued are the opening of the service,
    one query and the release of the handle, and the answer follows the
    state reported: "running" and "stopping" come with the pid of the
    process, "stopped" and "starting" with pid 0, and the states of a
    pause (paused, pausing, resuming) are answered ("error", 0), the
    answer also given for a service that cannot be opened. *)
Theorem status_follows_the_reported_state
        (name : string) (w : World OS) (o1 o2 : OS) (status : svc_Status) :
  Cache_Get (time_Now (os w)) (statusCache (wsm w)) name = None ->
  mgr_OpenService name (os w) = (Ok tt, o1) ->
  Service_Query name o1 = (Ok status, o2) ->
  exists (answer : string) (pid : Z),
    getServiceRealTimeStatus name w
    = ((answer, pid),
       mkWorld (Service_Close name o2)
               (mkWSM (dataFile (wsm w)) (services (wsm w))
                      (Cache_Set (time_Now o2) (statusCache (wsm w)) name answer pid)
                      (ctx (wsm w)))
               (trace w ++ [EvOpenService name; EvQuery name; EvClose name])) /\
    (State status = Running -> answer = "running" /\ pid = ProcessId status) /\
    (State status = StopPending -> answer = "stopping" /\ pid = ProcessId status) /\
    (State status = Stopped -> answer = "stopped" /\ pid = 0) /\
    (State status = StartPending -> answer = "starting" /\ pid = 0) /\
    (is_pause_state (State status) -> answer = "error" /\ pid = 0).
Proof.
  intros Hmiss Ho Hq.
  assert (Hrun : forall answer pid,
             match State status with
             | Running => ("running", ProcessId status)
             | Stopped => ("stopped", 0)
             | StartPending => ("starting", 0)
             | StopPending => ("stopping", ProcessId status)
             | _ => ("error", 0)
             end = (answer, pid) ->
             getServiceRealTimeStatus name w
             = ((answer, pid),
                mkWorld (Service_Close name o2)
                        (mkWSM (dataFile (wsm w)) (services (wsm w))
                               (Cache_Set (time_Now o2) (statusCache (wsm w)) name answer pid)
                               (ctx (wsm w)))
                        (trace w ++ [EvOpenService name; EvQuery name; EvClose name]))).
  { intros answer pid Hanswer.
    unfold getServiceRealTimeStatus. run. rewrite Hmiss, Ho. run. rewrite Hq. run.
    rewrite Hanswer. run. rewrite <- !app_assoc. reflexivity. }
  unfold is_pause_state.
  destruct (State status) eqn:Hstate; eexists; eexists;
    (split; [apply Hrun; reflexivity|]);
    (split; [|split; [|split; [|split]]]); intros Hcase;
      first [ discriminate Hcase
            | split; reflexivity
            | destruct Hcase as [Hcase|[Hcase|Hcase]]; discriminate Hcase ].
Qed.

Lemma getServiceRealTimeStatus_keeps_records (name : string) (w : World OS) :
  services (wsm (snd (getServiceRealTimeStatus name w))) = services (wsm w).
Proof.
  unfold getServiceRealTimeStatus. run.
  destruct (Cache_Get (time_Now (os w)) (statusCache (wsm w)) name); run; [reflexivity|].
  destruct (mgr_OpenService name (os w)) as [[[]|e] o1]; run; [|reflexivity].
  destruct (Service_Query name o1) as [[status|e] o2]; run; [|reflexivity].
  destruct (State status); run; reflexivity.
Qed.

(** What a listing does to the records it goes through, and to the
    others. *)
Lemma refresh_all_records (l : list (string * Service)) :
  forall (w : World OS) (res : list Service) (w' : World OS),
    NoDup (fst <$> l) ->
    refresh_all l w = (res, w') ->
    List.length res = List.length l /\
    (forall s', In s' res ->
                exists key s, In (key, s) l /\
                              services (wsm w') !! key = Some s' /\
                              same_service s s') /\
    (forall key s, In (key, s) l -> is_Some (services (wsm w') !! key)) /\
    (forall key, key ∉ (fst <$> l) -> services (wsm w') !! key = services (wsm w) !! key).
Proof.
  induction l as [|[k s] l IH]; intros w res w' Hnodup Hrun.
  { cbn in Hrun. injection Hrun as <- <-. simpl. repeat split; tauto. }
  apply NoDup_cons in Hnodup as [Hfresh Hnodup].
  revert Hrun. cbn [refresh_all]. unfold bind at 1.
  pose proof (getServiceRealTimeStatus_keeps_records (ID s) w) as Hkeep.
  destruct (getServiceRealTimeStatus (ID s) w) as [sp w1]. cbn [snd] in Hkeep.
  run.
  match goal with
  | |- context [refresh_all l ?w2] =>
    destruct (refresh_all l w2) as [tl w3] eqn:Hrest;
      apply IH in Hrest; [|exact Hnodup]
  end.
  cbn [wsm services] in Hrest.
  destruct Hrest as (Hlen & Hin & Hsome & Hframe).
  rewrite Hkeep in Hframe.
  intros [= <- <-].
  split; [simpl; rewrite Hlen; reflexivity|]. split; [|split].
  - intros s' Hs'. destruct Hs' as [<-|Hs'].
    + exists k, s. split; [left; reflexivity|]. split; [|repeat split].
      rewrite (Hframe k Hfresh). apply lookup_insert_eq.
    + destruct (Hin s' Hs') as (key & s0 & Hl & Hlook & Hsame).
      exists key, s0. split; [right; exact Hl|]. split; assumption.
  - intros key s0 Hl. destruct Hl as [[= <- <-]|Hl].
    + rewrite (Hframe k Hfresh), lookup_insert_eq. eauto.
    + eapply Hsome; eauto.
  - intros key Hkey. rewrite fmap_cons, not_elem_of_cons in Hkey. destruct Hkey as [Hne Hkey].
    rewrite (Hframe key Hkey). apply lookup_insert_ne. simpl in Hne. congruence.
Qed.

(** X25. When the connection is accepted GetServices succeeds and lists
    the map: as many records as the map holds; each record listed is, with
    its status resolved anew, the record of a service of the map, and it is
    the very record the map holds under that key afterwards (the records
    are refreshed in place); no key is added to the map and none is
    removed. The snapshot is not written by GetServices itself: it is
    handed to a goroutine after the session is closed. *)
Theorem GetServices_lists_the_map (w : World OS) (o1 : OS) :
  mgr_Connect (os w) = (Ok tt, o1) ->
  exists (l : list Service) (w' : World OS),
    GetServices w = (Ok l, w') /\
    List.length l = size (services (wsm w)) /\
    (forall s', In s' l ->
                exists key s, services (wsm w) !! key = Some s /\
                              services (wsm w') !! key = Some s' /\
                              same_service s s') /\
    (forall key, is_Some (services (wsm w') !! key) <-> is_Some (services (wsm w) !! key)) /\
    exists evs, trace w' = evs ++ [EvDisconnect; EvGo GoSaveServices].
Proof.
  intros Hc. unfold GetServices. run. rewrite Hc. run.
  match goal with
  | |- context [refresh_all ?l ?w2] =>
    destruct (refresh_all l w2) as [res w3] eqn:Hrest;
      destruct (refresh_all_records _ _ _ _ (NoDup_fst_map_to_list _) Hrest)
      as (Hlen & Hin & Hsome & Hframe)
  end.
  cbn [wsm services] in Hframe. run.
  eexists; eexists. split; [reflexivity|]. proj. split; [|split; [|split]].
  - rewrite Hlen, length_map_to_list. reflexivity.
  - intros s' Hs'. destruct (Hin s' Hs') as (key & s & Hl & Hlook & Hsame).
    exists key, s. split; [|split; assumption].
    apply elem_of_map_to_list, list_elem_of_In. exact Hl.
  - intros key. destruct (services (wsm w) !! key) as [s|] eqn:Hkey.
    + split; [eauto|]. intros _. apply (Hsome key s).
      apply list_elem_of_In, elem_of_map_to_list. exact Hkey.
    + rewrite Hframe, Hkey; [tauto|].
      intros Hin'. apply list_elem_of_fmap in Hin' as ([k s] & -> & Hin').
      apply elem_of_map_to_list in Hin'. simpl in Hkey. congruence.
  - eexists. rewrite <- app_assoc. reflexivity.
Qed.

(** ** Loading without a snapshot *)

(** X26. loadServices gives up quietly when there is nothing to load. When
    the data file does not exist, the world is left as it was: the file is
    not even read. When the file exists and cannot be read, or holds bytes
    that are no JSON document, the read is the only call issued and the
    Manager (the map in particular) is as it was. *)
Theorem loadServices_without_snapshot (w : World OS) :
  (os_Stat_IsNotExist (dataFile (wsm w)) (os w) = true -> loadServices w = (tt, w)) /\
  (os_Stat_IsNotExist (dataFile (wsm w)) (os w) = false ->
   is_Err (os_ReadFile (dataFile (wsm w)) (os w)) = true \/
   os_ReadFile (dataFile (wsm w)) (os w) = Ok OtherBytes ->
   loadServices w
   = (tt, mkWorld (os w) (wsm w) (trace w ++ [EvReadFile (dataFile (wsm w))]))).
Proof.
  split.
  - intros Hmissing. unfold loadServices. run. rewrite Hmissing. run. reflexivity.
  - intros Hthere Hread. unfold loadServices. run. rewrite Hthere. unfold look. run.
    destruct Hread as [Herr|Hother].
    + destruct (os_ReadFile (dataFile (wsm w)) (os w)); [discriminate|]. run. reflexivity.
    + rewrite Hother. run. destruct w as [wo [wd wsv wc wx] wt]. reflexivity.
Qed.

(** ** The length of a wait *)

Lemma Polls_bounded (name : string) (target : svc_State) (deadline : Time)
      (o : OS) (evs : list Event) (r : result unit) (o' : OS) :
  Polls name target deadline o evs r o' ->
  Forall (fun ev => ev = EvQuery name \/ ev = EvSleep pollInterval) evs /\
  count is_query evs <= count is_sleep evs + 1 /\
  (count is_sleep evs = 0 \/
   count is_sleep evs * pollInterval < deadline - time_Now o + pollInterval).
Proof.
  assert (Hpos : 0 < pollInterval) by (unfold pollInterval, Millisecond; lia).
  unfold count.
  induction 1 as [o Hlate | o status o1 Hearly Hq Hs | o status o1 Hearly Hq Ht Hs
                  | o err o1 Hearly Hq | o status o1 evs r o2 Hearly Hq Hn Hgo Hrest IH];
    try (split; [repeat constructor; auto | simpl; lia]).
  destruct IH as (Hall & Hqueries & Hsleeps).
  split; [constructor; [left; reflexivity|constructor; [right; reflexivity|exact Hall]]|].
  pose proof (Query_keeps_time name o) as Hmono. rewrite Hq in Hmono. simpl in Hmono.
  pose proof (Sleep_takes_time pollInterval o1) as Hsleep.
  cbn [List.filter is_query is_sleep List.length].
  rewrite !Nat2Z.inj_succ.
  split; [lia|]. right. destruct Hsleeps as [Hnone|Hsome]; [rewrite Hnone|]; lia.
Qed.

(** X27. A wait for a state is bounded by its timeout. The calls it issues
    are status queries of the service and pauses of 500 ms; it pauses
    fewer than timeout / 500 ms + 1 times and queries at most once more
    than it pauses: a wait of 30 s makes at most 60 pauses and 61 queries.
    With a timeout that is not positive it returns "timeout waiting for
    service state" at once, without a query. *)
Theorem waitForServiceState_is_bounded
        (name : string) (target : svc_State) (timeout : Duration) (w : World OS) :
  exists evs : list Event,
    trace (snd (waitForServiceState name target timeout w)) = trace w ++ evs /\
    Forall (fun ev => ev = EvQuery name \/ ev = EvSleep (500 * Millisecond)) evs /\
    count is_sleep evs * (500 * Millisecond) < Z.max 0 timeout + 500 * Millisecond /\
    count is_query evs <= count is_sleep evs + 1 /\
    (timeout = 30 * Second -> count is_sleep evs <= 60 /\ count is_query evs <= 61) /\
    (timeout <= 0 ->
     evs = [] /\
     fst (waitForServiceState name target timeout w) = Err "timeout waiting for service state").
Proof.
  destruct (waitForServiceState_polls name target timeout w) as (evs & r & o' & Hrun & Hpolls).
  destruct (Polls_bounded _ _ _ _ _ _ _ Hpolls) as (Hall & Hqueries & Hsleeps).
  change pollInterval with (500 * Millisecond) in Hall, Hsleeps.
  assert (Hbound : count is_sleep evs * (500 * Millisecond)
                   < Z.max 0 timeout + 500 * Millisecond).
  { destruct Hsleeps as [Hnone|Hsome]; [rewrite Hnone; unfold Millisecond; lia|lia]. }
  exists evs. rewrite Hrun. cbn [fst snd trace].
  split; [reflexivity|]. split; [exact Hall|]. split; [exact Hbound|].
  split; [exact Hqueries|]. split.
  - intros ->. unfold Second, Millisecond in *. lia.
  - intros Hnone. inversion Hpolls; subst; try lia. auto.
Qed.

End Running.

(** ** The snapshot *)

Section Snapshot.

Context {OS : Type} {P : Platform OS}.

Lemma coerce_from_valid (s : string) :
  forall skip, valid_from skip s = true -> coerce_from skip s = s.
Proof.
  induction s as [|c rest IH]; intros skip Hv; [reflexivity|].
  destruct skip as [|k]; cbn [valid_from coerce_from] in *.
  - destruct (DecodeRuneInString (String c rest)) as [r wd].
    destruct ((r =? RuneError) && (wd =? 1)%nat); [discriminate|].
    rewrite (IH _ Hv). reflexivity.
  - rewrite (IH _ Hv). reflexivity.
Qed.

Lemma toValidUTF8_valid (s : string) : utf8_ValidString s = true -> toValidUTF8 s = s.
Proof. apply coerce_from_valid. Qed.

(** A record that was encoded decodes, and keeps its parameters. *)
Lemma Service_round_trip (key : string) (s : Service) (j : JSON) :
  persistable key s ->
  Service_encode s = Ok j ->
  exists s', decode_element j = Some (Some s') /\ same_parameters s s'.
Proof.
  intros (_ & Hid & Hname & Hexe & Hargs & Hdir & Hcreated & Hupdated).
  unfold Service_encode.
  destruct (time_MarshalJSON (CreatedAt s)) as [created|] eqn:Hc; [|discriminate].
  destruct (time_MarshalJSON (UpdatedAt s)) as [updated|] eqn:Hu; [|discriminate].
  intros [= <-].
  destruct (Hcreated _ Hc) as (tc & Htc).
  destruct (Hupdated _ Hu) as (tu & Htu).
  unfold decode_element.
  cbn [decode_members].
  repeat match goal with
         | |- context [field_of_key ?k] =>
           let f := eval vm_compute in (field_of_key k) in
           change (field_of_key k) with f; cbv beta iota
         end.
  cbn [store store_string store_time].
  rewrite Htc, Htu.
  eexists. split; [reflexivity|].
  unfold same_parameters. cbn.
  rewrite !(toValidUTF8_valid (ID s) Hid), !(toValidUTF8_valid (Name s) Hname),
    !(toValidUTF8_valid (ExePath s) Hexe), !(toValidUTF8_valid (Args s) Hargs),
    !(toValidUTF8_valid (WorkingDir s) Hdir).
  destruct ((- 2 ^ 63 <=? PID s) && (PID s <? 2 ^ 63)); repeat split.
Qed.

(** The keys of encoded members are the keys of the entries. *)
Lemma decode_map_other (l : list (string * Service)) :
  forall (members : list (string * JSON)) (m : gmap string Service) (key : string),
    (forall k s, In (k, s) l -> utf8_ValidString k = true) ->
    encode_members l = Ok members ->
    ~ In key (map fst l) ->
    decode_map members m !! key = m !! key.
Proof.
  induction l as [|[k s] l IH]; intros members m key Hvalid Henc Hout.
  - injection Henc as <-. reflexivity.
  - cbn [encode_members] in Henc.
    destruct (Service_encode s) as [j|] eqn:Hj; [|discriminate].
    destruct (encode_members l) as [js|] eqn:Hjs; [|discriminate].
    injection Henc as <-.
    assert (Hk : toValidUTF8 k = k) by (apply toValidUTF8_valid, (Hvalid k s); left; reflexivity).
    assert (Hne : k <> key) by (intros ->; apply Hout; left; reflexivity).
    assert (Hout' : ~ In key (map fst l)) by (intros Hin; apply Hout; right; exact Hin).
    assert (Hvalid' : forall k s, In (k, s) l -> utf8_ValidString k = true)
      by (intros k' s' Hin; apply (Hvalid k' s'); right; exact Hin).
    cbn [decode_map]. rewrite !Hk.
    destruct (decode_element j) as [[s'|]|]; [| |reflexivity].
    + rewrite (IH js _ key Hvalid' eq_refl Hout'). apply lookup_insert_ne. exact Hne.
    + rewrite (IH js _ key Hvalid' eq_refl Hout'). apply lookup_delete_ne. exact Hne.
Qed.

Lemma decode_map_entry (l : list (string * Service)) :
  forall (members : list (string * JSON)) (m : gmap string Service) (key : string) (s : Service),
    List.NoDup (map fst l) ->
    (forall k s, In (k, s) l -> persistable k s) ->
    encode_members l = Ok members ->
    In (key, s) l ->
    exists s', decode_map members m !! key = Some s' /\ same_parameters s s'.
Proof.
  induction l as [|[k0 s0] l IH]; intros members m key s Hnd Hok Henc Hin; [destruct Hin|].
  cbn [encode_members] in Henc.
  destruct (Service_encode s0) as [j|] eqn:Hj; [|discriminate].
  destruct (encode_members l) as [js|] eqn:Hjs; [|discriminate].
  injection Henc as <-.
  assert (Hok0 : persistable k0 s0) by (apply Hok; left; reflexivity).
  assert (Hk : toValidUTF8 k0 = k0) by (apply toValidUTF8_valid, Hok0).
  assert (Hok' : forall k s, In (k, s) l -> persistable k s)
    by (intros k' s' Hin'; apply Hok; right; exact Hin').
  inversion Hnd as [|? ? Hfresh Hnd']; subst.
  destruct (Service_round_trip k0 s0 j Hok0 Hj) as (s0' & Hdec & Hsame).
  cbn [decode_map]. rewrite !Hk, Hdec.
  destruct Hin as [[= -> ->]|Hin].
  - exists s0'. split; [|exact Hsame].
    rewrite (decode_map_other l js _ key); [apply lookup_insert_eq | | exact Hjs | exact Hfresh].
    intros k' s' Hin'. apply (Hok' k' s' Hin').
  - eapply IH; eauto.
Qed.

Lemma sorted_entries_In (m : gmap string Service) (key : string) (s : Service) :
  In (key, s) (sorted_entries m) <-> m !! key = Some s.
Proof.
  unfold sorted_entries. rewrite <- list_elem_of_In.
  rewrite (merge_sort_Permutation key_le (map_to_list m)).
  apply elem_of_map_to_list.
Qed.

Lemma sorted_entries_NoDup (m : gmap string Service) : List.NoDup (map fst (sorted_entries m)).
Proof.
  apply NoDup_ListNoDup. unfold sorted_entries.
  rewrite (merge_sort_Permutation key_le (map_to_list m)).
  apply NoDup_fst_map_to_list.
Qed.

(** C8. Round trip through the snapshot. Let the records of the map be
    such as the snapshot can carry, and let saveServices write the
    snapshot. A fresh Manager for the same data file that loads the
    snapshot from the machine as saveServices left it has, for each id of
    the saved map, a record with the same id, name, exePath, args and
    workingDir as the saved one. *)
Theorem snapshot_round_trip (w : World OS) (data : Bytes) (o1 : OS) (fresh : WindowsServiceManager) :
  (forall id s, services (wsm w) !! id = Some s -> persistable id s) ->
  json_MarshalIndent (services (wsm w)) = Ok data ->
  os_WriteFile (dataFile (wsm w)) data (os w) = (Ok tt, o1) ->
  NewWindowsServiceManager (Ok (dataFile (wsm w))) = Some fresh ->
  let saved := snd (saveServices w) in
  let reloaded := snd (loadServices (mkWorld (os saved) fresh [])) in
  forall id s,
    services (wsm w) !! id = Some s ->
    exists s', services (wsm reloaded) !! id = Some s' /\ same_parameters s s'.
Proof.
  intros Hok Henc Hwrite Hnew saved reloaded id s Hs.
  injection Hnew as <-.
  assert (Hos : os saved = o1).
  { unfold saved. rewrite saveServices_run. cbn [snd os].
    unfold snapshot_machine. rewrite Henc, Hwrite. reflexivity. }
  destruct (Write_then_Read _ _ _ _ Hwrite) as (Hread & Hthere).
  assert (Hload : services (wsm reloaded) = json_Unmarshal data ∅).
  { unfold reloaded, loadServices. run. rewrite Hos, Hthere. run. rewrite Hread. run.
    reflexivity. }
  rewrite Hload. unfold json_MarshalIndent in Henc.
  destruct (encode_members (sorted_entries (services (wsm w)))) as [members|] eqn:Hm;
    [|discriminate].
  injection Henc as <-. cbn [json_Unmarshal].
  eapply decode_map_entry; [apply sorted_entries_NoDup | | exact Hm | ].
  - intros k s0 Hin. apply Hok. apply sorted_entries_In. exact Hin.
  - apply sorted_entries_In. exact Hs.
Qed.

End Snapshot.

(** ** Names, the host's entry and the theme *)

Lemma byte_of_char_of (b : Z) : 0 <= b < 256 -> byte_of (char_of b) = b.
Proof.
  intros Hb. unfold byte_of, char_of.
  rewrite N_ascii_embedding by lia. apply Z2N.id. lia.
Qed.

Lemma cleanRune_id_char (r : Z) :
  (is_alnum (cleanRune r) || (cleanRune r =? 95)) = true /\ 0 <= cleanRune r < 256.
Proof.
  unfold cleanRune, is_alnum.
  destruct (((97 <=? r) && (r <=? 122)) || ((65 <=? r) && (r <=? 90))
            || ((48 <=? r) && (r <=? 57))) eqn:Hr.
  - rewrite Hr. split; [reflexivity|lia].
  - split; [reflexivity|lia].
Qed.

Lemma Map_from_id_chars (s : string) :
  forall skip, id_chars (Map_from cleanRune skip s) = true.
Proof.
  induction s as [|c rest IH]; intros skip; [reflexivity|].
  cbn [Map_from]. destruct skip as [|skip]; [|apply IH].
  destruct (DecodeRuneInString (String c rest)) as [r width].
  change (id_chars (String (char_of (cleanRune r)) (Map_from cleanRune (width - 1) rest)) = true).
  cbn [id_chars]. destruct (cleanRune_id_char r) as (Hchar & Hrange).
  rewrite (byte_of_char_of _ Hrange), Hchar, IH. reflexivity.
Qed.

(** A text of letters, digits and underscores is its own sanitized form. *)
Lemma cleanName_fixed (name : string) : id_chars name = true -> cleanName name = name.
Proof.
  unfold cleanName, strings_Map.
  induction name as [|c rest IH]; intros Hname; [reflexivity|].
  cbn [id_chars] in Hname. apply andb_prop in Hname as [Hc Hrest].
  cbn [Map_from].
  assert (Hascii : (byte_of c <? 128) = true).
  { unfold is_alnum in Hc. apply Z.ltb_lt. lia. }
  unfold DecodeRuneInString. rewrite Hascii.
  assert (Hclean : cleanRune (byte_of c) = byte_of c).
  { unfold cleanRune. unfold is_alnum in Hc.
    destruct (((97 <=? byte_of c) && (byte_of c <=? 122))
              || ((65 <=? byte_of c) && (byte_of c <=? 90))
              || ((48 <=? byte_of c) && (byte_of c <=? 57))); [reflexivity|].
    simpl in Hc. lia. }
  rewrite Hclean. unfold WriteRune. rewrite char_of_byte_of.
  change (String c (Map_from cleanRune (1 - 1) rest) = String c rest).
  change (1 - 1)%nat with 0%nat. rewrite (IH Hrest). reflexivity.
Qed.

(** X28. The sanitized form of a name, whatever bytes the name holds, is
    spelt with ASCII letters, digits and underscores only; sanitizing is
    idempotent; and so a name and its sanitized form are given the same id
    at the same instant. *)
Theorem cleanName_is_identifier_safe (now : Time) (name : string) :
  id_chars (cleanName name) = true /\
  cleanName (cleanName name) = cleanName name /\
  generateServiceName now (cleanName name) = generateServiceName now name.
Proof.
  assert (Hsafe : id_chars (cleanName name) = true) by apply Map_from_id_chars.
  assert (Hidem : cleanName (cleanName name) = cleanName name)
    by (apply cleanName_fixed; exact Hsafe).
  split; [exact Hsafe|]. split; [exact Hidem|].
  unfold generateServiceName. rewrite Hidem. reflexivity.
Qed.

(** X29. The program runs as the host of a service exactly when it is
    started with at least two arguments of which the first is
    "--service-wrapper": the service is then the one the second argument
    names, and further arguments are ignored. In every other case the
    answer is (false, ""). *)
Theorem IsServiceWrapperMode_iff (args : list string) (name : string) :
  (IsServiceWrapperMode args = (true, name) <->
   exists exe rest, args = exe :: "--service-wrapper" :: name :: rest) /\
  (fst (IsServiceWrapperMode args) = false -> IsServiceWrapperMode args = (false, "")).
Proof.
  unfold IsServiceWrapperMode.
  destruct args as [|exe [|flag [|n rest]]];
    try (split; [split; [discriminate | intros (? & ? & [=])] | reflexivity]).
  cbn [List.length Nat.leb nth andb].
  destruct (String.eqb_spec flag "--service-wrapper") as [->|Hne].
  - split; [|discriminate]. split.
    + intros [= <-]. eauto.
    + intros (? & ? & [= _ <-]). reflexivity.
  - split; [|reflexivity]. split; [discriminate|].
    intros (? & ? & [= _ Hflag]). congruence.
Qed.

Section ThemePreference.

Context {OS : Type} {P : Platform OS} {D : Directories OS}.

(** X30. The theme read is always "light" or "dark", whatever the theme
    file holds and whether or not it can be found, read or decoded; and
    after a SetTheme that succeeded, GetTheme on the same path answers
    "dark" when "dark" was asked for and "light" for every other text. *)
Theorem theme_is_light_or_dark
        (theme p : string) (path : result string) (o o' : OS) :
  (GetTheme path o = "light" \/ GetTheme path o = "dark") /\
  (SetTheme theme (Ok p) o = (Ok tt, o') ->
   GetTheme (Ok p) o' = if decide (theme = "dark") then "dark" else "light").
Proof.
  split.
  - unfold GetTheme. destruct path as [file|err]; [|auto].
    destruct (os_ReadFile file o) as [data|err]; [|auto].
    destruct (Theme_Unmarshal data (mkThemeData "")) as [themeData|err]; [|auto].
    destruct (decide (Theme themeData <> "light" /\ Theme themeData <> "dark")) as [|Hknown];
      [auto|].
    destruct (decide (Theme themeData = "light")); [auto|].
    destruct (decide (Theme themeData = "dark")); [auto|]. tauto.
  - unfold SetTheme.
    destruct (os_MkdirAll (filepath_Dir p) o) as [[[]|err] o1]; [|discriminate].
    intros Hwrite. apply Write_then_Read in Hwrite as [Hread _].
    unfold GetTheme. rewrite Hread.
    destruct (decide (theme = "dark")) as [->|Hdark]; [reflexivity|].
    destruct (decide (theme = "light")) as [->|Hlight]; [reflexivity|].
    rewrite decide_True by tauto. reflexivity.
Qed.

End ThemePreference.

(** ** The properties at work on the in-memory machine *)

Lemma pair_eta {A B} (p : A * B) (a : A) : fst p = a -> p = (a, snd p).
Proof. destruct p. simpl. intros ->. reflexivity. Qed.

Lemma no_delete_in (l : list Event) :
  forallb (fun ev => negb (is_delete ev)) l = true -> forall name, ~ In (EvDelete name) l.
Proof.
  intros Hall name Hin.
  apply (proj1 (forallb_forall _ l) Hall) in Hin. discriminate.
Qed.

(** C1 as stated fails: when only the registration of the working
    directory fails after the service was created, CreateService prints a
    warning and succeeds; no deletion is requested, and the service stays
    registered without its working directory. *)
Lemma CreateService_keeps_service_without_working_directory :
  let w := fresh_world (fresh_machine instant [FailRegSet "AppDirectory"] boots) in
  fst (CreateService request w) = Ok created_service /\
  In (EvPrintf ("Warning: failed to set working directory: "
                  +:+ "failed to set registry value: access denied" +:+ newline))
     (trace (snd (CreateService request w))) /\
  (forall name, ~ In (EvDelete name) (trace (snd (CreateService request w)))) /\
  is_Some (fk_services (os (snd (CreateService request w))) !! My_App) /\
  is_Err (fk_GetStringValue (parametersKey My_App) "AppDirectory"
                            (os (snd (CreateService request w)))) = true.
Proof.
  intros w. split; [vm_compute; reflexivity|].
  split; [vm_compute; tauto|].
  split; [apply no_delete_in; vm_compute; reflexivity|].
  split; [vm_compute; eauto|].
  vm_compute. reflexivity.
Qed.

Lemma CreateService_rollback_witness :
  let w := fresh_world (fresh_machine instant [FailRegSet "ImagePath"] boots) in
  exists evs,
    trace (snd (CreateService request w)) = trace w ++ evs /\
    match fst (CreateService request w) with
    | Err err =>
      In (EvDelete My_App) evs /\
      wsm (snd (CreateService request w)) = wsm w /\
      exists cause,
        err = Errorf "failed to create service wrapper" cause \/
        err = Errorf "failed to set service path" cause
    | Ok service =>
      ~ In (EvDelete My_App) evs /\
      services (wsm (snd (CreateService request w))) !! My_App = Some service
    end.
Proof.
  intros w.
  assert (Hid : generateServiceName (time_Now (os w)) (cfg_Name request) = My_App)
    by (vm_compute; reflexivity).
  rewrite <- Hid.
  apply (CreateService_rollback
           request w (os w)
           (snd (mgr_CreateService
                   (generateServiceName (time_Now (os w)) (cfg_Name request))
                   (binaryPath_of request) (serviceConfig_of request) (os w)))).
  - vm_compute. reflexivity.
  - vm_compute. reflexivity.
  - vm_compute. reflexivity.
  - apply pair_eta. vm_compute. reflexivity.
Defined.

Lemma CreateService_AutoStart_false_witness :
  AutoStart created_service = false /\
  GetServiceAutoStart (ID created_service) (wsm created_world) = false /\
  (exists evs binaryPath serviceConfig,
      trace created_world = trace world0 ++ evs /\
      In (EvCreateService (ID created_service) binaryPath serviceConfig) evs /\
      mc_StartType serviceConfig = StartAutomatic) /\
  (forall (w2 : World FakeOS) (serviceID : string),
      GetServiceAutoStart (ID created_service) (wsm w2) = false ->
      GetServiceAutoStart (ID created_service) (wsm (snd (StartService serviceID w2))) = false /\
      GetServiceAutoStart (ID created_service) (wsm (snd (StopService serviceID w2))) = false /\
      GetServiceAutoStart (ID created_service) (wsm (snd (GetServices w2))) = false).
Proof.
  unfold created_world.
  apply (CreateService_AutoStart_false
           request world0 created_service (snd (CreateService request world0))).
  apply pair_eta. vm_compute. reflexivity.
Defined.

Lemma StopService_already_stopped_witness :
  exists (w' : World FakeOS) (evs : list Event),
    StopService My_App registered_world = (Ok tt, w') /\
    trace w' = trace registered_world ++ evs /\
    evs = [EvConnect; EvOpenService My_App; EvQuery My_App]
            ++ snapshot_events (wsm w') ++ [EvClose My_App; EvDisconnect] /\
    (forall name c, ~ In (EvControl name c) evs) /\
    (forall d, ~ In (EvSleep d) evs) /\
    services (wsm w') !! My_App =
      Some (set_UpdatedAt (time_Now (os registered_world))
                          (set_PID 0 (set_Status "stopped" created_service))).
Proof.
  apply (StopService_already_stopped
           My_App registered_world created_service
           (os registered_world) (os registered_world) (os registered_world) (mkStatus Stopped 0)).
  - vm_compute. reflexivity.
  - vm_compute. reflexivity.
  - vm_compute. reflexivity.
  - vm_compute. reflexivity.
  - reflexivity.
Defined.

Lemma status_error_is_cached_witness :
  exists (w1 : World FakeOS) (stamp : Time),
    getServiceRealTimeStatus My_App orphan_world = (("error", 0), w1) /\
    cache (statusCache (wsm w1)) !! My_App = Some (mkCached "error" 0 stamp) /\
    forall w2 : World FakeOS,
      statusCache (wsm w2) = statusCache (wsm w1) ->
      time_Now (os w2) - stamp <= 5 * Second ->
      getServiceRealTimeStatus My_App w2 = (("error", 0), w2).
Proof.
  apply (status_error_is_cached My_App orphan_world).
  - reflexivity.
  - vm_compute. reflexivity.
  - left. vm_compute. reflexivity.
Defined.

Lemma StartService_polls_witness :
  let o4 := snd (Service_Start My_App (os registered_world)) in
  exists (evs : list Event) (r : result unit) (o5 : FakeOS) (w' : World FakeOS),
    Polls My_App Running (time_Now o4 + 30 * Second) o4 evs r o5 /\
    pollInterval = 500 * Millisecond /\
    match r with
    | Err err =>
      StartService My_App registered_world = (Err err, w') /\
      services (wsm w') !! My_App
        = Some (set_UpdatedAt (time_Now o5) (set_Status "error" created_service)) /\
      (err = "timeout waiting for service state" -> time_Now o4 + 30 * Second <= time_Now o5) /\
      trace w' = trace registered_world
                   ++ [EvConnect; EvOpenService My_App; EvQuery My_App; EvStart My_App]
                   ++ evs ++ snapshot_events (wsm w') ++ [EvClose My_App; EvDisconnect]
    | Ok _ =>
      StartService My_App registered_world = (Ok tt, w') /\
      exists pid stamp,
        services (wsm w') !! My_App
          = Some (set_UpdatedAt stamp (set_PID pid (set_Status "running" created_service))) /\
        cache (statusCache (wsm w')) !! My_App = Some (mkCached "running" pid stamp) /\
        trace w' = trace registered_world
                     ++ [EvConnect; EvOpenService My_App; EvQuery My_App; EvStart My_App]
                     ++ evs ++ [EvQuery My_App] ++ snapshot_events (wsm w')
                     ++ status_events (wsm w') My_App "running" pid
                     ++ [EvClose My_App; EvDisconnect]
    end.
Proof.
  intros o4. subst o4.
  assert (H1 : services (wsm registered_world) !! My_App = Some created_service)
    by (vm_compute; reflexivity).
  assert (H2 : mgr_Connect (os registered_world) = (Ok tt, os registered_world))
    by (vm_compute; reflexivity).
  assert (H3 : mgr_OpenService My_App (os registered_world) = (Ok tt, os registered_world))
    by (vm_compute; reflexivity).
  assert (H4 : Service_Query My_App (os registered_world)
               = (Ok (mkStatus Stopped 0), os registered_world))
    by (vm_compute; reflexivity).
  assert (H5 : State (mkStatus Stopped 0) <> Running) by discriminate.
  assert (H6 : Service_Start My_App (os registered_world)
               = (Ok tt, snd (Service_Start My_App (os registered_world))))
    by (apply pair_eta; vm_compute; reflexivity).
  exact (StartService_polls My_App registered_world created_service
                            (os registered_world) (os registered_world) (os registered_world) _
                            (mkStatus Stopped 0) H1 H2 H3 H4 H5 H6).
Defined.

(** A service that never leaves the pending state: StartService polls 60
    times, half a second apart, gives up after 30 s with the timeout, and
    leaves the record with the status "error". *)
Example StartService_times_out :
  let w := snd (CreateService request (fresh_world (fresh_machine instant [] []))) in
  let r := StartService My_App w in
  fst r = Err "timeout waiting for service state" /\
  Status <$> (services (wsm (snd r)) !! My_App) = Some "error" /\
  List.length (List.filter (fun ev => match ev with EvSleep _ => true | _ => false end)
                           (trace (snd r))) = 60%nat /\
  time_Now (os (snd r)) = instant + 30 * Second.
Proof. vm_compute. auto. Qed.

(** A service that starts: it is seen pending, then running; the record
    and the cache say "running" with its pid. *)
Example StartService_succeeds :
  let r := StartService My_App created_world in
  fst r = Ok tt /\
  (fun s => (Status s, PID s)) <$> (services (wsm (snd r)) !! My_App) = Some ("running", 4242) /\
  Cache_Get instant (statusCache (wsm (snd r))) My_App = Some (mkCached "running" 4242
                                                                      (instant + 500 * Millisecond)).
Proof. vm_compute. auto. Qed.

(** C3 as stated fails: on a machine where "My App" runs and cannot be
    deleted, DeleteService stops it, fails to delete it and returns the
    failure; the record is still listed by GetServices, but with the
    status "stopped" and not the "running" it had. *)
Lemma DeleteService_failure_changes_listed_status :
  services (wsm running_world) !! My_App = Some running_service /\
  Status running_service = "running" /\
  fst (DeleteService My_App running_world) = Err "failed to delete service: access denied" /\
  exists listed,
    fst (GetServices (snd (DeleteService My_App running_world))) = Ok [listed] /\
    ID listed = My_App /\
    Status listed = "stopped" /\
    Status listed <> Status running_service.
Proof.
  split; [vm_compute; reflexivity|].
  split; [reflexivity|].
  split; [vm_compute; reflexivity|].
  eexists. split; [vm_compute; reflexivity|].
  split; [reflexivity|]. split; [reflexivity|]. discriminate.
Qed.

Lemma DeleteService_failure_keeps_record_witness :
  exists w' : World FakeOS,
    DeleteService My_App running_world
      = (Err (Errorf "failed to delete service" "access denied"), w') /\
    wsm w' = wsm running_world /\
    services (wsm w') !! My_App = Some running_service /\
    forall (w2 : World FakeOS) (o4 : FakeOS),
      wsm w2 = wsm w' ->
      mgr_Connect (os w2) = (Ok tt, o4) ->
      exists l service',
        fst (GetServices w2) = Ok l /\ In service' l /\ same_service running_service service'.
Proof.
  apply (DeleteService_failure_keeps_record
           My_App running_world running_service
           (os running_world) (os running_world)
           (snd (Service_Delete
                   My_App
                   (os (snd (bestEffortStop
                               My_App
                               (mkWorld (os running_world) (wsm running_world)
                                        ((trace running_world ++ [EvConnect])
                                           ++ [EvOpenService My_App])))))))).
  - vm_compute. reflexivity.
  - vm_compute. reflexivity.
  - vm_compute. reflexivity.
  - apply pair_eta. vm_compute. reflexivity.
Defined.

Lemma snapshot_round_trip_witness :
  let saved := snd (saveServices registered_world) in
  let fresh := mkWSM (dataFile (wsm registered_world)) ∅ NewServiceStatusCache false in
  let reloaded := snd (loadServices (mkWorld (os saved) fresh [])) in
  exists s',
    services (wsm reloaded) !! My_App = Some s' /\ same_parameters created_service s'.
Proof.
  intros saved fresh reloaded. subst saved fresh reloaded.
  assert (Hok : forall id s, services (wsm registered_world) !! id = Some s -> persistable id s).
  { intros id s Hs. unfold registered_world in Hs. cbn [wsm services] in Hs.
    apply lookup_singleton_Some in Hs as [<- <-].
    repeat split; try (vm_compute; reflexivity);
      intros text Htext; vm_compute in Htext; injection Htext as <-;
      eexists; vm_compute; reflexivity. }
  assert (Henc : json_MarshalIndent (services (wsm registered_world))
                 = Ok (match json_MarshalIndent (services (wsm registered_world)) with
                       | Ok data => data
                       | Err _ => OtherBytes
                       end))
    by (vm_compute; reflexivity).
  assert (Hwrite : os_WriteFile
                     (dataFile (wsm registered_world))
                     (match json_MarshalIndent (services (wsm registered_world)) with
                      | Ok data => data
                      | Err _ => OtherBytes
                      end)
                     (os registered_world)
                   = (Ok tt,
                      snd (os_WriteFile
                             (dataFile (wsm registered_world))
                             (match json_MarshalIndent (services (wsm registered_world)) with
                              | Ok data => data
                              | Err _ => OtherBytes
                              end)
                             (os registered_world))))
    by (apply pair_eta; vm_compute; reflexivity).
  assert (Hs : services (wsm registered_world) !! My_App = Some created_service)
    by (apply lookup_singleton_eq).
  exact (snapshot_round_trip
           registered_world _ _
           (mkWSM (dataFile (wsm registered_world)) ∅ NewServiceStatusCache false)
           Hok Henc Hwrite eq_refl My_App created_service Hs).
Defined.

(** ** Further properties at work on the in-memory machine *)

Lemma Cache_CleanExpired_invisible_witness :
  Cache_Get (7 * Second)
            (Cache_CleanExpired (6 * Second) (Cache_Set 0 NewServiceStatusCache "svc" "running" 7))
            "svc"
  = Cache_Get (7 * Second) (Cache_Set 0 NewServiceStatusCache "svc" "running" 7) "svc".
Proof.
  apply (Cache_CleanExpired_invisible
           (6 * Second) (7 * Second) (Cache_Set 0 NewServiceStatusCache "svc" "running" 7) "svc").
  vm_compute. discriminate.
Defined.

Lemma Cache_Set_writes_one_entry_witness :
  Cache_Set 2 (Cache_Set 1 NewServiceStatusCache "svc" "starting" 0) "svc" "running" 7
    = Cache_Set 2 NewServiceStatusCache "svc" "running" 7 /\
  Cache_Get 3 (Cache_Set 1 NewServiceStatusCache "svc" "starting" 0) "other"
    = Cache_Get 3 NewServiceStatusCache "other".
Proof.
  destruct (Cache_Set_writes_one_entry 3 1 2 NewServiceStatusCache "svc" "other"
                                       "starting" "running" 0 7) as (Hover & Hframe).
  split; [exact Hover|]. apply Hframe. discriminate.
Defined.

Lemma Cache_Get_miss_persists_witness :
  Cache_Get (7 * Second) (Cache_Set 0 NewServiceStatusCache "svc" "running" 7) "svc" = None.
Proof.
  apply (Cache_Get_miss_persists
           (6 * Second) (7 * Second) (Cache_Set 0 NewServiceStatusCache "svc" "running" 7) "svc").
  - vm_compute. discriminate.
  - vm_compute. reflexivity.
Defined.

Lemma unknown_service_is_rejected_witness :
  StartService My_App world0 = (Err ("service does not exist: " +:+ My_App), world0) /\
  StopService My_App world0 = (Err ("service does not exist: " +:+ My_App), world0) /\
  DeleteService My_App world0 = (Err ("service does not exist: " +:+ My_App), world0) /\
  SetServiceAutoStart My_App true world0
    = (Err ("service does not exist: " +:+ My_App), world0) /\
  GetServiceAutoStart My_App (wsm world0) = false.
Proof.
  assert (H : services (wsm world0) !! My_App = None) by (vm_compute; reflexivity).
  exact (unknown_service_is_rejected My_App true world0 H).
Defined.

Lemma connection_failure_stops_every_method_witness :
  GetServices unreachable_world
    = connection_refused "access denied" (os unreachable_world) unreachable_world /\
  fst (App_GetServices unreachable_world) = [] /\
  (StartService My_App unreachable_world
     = connection_refused "access denied" (os unreachable_world) unreachable_world /\
   StopService My_App unreachable_world
     = connection_refused "access denied" (os unreachable_world) unreachable_world /\
   DeleteService My_App unreachable_world
     = connection_refused "access denied" (os unreachable_world) unreachable_world /\
   SetServiceAutoStart My_App true unreachable_world
     = connection_refused "access denied" (os unreachable_world) unreachable_world) /\
  CreateService other_request unreachable_world
    = connection_refused "access denied" (os unreachable_world) unreachable_world.
Proof.
  assert (Hc : mgr_Connect (os unreachable_world) = (Err "access denied", os unreachable_world))
    by (vm_compute; reflexivity).
  destruct (connection_failure_stops_every_method
              unreachable_world "access denied" (os unreachable_world)
              My_App true other_request Hc) as (Hlist & Happ & Hknown & Hcreate).
  split; [exact Hlist|]. split; [exact Happ|]. split.
  - apply Hknown. exists created_service. vm_compute. reflexivity.
  - apply Hcreate; vm_compute; reflexivity.
Defined.

Lemma open_failure_closes_the_session_witness :
  StartService My_App orphan_world
    = open_refused My_App "the specified service does not exist" (os orphan_world) orphan_world /\
  StopService My_App orphan_world
    = open_refused My_App "the specified service does not exist" (os orphan_world) orphan_world /\
  DeleteService My_App orphan_world
    = open_refused My_App "the specified service does not exist" (os orphan_world) orphan_world /\
  SetServiceAutoStart My_App true orphan_world
    = open_refused My_App "the specified service does not exist" (os orphan_world) orphan_world.
Proof.
  assert (H1 : services (wsm orphan_world) !! My_App = Some created_service)
    by (vm_compute; reflexivity).
  assert (H2 : mgr_Connect (os orphan_world) = (Ok tt, os orphan_world))
    by (vm_compute; reflexivity).
  assert (H3 : mgr_OpenService My_App (os orphan_world)
               = (Err "the specified service does not exist", os orphan_world))
    by (vm_compute; reflexivity).
  exact (open_failure_closes_the_session
           My_App true orphan_world created_service (os orphan_world) (os orphan_world)
           "the specified service does not exist" H1 H2 H3).
Defined.

Lemma StartService_already_running_witness :
  StartService My_App live_world =
  (Err "service is already running",
   mkWorld (mgr_Disconnect (Service_Close My_App (os live_world))) (wsm live_world)
           (trace live_world ++ [EvConnect; EvOpenService My_App; EvQuery My_App;
                                 EvClose My_App; EvDisconnect])).
Proof.
  assert (H1 : services (wsm live_world) !! My_App = Some created_service)
    by (vm_compute; reflexivity).
  assert (H2 : mgr_Connect (os live_world) = (Ok tt, os live_world))
    by (vm_compute; reflexivity).
  assert (H3 : mgr_OpenService My_App (os live_world) = (Ok tt, os live_world))
    by (vm_compute; reflexivity).
  assert (H4 : Service_Query My_App (os live_world)
               = (Ok (mkStatus Running 4242), os live_world))
    by (vm_compute; reflexivity).
  exact (StartService_already_running
           My_App live_world created_service
           (os live_world) (os live_world) (os live_world) (mkStatus Running 4242)
           H1 H2 H3 H4 eq_refl).
Defined.

Lemma refused_request_keeps_the_record_witness :
  StartService My_App stuck_world =
  (Err (Errorf "failed to start service" "access denied"),
   mkWorld (mgr_Disconnect (Service_Close My_App (os stuck_world))) (wsm stuck_world)
           (trace stuck_world ++ [EvConnect; EvOpenService My_App; EvQuery My_App;
                                  EvStart My_App; EvClose My_App; EvDisconnect])) /\
  StopService My_App deaf_world =
  (Err (Errorf "failed to send stop signal" "access denied"),
   mkWorld (mgr_Disconnect (Service_Close My_App (os deaf_world))) (wsm deaf_world)
           (trace deaf_world ++ [EvConnect; EvOpenService My_App; EvQuery My_App;
                                 EvControl My_App Stop; EvClose My_App; EvDisconnect])).
Proof.
  split.
  - assert (H1 : services (wsm stuck_world) !! My_App = Some created_service)
      by (vm_compute; reflexivity).
    assert (H2 : mgr_Connect (os stuck_world) = (Ok tt, os stuck_world))
      by (vm_compute; reflexivity).
    assert (H3 : mgr_OpenService My_App (os stuck_world) = (Ok tt, os stuck_world))
      by (vm_compute; reflexivity).
    assert (H4 : Service_Query My_App (os stuck_world)
                 = (Ok (mkStatus Stopped 0), os stuck_world))
      by (vm_compute; reflexivity).
    assert (H5 : State (mkStatus Stopped 0) <> Running) by discriminate.
    assert (H6 : Service_Start My_App (os stuck_world) = (Err "access denied", os stuck_world))
      by (vm_compute; reflexivity).
    exact (proj1 (refused_request_keeps_the_record
                    My_App stuck_world created_service
                    (os stuck_world) (os stuck_world) (os stuck_world) (os stuck_world)
                    (mkStatus Stopped 0) "access denied" H1 H2 H3 H4) H5 H6).
  - assert (H1 : services (wsm deaf_world) !! My_App = Some created_service)
      by (vm_compute; reflexivity).
    assert (H2 : mgr_Connect (os deaf_world) = (Ok tt, os deaf_world))
      by (vm_compute; reflexivity).
    assert (H3 : mgr_OpenService My_App (os deaf_world) = (Ok tt, os deaf_world))
      by (vm_compute; reflexivity).
    assert (H4 : Service_Query My_App (os deaf_world)
                 = (Ok (mkStatus Running 4242), os deaf_world))
      by (vm_compute; reflexivity).
    assert (H5 : State (mkStatus Running 4242) <> Stopped) by discriminate.
    assert (H6 : Service_Control My_App Stop (os deaf_world)
                 = (Err "access denied", os deaf_world))
      by (vm_compute; reflexivity).
    exact (proj2 (refused_request_keeps_the_record
                    My_App deaf_world created_service
                    (os deaf_world) (os deaf_world) (os deaf_world) (os deaf_world)
                    (mkStatus Running 4242) "access denied" H1 H2 H3 H4) H5 H6).
Defined.

Lemma handles_are_released_witness :
  (exists evs, trace (snd (StartService My_App live_world)) = trace live_world ++ evs /\
               one_session My_App evs) /\
  (exists evs, trace (snd (StopService My_App live_world)) = trace live_world ++ evs /\
               one_session My_App evs) /\
  (exists evs, trace (snd (DeleteService My_App live_world)) = trace live_world ++ evs /\
               one_session My_App evs) /\
  (exists evs, trace (snd (SetServiceAutoStart My_App true live_world))
               = trace live_world ++ evs /\
               one_session My_App evs).
Proof.
  assert (H1 : services (wsm live_world) !! My_App = Some created_service)
    by (vm_compute; reflexivity).
  assert (H2 : mgr_Connect (os live_world) = (Ok tt, os live_world))
    by (vm_compute; reflexivity).
  assert (H3 : mgr_OpenService My_App (os live_world) = (Ok tt, os live_world))
    by (vm_compute; reflexivity).
  exact (handles_are_released
           My_App true live_world created_service (os live_world) (os live_world) H1 H2 H3).
Defined.

Lemma StopService_polls_witness :
  let o4 := snd (Service_Control My_App Stop (os live_world)) in
  exists (evs : list Event) (r : result unit) (o5 : FakeOS) (w' : World FakeOS),
    Polls My_App Stopped (time_Now o4 + 30 * Second) o4 evs r o5 /\
    match r with
    | Err err =>
      StopService My_App live_world = (Err err, w') /\
      wsm w' = wsm live_world /\
      trace w' = trace live_world
                   ++ [EvConnect; EvOpenService My_App; EvQuery My_App;
                       EvControl My_App Stop]
                   ++ evs ++ [EvClose My_App; EvDisconnect]
    | Ok _ =>
      StopService My_App live_world = (Ok tt, w') /\
      services (wsm w') !! My_App
        = Some (set_UpdatedAt (time_Now o5) (set_PID 0 (set_Status "stopped" created_service))) /\
      cache (statusCache (wsm w')) !! My_App = Some (mkCached "stopped" 0 (time_Now o5)) /\
      trace w' = trace live_world
                   ++ [EvConnect; EvOpenService My_App; EvQuery My_App;
                       EvControl My_App Stop]
                   ++ evs ++ snapshot_events (wsm w')
                   ++ status_events (wsm w') My_App "stopped" 0
                   ++ [EvClose My_App; EvDisconnect]
    end.
Proof.
  intros o4. subst o4.
  assert (H1 : services (wsm live_world) !! My_App = Some created_service)
    by (vm_compute; reflexivity).
  assert (H2 : mgr_Connect (os live_world) = (Ok tt, os live_world))
    by (vm_compute; reflexivity).
  assert (H3 : mgr_OpenService My_App (os live_world) = (Ok tt, os live_world))
    by (vm_compute; reflexivity).
  assert (H4 : Service_Query My_App (os live_world)
               = (Ok (mkStatus Running 4242), os live_world))
    by (vm_compute; reflexivity).
  assert (H5 : State (mkStatus Running 4242) <> Stopped) by discriminate.
  assert (H6 : Service_Control My_App Stop (os live_world)
               = (Ok (mkStatus Stopped 0), snd (Service_Control My_App Stop (os live_world))))
    by (apply pair_eta; vm_compute; reflexivity).
  exact (StopService_polls My_App live_world created_service
                           (os live_world) (os live_world) (os live_world) _
                           (mkStatus Running 4242) (mkStatus Stopped 0) H1 H2 H3 H4 H5 H6).
Defined.

Lemma DeleteService_removes_the_record_witness :
  exists (w' : World FakeOS) (evs : list Event),
    DeleteService My_App live_world = (Ok tt, w') /\
    wsm w' = mkWSM (dataFile (wsm live_world))
                   (delete My_App (services (wsm live_world)))
                   (Cache_Remove (statusCache (wsm live_world)) My_App)
                   (ctx (wsm live_world)) /\
    Forall is_stop_call evs /\
    trace w' = trace live_world
                 ++ [EvConnect; EvOpenService My_App] ++ evs ++ [EvDelete My_App]
                 ++ snapshot_events (wsm w') ++ updated_events (wsm w')
                 ++ [EvClose My_App; EvDisconnect] /\
    StartService My_App w' = (Err ("service does not exist: " +:+ My_App), w').
Proof.
  assert (H1 : services (wsm live_world) !! My_App = Some created_service)
    by (vm_compute; reflexivity).
  assert (H2 : mgr_Connect (os live_world) = (Ok tt, os live_world))
    by (vm_compute; reflexivity).
  assert (H3 : mgr_OpenService My_App (os live_world) = (Ok tt, os live_world))
    by (vm_compute; reflexivity).
  assert (H4 : Service_Delete
                 My_App
                 (os (snd (bestEffortStop
                             My_App
                             (mkWorld (os live_world) (wsm live_world)
                                      ((trace live_world ++ [EvConnect])
                                         ++ [EvOpenService My_App])))))
               = (Ok tt,
                  snd (Service_Delete
                         My_App
                         (os (snd (bestEffortStop
                                     My_App
                                     (mkWorld (os live_world) (wsm live_world)
                                              ((trace live_world ++ [EvConnect])
                                                 ++ [EvOpenService My_App]))))))))
    by (apply pair_eta; vm_compute; reflexivity).
  exact (DeleteService_removes_the_record
           My_App live_world created_service (os live_world) (os live_world) _ H1 H2 H3 H4).
Defined.

Lemma SetServiceAutoStart_sets_the_flag_witness :
  let config := mkConfig SERVICE_WIN32_OWN_PROCESS StartAutomatic ErrorNormal
                         "C:\apps\app.exe" "My App" "" in
  let o4 := snd (Service_UpdateConfig My_App (with_StartType StartManual config)
                                      (os live_world)) in
  exists w' : World FakeOS,
    SetServiceAutoStart My_App false live_world = (Ok tt, w') /\
    services (wsm w') =
      <[My_App := set_UpdatedAt (time_Now o4) (set_AutoStart false created_service)]>
        (services (wsm live_world)) /\
    GetServiceAutoStart My_App (wsm w') = false /\
    (forall other, other <> My_App ->
                   GetServiceAutoStart other (wsm w') = GetServiceAutoStart other (wsm live_world)) /\
    trace w' = trace live_world
                 ++ [EvConnect; EvOpenService My_App; EvConfig My_App;
                     EvUpdateConfig
                       My_App
                       (mkConfig (ServiceType config)
                                 (if false then StartAutomatic else StartManual)
                                 (ErrorControl config) (BinaryPathName config)
                                 (DisplayName config) (Description config))]
                 ++ snapshot_events (wsm w') ++ [EvClose My_App; EvDisconnect].
Proof.
  intros config o4. subst o4 config.
  assert (H1 : services (wsm live_world) !! My_App = Some created_service)
    by (vm_compute; reflexivity).
  assert (H2 : mgr_Connect (os live_world) = (Ok tt, os live_world))
    by (vm_compute; reflexivity).
  assert (H3 : mgr_OpenService My_App (os live_world) = (Ok tt, os live_world))
    by (vm_compute; reflexivity).
  assert (H4 : Service_Config My_App (os live_world)
               = (Ok (mkConfig SERVICE_WIN32_OWN_PROCESS StartAutomatic ErrorNormal
                               "C:\apps\app.exe" "My App" ""),
                  os live_world))
    by (vm_compute; reflexivity).
  assert (H5 : Service_UpdateConfig
                 My_App
                 (with_StartType (if false then StartAutomatic else StartManual)
                                 (mkConfig SERVICE_WIN32_OWN_PROCESS StartAutomatic ErrorNormal
                                           "C:\apps\app.exe" "My App" ""))
                 (os live_world)
               = (Ok tt,
                  snd (Service_UpdateConfig
                         My_App
                         (with_StartType StartManual
                                         (mkConfig SERVICE_WIN32_OWN_PROCESS StartAutomatic
                                                   ErrorNormal "C:\apps\app.exe" "My App" ""))
                         (os live_world))))
    by (apply pair_eta; vm_compute; reflexivity).
  exact (SetServiceAutoStart_sets_the_flag
           My_App false live_world created_service
           (os live_world) (os live_world) (os live_world) _ _ H1 H2 H3 H4 H5).
Defined.

Lemma failed_methods_keep_the_Manager_witness :
  wsm (snd (StopService My_App unreachable_world)) = wsm unreachable_world /\
  wsm (snd (DeleteService My_App unreachable_world)) = wsm unreachable_world /\
  wsm (snd (SetServiceAutoStart My_App true unreachable_world)) = wsm unreachable_world /\
  wsm (snd (CreateService other_request unreachable_world)) = wsm unreachable_world /\
  wsm (snd (GetServices unreachable_world)) = wsm unreachable_world.
Proof.
  destruct (failed_methods_keep_the_Manager My_App true other_request unreachable_world)
    as (Hstop & Hdelete & Hflag & Hcreate & Hlist).
  split; [apply Hstop; vm_compute; reflexivity|].
  split; [apply Hdelete; vm_compute; reflexivity|].
  split; [apply Hflag; vm_compute; reflexivity|].
  split; [apply Hcreate; vm_compute; reflexivity|].
  apply Hlist; vm_compute; reflexivity.
Defined.

Lemma CreateService_checks_first_witness :
  CreateService lost_request world0
    = (Err ("executable does not exist: " +:+ cfg_ExePath lost_request), world0) /\
  CreateService request registered_world
    = (Err ("service name already exists: "
              +:+ generateServiceName (time_Now (os registered_world)) (cfg_Name request)),
       registered_world).
Proof.
  split.
  - apply (proj1 (CreateService_checks_first lost_request world0)).
    vm_compute. reflexivity.
  - apply (proj2 (CreateService_checks_first request registered_world)).
    + vm_compute. reflexivity.
    + exists created_service. vm_compute. reflexivity.
Defined.

Lemma CreateService_refused_by_the_SCM_witness :
  let w := fresh_world registered_machine in
  let serviceName := generateServiceName (time_Now (os w)) (cfg_Name request) in
  CreateService request w =
  (Err (Errorf "failed to create Windows service" "the specified service already exists"),
   mkWorld (mgr_Disconnect (os w)) (wsm w)
           (trace w ++ [EvConnect;
                        EvCreateService serviceName (binaryPath_of request)
                                        (serviceConfig_of request);
                        EvDisconnect])).
Proof.
  intros w serviceName. subst serviceName w.
  assert (H1 : os_Stat_IsNotExist (cfg_ExePath request) (os (fresh_world registered_machine))
               = false)
    by (vm_compute; reflexivity).
  assert (H2 : services (wsm (fresh_world registered_machine))
                 !! generateServiceName (time_Now (os (fresh_world registered_machine)))
                                        (cfg_Name request)
               = None)
    by (vm_compute; reflexivity).
  assert (H3 : mgr_Connect (os (fresh_world registered_machine))
               = (Ok tt, os (fresh_world registered_machine)))
    by (vm_compute; reflexivity).
  assert (H4 : mgr_CreateService
                 (generateServiceName (time_Now (os (fresh_world registered_machine)))
                                      (cfg_Name request))
                 (binaryPath_of request) (serviceConfig_of request)
                 (os (fresh_world registered_machine))
               = (Err "the specified service already exists",
                  os (fresh_world registered_machine)))
    by (vm_compute; reflexivity).
  exact (CreateService_refused_by_the_SCM
           request (fresh_world registered_machine)
           (os (fresh_world registered_machine)) (os (fresh_world registered_machine))
           "the specified service already exists" H1 H2 H3 H4).
Defined.

Lemma CreateService_records_and_defers_the_start_witness :
  ID created_service = generateServiceName (time_Now (os world0)) (cfg_Name request) /\
  Name created_service = cfg_Name request /\
  ExePath created_service = cfg_ExePath request /\
  Args created_service = cfg_Args request /\
  WorkingDir created_service = (if decide (cfg_WorkingDir request = "")
                                then filepath_Dir (cfg_ExePath request)
                                else cfg_WorkingDir request) /\
  Status created_service = "stopped" /\
  PID created_service = 0 /\
  wsm created_world
  = mkWSM (dataFile (wsm world0)) (<[ID created_service := created_service]> (services (wsm world0)))
          (statusCache (wsm world0)) (ctx (wsm world0)) /\
  exists evs,
    trace created_world
    = trace world0 ++ evs ++ [EvClose (ID created_service); EvDisconnect]
        ++ snapshot_events (wsm created_world) ++ updated_events (wsm created_world)
        ++ [EvGo (GoAutoStart (ID created_service))] /\
    (forall name, ~ In (EvStart name) evs).
Proof.
  unfold created_world.
  apply (CreateService_records_and_defers_the_start
           request world0 created_service (snd (CreateService request world0))).
  apply pair_eta. vm_compute. reflexivity.
Defined.

Lemma status_is_served_from_the_cache_witness :
  getServiceRealTimeStatus My_App cached_world = (("running", 4242), cached_world).
Proof.
  assert (Hhit : Cache_Get (time_Now (os cached_world)) (statusCache (wsm cached_world)) My_App
                 = Some (mkCached "running" 4242 instant))
    by (vm_compute; reflexivity).
  exact (status_is_served_from_the_cache
           My_App cached_world (mkCached "running" 4242 instant) Hhit).
Defined.

Lemma status_follows_the_reported_state_witness :
  exists (answer : string) (pid : Z),
    getServiceRealTimeStatus My_App paused_world
    = ((answer, pid),
       mkWorld (Service_Close My_App (os paused_world))
               (mkWSM (dataFile (wsm paused_world)) (services (wsm paused_world))
                      (Cache_Set (time_Now (os paused_world)) (statusCache (wsm paused_world))
                                 My_App answer pid)
                      (ctx (wsm paused_world)))
               (trace paused_world ++ [EvOpenService My_App; EvQuery My_App; EvClose My_App])) /\
    (State (mkStatus Paused 4242) = Running ->
     answer = "running" /\ pid = ProcessId (mkStatus Paused 4242)) /\
    (State (mkStatus Paused 4242) = StopPending ->
     answer = "stopping" /\ pid = ProcessId (mkStatus Paused 4242)) /\
    (State (mkStatus Paused 4242) = Stopped -> answer = "stopped" /\ pid = 0) /\
    (State (mkStatus Paused 4242) = StartPending -> answer = "starting" /\ pid = 0) /\
    (is_pause_state (State (mkStatus Paused 4242)) -> answer = "error" /\ pid = 0).
Proof.
  assert (H1 : Cache_Get (time_Now (os paused_world)) (statusCache (wsm paused_world)) My_App
               = None)
    by (vm_compute; reflexivity).
  assert (H2 : mgr_OpenService My_App (os paused_world) = (Ok tt, os paused_world))
    by (vm_compute; reflexivity).
  assert (H3 : Service_Query My_App (os paused_world)
               = (Ok (mkStatus Paused 4242), os paused_world))
    by (vm_compute; reflexivity).
  exact (status_follows_the_reported_state
           My_App paused_world (os paused_world) (os paused_world) (mkStatus Paused 4242)
           H1 H2 H3).
Defined.

Lemma GetServices_lists_the_map_witness :
  exists (l : list Service) (w' : World FakeOS),
    GetServices live_world = (Ok l, w') /\
    List.length l = size (services (wsm live_world)) /\
    (forall s', In s' l ->
                exists key s, services (wsm live_world) !! key = Some s /\
                              services (wsm w') !! key = Some s' /\
                              same_service s s') /\
    (forall key, is_Some (services (wsm w') !! key)
                 <-> is_Some (services (wsm live_world) !! key)) /\
    exists evs, trace w' = evs ++ [EvDisconnect; EvGo GoSaveServices].
Proof.
  assert (Hc : mgr_Connect (os live_world) = (Ok tt, os live_world))
    by (vm_compute; reflexivity).
  exact (GetServices_lists_the_map live_world (os live_world) Hc).
Defined.

Lemma loadServices_without_snapshot_witness :
  loadServices world0 = (tt, world0) /\
  loadServices garbled_world
  = (tt, mkWorld (os garbled_world) (wsm garbled_world)
                 (trace garbled_world ++ [EvReadFile (dataFile (wsm garbled_world))])).
Proof.
  split.
  - apply (proj1 (loadServices_without_snapshot world0)). vm_compute. reflexivity.
  - apply (proj2 (loadServices_without_snapshot garbled_world)).
    + vm_compute. reflexivity.
    + right. vm_compute. reflexivity.
Defined.

Lemma theme_is_light_or_dark_witness :
  GetTheme (Ok theme_file)
           (snd (SetTheme "dark" (Ok theme_file) (fresh_machine instant [] boots)))
  = (if decide ("dark" = "dark") then "dark" else "light") /\
  GetTheme (Ok theme_file)
           (snd (SetTheme "blue" (Ok theme_file) (fresh_machine instant [] boots)))
  = (if decide ("blue" = "dark") then "dark" else "light").
Proof.
  assert (Hdark : SetTheme "dark" (Ok theme_file) (fresh_machine instant [] boots)
                  = (Ok tt, snd (SetTheme "dark" (Ok theme_file)
                                          (fresh_machine instant [] boots))))
    by (apply pair_eta; vm_compute; reflexivity).
  assert (Hblue : SetTheme "blue" (Ok theme_file) (fresh_machine instant [] boots)
                  = (Ok tt, snd (SetTheme "blue" (Ok theme_file)
                                          (fresh_machine instant [] boots))))
    by (apply pair_eta; vm_compute; reflexivity).
  split.
  - exact (proj2 (theme_is_light_or_dark
                    "dark" theme_file (Ok theme_file) (fresh_machine instant [] boots) _)
                 Hdark).
  - exact (proj2 (theme_is_light_or_dark
                    "blue" theme_file (Ok theme_file) (fresh_machine instant [] boots) _)
                 Hblue).
Defined.
